(** * Citrus: two bit-banged buses on one set of GPIO lines

    A shallow embedding of the Citrus platform driver
    (drivers/platform/citrus: citrus-core.c, citrus-i2c.c, citrus-spi.c) and
    the properties of its arbiter lock, its two-wire fault injector, its
    two-wire timing defaults and its four-wire line callbacks.

    The driver is sequential C over shared mutable state (the GPIO lines,
    three locks, a few scalars).  It is modelled by a state monad over a
    [world] record; every access to a line or a lock is also appended to a
    log, so that orderings ("before the first line operation", "never a
    STOP") can be stated over the log.  What the rest of the kernel answers
    (a line level read back, the return code of a direction switch or of
    request_irq) is taken from the stream [w_ext] of the world. *)

From Stdlib Require Import ZArith List Bool Lia String.
Import ListNotations.
Local Open Scope Z_scope.

(** ** Constants and helpers the driver takes from kernel headers

    None of these is declared under drivers/platform/citrus; the model takes
    them as parameters. *)
Class Kernel := {
  EINVAL : Z;                      (* errno-base.h *)
  ENODEV : Z;
  ENOMEM : Z;
  HZ : Z;                          (* jiffies per second *)
  msecs_to_jiffies : Z -> Z;
  SPI_CPHA : Z;                    (* spi->mode bits, linux/spi/spi.h *)
  SPI_CPOL : Z;
  SPI_LSB_FIRST : Z;
  SPI_3WIRE : Z;
  SPI_3WIRE_HIZ : Z;
  SPI_MASTER_NO_TX : Z;            (* master->flags bit *)
  CONFIG_I2C_GPIO_FAULT_INJECTOR : bool
}.

(** ** Machine integers *)

Definition to_u32 (x : Z) : Z := x mod 2 ^ 32.
Definition to_u64 (x : Z) : Z := x mod 2 ^ 64.
(** Conversion to a C [int] (two's complement, 32 bits). *)
Definition to_int (x : Z) : Z := (x + 2 ^ 31) mod 2 ^ 32 - 2 ^ 31.
(** C truth value of an integer. *)
Definition truthy (x : Z) : bool := negb (x =? 0).
(** GNU C [a ?: b]. *)
Definition elvis (a b : Z) : Z := if truthy a then a else b.

(** ** The shared state *)

Inductive direction := GPIO_IN | GPIO_OUT.

(** What the model keeps of a [struct gpio_desc]: the direction last set and
    the logical level last written. *)
Record gpio_desc := { gd_dir : direction; gd_level : bool }.

Definition gpio (d : direction) (v : bool) : gpio_desc :=
  {| gd_dir := d; gd_level := v |}.

(** [struct citrus_core] (citrus-core.c; the variant with a second clock
    line).  [bus_mutex] is [true] while held. *)
Record citrus_core := {
  sck : gpio_desc;
  sck2 : gpio_desc;
  mosi : gpio_desc;
  bus_mutex : bool
}.

Inductive line := SCK | SCK2 | MOSI.

(** The three locks the driver touches: the arbiter's [citrus->bus_mutex],
    the root bus lock of the two-wire adapter ([i2c_lock_bus] on
    [priv->adap]) and the four-wire bitbang's [bb->lock]. *)
Inductive lock_id := BusMutex | AdapBusLock | BitbangLock.

Inductive irq_handler := lose_arbitration_irq_fn | inject_panic_irq_fn.

Inductive event :=
| EvLock (l : lock_id)
| EvUnlock (l : lock_id)
| EvSetValue (l : line) (v : bool)                 (* gpiod_set_value_cansleep *)
| EvGetValue (l : line) (v : Z)                    (* gpiod_get_value_cansleep *)
| EvDirectionInput (l : line) (ret : Z)            (* gpiod_direction_input *)
| EvDirectionOutput (l : line) (v : bool) (ret : Z)(* gpiod_direction_output *)
| EvDelay (n : Z)                                  (* udelay, ndelay *)
| EvRequestIrq (irq : Z) (h : irq_handler) (ret : Z)
| EvFreeIrq (irq : Z)
| EvWait (ret : Z)                                 (* wait_for_completion_interruptible *)
| EvSample (v : Z).                                (* a value getmiso handed back *)

Record world := {
  w_citrus : citrus_core;
  w_adap_bus_lock : bool;        (* priv->adap, root adapter lock *)
  w_bb_lock : bool;              (* spi_gpio->bitbang.lock *)
  w_bb_busy : Z;                 (* spi_gpio->bitbang.busy *)
  w_scl_irq_data : Z;            (* priv->scl_irq_data *)
  w_scl_irq_completion : Z;      (* priv->scl_irq_completion, its done count *)
  w_ext : list Z;                (* answers of the environment, in call order *)
  w_log : list event
}.

Definition set_citrus (f : citrus_core -> citrus_core) (w : world) : world :=
  {| w_citrus := f (w_citrus w); w_adap_bus_lock := w_adap_bus_lock w;
     w_bb_lock := w_bb_lock w; w_bb_busy := w_bb_busy w;
     w_scl_irq_data := w_scl_irq_data w;
     w_scl_irq_completion := w_scl_irq_completion w;
     w_ext := w_ext w; w_log := w_log w |}.

Definition set_adap_bus_lock (b : bool) (w : world) : world :=
  {| w_citrus := w_citrus w; w_adap_bus_lock := b;
     w_bb_lock := w_bb_lock w; w_bb_busy := w_bb_busy w;
     w_scl_irq_data := w_scl_irq_data w;
     w_scl_irq_completion := w_scl_irq_completion w;
     w_ext := w_ext w; w_log := w_log w |}.

Definition set_bb_lock (b : bool) (w : world) : world :=
  {| w_citrus := w_citrus w; w_adap_bus_lock := w_adap_bus_lock w;
     w_bb_lock := b; w_bb_busy := w_bb_busy w;
     w_scl_irq_data := w_scl_irq_data w;
     w_scl_irq_completion := w_scl_irq_completion w;
     w_ext := w_ext w; w_log := w_log w |}.

Definition set_bb_busy (v : Z) (w : world) : world :=
  {| w_citrus := w_citrus w; w_adap_bus_lock := w_adap_bus_lock w;
     w_bb_lock := w_bb_lock w; w_bb_busy := v;
     w_scl_irq_data := w_scl_irq_data w;
     w_scl_irq_completion := w_scl_irq_completion w;
     w_ext := w_ext w; w_log := w_log w |}.

Definition set_scl_irq_data (v : Z) (w : world) : world :=
  {| w_citrus := w_citrus w; w_adap_bus_lock := w_adap_bus_lock w;
     w_bb_lock := w_bb_lock w; w_bb_busy := w_bb_busy w;
     w_scl_irq_data := v;
     w_scl_irq_completion := w_scl_irq_completion w;
     w_ext := w_ext w; w_log := w_log w |}.

Definition set_scl_irq_completion (v : Z) (w : world) : world :=
  {| w_citrus := w_citrus w; w_adap_bus_lock := w_adap_bus_lock w;
     w_bb_lock := w_bb_lock w; w_bb_busy := w_bb_busy w;
     w_scl_irq_data := w_scl_irq_data w;
     w_scl_irq_completion := v;
     w_ext := w_ext w; w_log := w_log w |}.

Definition set_ext (l : list Z) (w : world) : world :=
  {| w_citrus := w_citrus w; w_adap_bus_lock := w_adap_bus_lock w;
     w_bb_lock := w_bb_lock w; w_bb_busy := w_bb_busy w;
     w_scl_irq_data := w_scl_irq_data w;
     w_scl_irq_completion := w_scl_irq_completion w;
     w_ext := l; w_log := w_log w |}.

Definition add_log (es : list event) (w : world) : world :=
  {| w_citrus := w_citrus w; w_adap_bus_lock := w_adap_bus_lock w;
     w_bb_lock := w_bb_lock w; w_bb_busy := w_bb_busy w;
     w_scl_irq_data := w_scl_irq_data w;
     w_scl_irq_completion := w_scl_irq_completion w;
     w_ext := w_ext w; w_log := w_log w ++ es |}.

Definition get_line (l : line) (c : citrus_core) : gpio_desc :=
  match l with SCK => sck c | SCK2 => sck2 c | MOSI => mosi c end.

Definition set_line (l : line) (g : gpio_desc) (c : citrus_core) : citrus_core :=
  match l with
  | SCK => {| sck := g; sck2 := sck2 c; mosi := mosi c; bus_mutex := bus_mutex c |}
  | SCK2 => {| sck := sck c; sck2 := g; mosi := mosi c; bus_mutex := bus_mutex c |}
  | MOSI => {| sck := sck c; sck2 := sck2 c; mosi := g; bus_mutex := bus_mutex c |}
  end.

Definition set_bus_mutex (b : bool) (c : citrus_core) : citrus_core :=
  {| sck := sck c; sck2 := sck2 c; mosi := mosi c; bus_mutex := b |}.

Definition line_of (l : line) (w : world) : gpio_desc := get_line l (w_citrus w).

Definition lock_held (l : lock_id) (w : world) : bool :=
  match l with
  | BusMutex => bus_mutex (w_citrus w)
  | AdapBusLock => w_adap_bus_lock w
  | BitbangLock => w_bb_lock w
  end.

Definition set_lock (l : lock_id) (b : bool) (w : world) : world :=
  match l with
  | BusMutex => set_citrus (set_bus_mutex b) w
  | AdapBusLock => set_adap_bus_lock b w
  | BitbangLock => set_bb_lock b w
  end.

(** ** The monad of driver code

    A call either returns a value and a new world, or it does not return:
    it sleeps on a lock that nothing in this (sequential) run will release,
    it calls through a NULL callback, or it panics. *)
Inductive halt := Blocked (l : lock_id) | Oops | Panic.

Inductive result (A : Type) :=
| Ok (a : A) (w : world)
| Halt (h : halt) (w : world).
Arguments Ok {A} a w.
Arguments Halt {A} h w.

Definition M (A : Type) : Type := world -> result A.

Definition ret {A} (a : A) : M A := fun w => Ok a w.

Definition bind {A B} (m : M A) (k : A -> M B) : M B :=
  fun w => match m w with
           | Ok a w' => k a w'
           | Halt h w' => Halt h w'
           end.

Declare Scope citrus_scope.
Delimit Scope citrus_scope with citrus.
Notation "x <- m ;; k" := (bind m (fun x => k))
  (at level 61, m at next level, right associativity) : citrus_scope.
Notation "m ;; k" := (bind m (fun _ => k))
  (at level 61, right associativity) : citrus_scope.
Local Open Scope citrus_scope.

Definition halt_with {A} (h : halt) : M A := fun w => Halt h w.
Definition emit (e : event) : M unit := fun w => Ok tt (add_log [e] w).
Definition update (f : world -> world) : M unit := fun w => Ok tt (f w).
Definition read {A} (f : world -> A) : M A := fun w => Ok (f w) w.

(** The next answer of the environment; 0 once the stream is used up. *)
Definition ask : M Z :=
  fun w => match w_ext w with
           | [] => Ok 0 w
           | v :: rest => Ok v (set_ext rest w)
           end.

(** ** Kernel primitives the driver calls *)

Definition mutex_lock (l : lock_id) : M unit :=
  held <- read (lock_held l) ;;
  if held then halt_with (Blocked l)
  else update (set_lock l true) ;; emit (EvLock l).

Definition mutex_unlock (l : lock_id) : M unit :=
  update (set_lock l false) ;; emit (EvUnlock l).

(** [i2c_lock_bus(adap, I2C_LOCK_ROOT_ADAPTER)] of the I2C core: it takes the
    bus lock of the adapter it is handed.  The driver installs no lock
    operations of its own on [priv->adap]. *)
Definition i2c_lock_bus : M unit := mutex_lock AdapBusLock.
Definition i2c_unlock_bus : M unit := mutex_unlock AdapBusLock.

Definition with_level (v : bool) (g : gpio_desc) : gpio_desc :=
  {| gd_dir := gd_dir g; gd_level := v |}.

Definition gpiod_set_value_cansleep (l : line) (value : Z) : M unit :=
  update (set_citrus (fun c => set_line l (with_level (truthy value) (get_line l c)) c)) ;;
  emit (EvSetValue l (truthy value)).

Definition gpiod_get_value_cansleep (l : line) : M Z :=
  v <- ask ;;
  emit (EvGetValue l v) ;;
  ret v.

(** A direction switch may be refused; the descriptor changes only when the
    call returns 0. *)
Definition gpiod_direction_input (l : line) : M Z :=
  r <- ask ;;
  (if truthy r then ret tt
   else update (set_citrus (fun c =>
          set_line l {| gd_dir := GPIO_IN; gd_level := gd_level (get_line l c) |} c))) ;;
  emit (EvDirectionInput l r) ;;
  ret r.

Definition gpiod_direction_output (l : line) (value : Z) : M Z :=
  r <- ask ;;
  (if truthy r then ret tt
   else update (set_citrus (fun c =>
          set_line l {| gd_dir := GPIO_OUT; gd_level := truthy value |} c))) ;;
  emit (EvDirectionOutput l (truthy value) r) ;;
  ret r.

Definition udelay (usecs : Z) : M unit := emit (EvDelay usecs).
Definition ndelay (nsecs : Z) : M unit := emit (EvDelay nsecs).

Definition gpiod_to_irq (l : line) : M Z := ask.

Definition panic : M unit := halt_with Panic.

(** ** citrus-core.c: the arbiter and the line accessors

    The [citrus_dbg] lines only print; they are left out. *)

Definition citrus_core_lock_spi : M unit := mutex_lock BusMutex.
Definition citrus_core_unlock_spi : M unit := mutex_unlock BusMutex.

Definition citrus_core_set_spi_sck (value : Z) : M unit :=
  gpiod_set_value_cansleep SCK value.

Definition citrus_core_set_spi_mosi (value : Z) : M unit :=
  gpiod_set_value_cansleep MOSI value.

Definition citrus_core_set_spi_mosi_direction_input : M Z :=
  gpiod_direction_input MOSI.

Definition citrus_core_set_spi_mosi_direction_output (value : Z) : M Z :=
  gpiod_direction_output MOSI value.

Definition citrus_core_lock_i2c : M unit := mutex_lock BusMutex.
Definition citrus_core_unlock_i2c : M unit := mutex_unlock BusMutex.

Definition citrus_core_set_i2c_sda (value : Z) : M unit :=
  gpiod_set_value_cansleep MOSI value.

Definition citrus_core_set_i2c_scl (value : Z) : M unit :=
  gpiod_set_value_cansleep SCK value.

Definition citrus_core_set_i2c_scl2 (value : Z) : M unit :=
  gpiod_set_value_cansleep SCK2 value.

Definition citrus_core_get_i2c_sda : M Z := gpiod_get_value_cansleep MOSI.
Definition citrus_core_get_i2c_scl : M Z := gpiod_get_value_cansleep SCK.
Definition citrus_core_get_i2c_scl2 : M Z := gpiod_get_value_cansleep SCK2.

(** ** citrus-i2c.c: the two-wire adapter *)

(** The callbacks the probe may store in [struct i2c_algo_bit_data]; a field
    left at NULL by [devm_kzalloc] is [None]. *)
Inductive setter_fn :=
| fn_i2c_gpio_setsda_val | fn_i2c_gpio_setscl_val | fn_i2c_gpio_setscl2_val.
Inductive getter_fn :=
| fn_i2c_gpio_getsda | fn_i2c_gpio_getscl | fn_i2c_gpio_getscl2.
Inductive pre_xfer_fn := fn_i2c_gpio_pre_xfer.
Inductive post_xfer_fn := fn_i2c_gpio_post_xfer.

Record i2c_gpio_platform_data := {
  pd_udelay : Z;
  pd_timeout : Z;
  pd_sda_is_open_drain : bool;
  pd_scl_is_open_drain : bool;
  pd_scl_is_output_only : bool
}.

Record i2c_algo_bit_data := {
  bd_setsda : option setter_fn;
  bd_setscl : option setter_fn;
  bd_getsda : option getter_fn;
  bd_getscl : option getter_fn;
  bd_pre_xfer : option pre_xfer_fn;
  bd_post_xfer : option post_xfer_fn;
  bd_udelay : Z;
  bd_timeout : Z;
  bd_can_do_atomic : bool
}.

(** [struct i2c_gpio_private_data], its configuration part.  The fields the
    driver writes after the probe (the adapter's lock, [scl_irq_data],
    [scl_irq_completion]) and the [citrus_core] it points to live in the
    [world]. *)
Record i2c_gpio_private_data := {
  bit_data : i2c_algo_bit_data;
  pdata : i2c_gpio_platform_data
}.

Definition i2c_gpio_setsda_val (state : Z) : M unit := citrus_core_set_i2c_sda state.
Definition i2c_gpio_setscl_val (state : Z) : M unit := citrus_core_set_i2c_scl state.
Definition i2c_gpio_setscl2_val (state : Z) : M unit := citrus_core_set_i2c_scl2 state.
Definition i2c_gpio_getsda : M Z := citrus_core_get_i2c_sda.
Definition i2c_gpio_getscl : M Z := citrus_core_get_i2c_scl.
Definition i2c_gpio_getscl2 : M Z := citrus_core_get_i2c_scl2.

Definition i2c_gpio_pre_xfer : M Z := citrus_core_lock_i2c ;; ret 0.
Definition i2c_gpio_post_xfer : M unit := citrus_core_unlock_i2c.

(** A call through a function pointer of [bit_data]. *)
Definition call_setter (f : option setter_fn) (val : Z) : M unit :=
  match f with
  | None => halt_with Oops
  | Some fn_i2c_gpio_setsda_val => i2c_gpio_setsda_val val
  | Some fn_i2c_gpio_setscl_val => i2c_gpio_setscl_val val
  | Some fn_i2c_gpio_setscl2_val => i2c_gpio_setscl2_val val
  end.

Definition call_getter (f : option getter_fn) : M Z :=
  match f with
  | None => halt_with Oops
  | Some fn_i2c_gpio_getsda => i2c_gpio_getsda
  | Some fn_i2c_gpio_getscl => i2c_gpio_getscl
  | Some fn_i2c_gpio_getscl2 => i2c_gpio_getscl2
  end.

Definition call_pre_xfer (f : option pre_xfer_fn) : M Z :=
  match f with
  | Some fn_i2c_gpio_pre_xfer => i2c_gpio_pre_xfer
  | None => ret 0
  end.

Definition call_post_xfer (f : option post_xfer_fn) : M unit :=
  match f with
  | Some fn_i2c_gpio_post_xfer => i2c_gpio_post_xfer
  | None => ret tt
  end.

(** The macros [setsda(bd, val)], [setscl(bd, val)], [getsda(bd)],
    [getscl(bd)]; the value is converted to the callback's [int]. *)
Definition setsda (bd : i2c_algo_bit_data) (val : Z) : M unit :=
  call_setter (bd_setsda bd) (to_int val).
Definition setscl (bd : i2c_algo_bit_data) (val : Z) : M unit :=
  call_setter (bd_setscl bd) (to_int val).
Definition getsda (bd : i2c_algo_bit_data) : M Z := call_getter (bd_getsda bd).
Definition getscl (bd : i2c_algo_bit_data) : M Z := call_getter (bd_getscl bd).

Section Driver.
Context {K : Kernel}.

(** *** The fault injector (CONFIG_I2C_GPIO_FAULT_INJECTOR) *)

(** [WIRE_ATTRIBUTE(scl)] and [WIRE_ATTRIBUTE(sda)]: the getters return the
    status and the value stored through [val]. *)
Definition fops_scl_get (priv : i2c_gpio_private_data) : M (Z * Z) :=
  i2c_lock_bus ;;
  v <- getscl (bit_data priv) ;;
  i2c_unlock_bus ;;
  ret (0, to_u64 v).

Definition fops_scl_set (priv : i2c_gpio_private_data) (val : Z) : M Z :=
  i2c_lock_bus ;;
  setscl (bit_data priv) val ;;
  i2c_unlock_bus ;;
  ret 0.

Definition fops_sda_get (priv : i2c_gpio_private_data) : M (Z * Z) :=
  i2c_lock_bus ;;
  v <- getsda (bit_data priv) ;;
  i2c_unlock_bus ;;
  ret (0, to_u64 v).

Definition fops_sda_set (priv : i2c_gpio_private_data) (val : Z) : M Z :=
  i2c_lock_bus ;;
  setsda (bit_data priv) val ;;
  i2c_unlock_bus ;;
  ret 0.

(** The loop [for (i = pattern_size - 1; i >= 0; i--)] with [n = i + 1]
    iterations left.  The three delays are [int] expressions: [udelay / 2]
    truncates towards zero, and the sum [udelay + 1] is formed in [int], where
    the kernel's build ([-fno-strict-overflow]) makes it wrap.  The log keeps
    each argument as the [int] the loop passes. *)
Fixpoint incomplete_transfer_loop (bd : i2c_algo_bit_data) (pattern : Z) (n : nat)
  : M unit :=
  match n with
  | O => ret tt
  | S i =>
      setscl bd 0 ;;
      udelay (Z.quot (bd_udelay bd) 2) ;;
      setsda bd (Z.land (Z.shiftr pattern (Z.of_nat i)) 1) ;;
      udelay (Z.quot (to_int (bd_udelay bd + 1)) 2) ;;
      setscl bd 1 ;;
      udelay (bd_udelay bd) ;;
      incomplete_transfer_loop bd pattern i
  end.

Definition i2c_gpio_incomplete_transfer (priv : i2c_gpio_private_data)
    (pattern pattern_size : Z) : M unit :=
  let bd := bit_data priv in
  i2c_lock_bus ;;
  (* START condition *)
  setsda bd 0 ;;
  udelay (bd_udelay bd) ;;
  (* Send pattern, request ACK, don't send STOP *)
  incomplete_transfer_loop bd pattern (Z.to_nat pattern_size) ;;
  i2c_unlock_bus.

Definition fops_incomplete_addr_phase_set (priv : i2c_gpio_private_data) (addr : Z)
  : M Z :=
  if addr >? 0x7f then ret (- EINVAL)
  else
    (* ADDR (7 bit) + RD (1 bit) + Client ACK, keep SDA hi (1 bit) *)
    let pattern := to_u32 (Z.lor (to_u64 (Z.shiftl addr 2)) 3) in
    i2c_gpio_incomplete_transfer priv pattern 9 ;;
    ret 0.

Definition fops_incomplete_write_byte_set (priv : i2c_gpio_private_data) (addr : Z)
  : M Z :=
  if addr >? 0x7f then ret (- EINVAL)
  else
    (* ADDR (7 bit) + WR (1 bit) + Client ACK (1 bit) *)
    let pattern := to_u32 (Z.lor (to_u64 (Z.shiftl addr 2)) 1) in
    (* 0x00 (8 bit) + Client ACK, keep SDA hi (1 bit) *)
    let pattern := to_u32 (Z.lor (to_u32 (Z.shiftl pattern 9)) 1) in
    i2c_gpio_incomplete_transfer priv pattern 18 ;;
    ret 0.

Definition reinit_completion : M unit := update (set_scl_irq_completion 0).

Definition complete : M unit :=
  done <- read w_scl_irq_completion ;;
  update (set_scl_irq_completion (done + 1)).

Definition request_irq (irq : Z) (handler : irq_handler) : M Z :=
  r <- ask ;;
  emit (EvRequestIrq irq handler r) ;;
  ret r.

Definition free_irq (irq : Z) : M unit := emit (EvFreeIrq irq).

Definition lose_arbitration_irq (priv : i2c_gpio_private_data) : M unit :=
  setsda (bit_data priv) 0 ;;
  d <- read w_scl_irq_data ;;
  udelay d ;;
  setsda (bit_data priv) 1 ;;
  complete.

Definition inject_panic_irq (priv : i2c_gpio_private_data) : M unit :=
  d <- read w_scl_irq_data ;;
  udelay d ;;
  panic.

Definition run_irq_handler (priv : i2c_gpio_private_data) (h : irq_handler) : M unit :=
  match h with
  | lose_arbitration_irq_fn => lose_arbitration_irq priv
  | inject_panic_irq_fn => inject_panic_irq priv
  end.

(** [wait_for_completion_interruptible(&priv->scl_irq_completion)] while
    [armed] is registered on the falling clock edge.  The environment decides
    which comes first: answer 0 means the edge came, the handler ran and
    completed; any other answer is the error of a wait cut short by a signal,
    the handler not having run. *)
Definition wait_for_completion_interruptible (priv : i2c_gpio_private_data)
    (armed : irq_handler) : M Z :=
  r <- ask ;;
  (if truthy r then ret tt
   else run_irq_handler priv armed ;;
        done <- read w_scl_irq_completion ;;
        update (set_scl_irq_completion (done - 1))) ;;
  emit (EvWait r) ;;
  ret r.

(** [priv->scl] is the clock line of the adapter, [citrus->sck]. *)
Definition i2c_gpio_fi_act_on_scl_irq (priv : i2c_gpio_private_data)
    (handler : irq_handler) : M Z :=
  irq <- gpiod_to_irq SCK ;;
  if irq <? 0 then ret irq
  else
    i2c_lock_bus ;;
    r <- gpiod_direction_input SCK ;;
    if truthy r then
      (* goto unlock *)
      i2c_unlock_bus ;; ret r
    else
      reinit_completion ;;
      r <- request_irq irq handler ;;
      (if truthy r then ret tt (* goto output *)
       else wait_for_completion_interruptible priv handler ;;
            free_irq irq) ;;
      (* output: *)
      o <- gpiod_direction_output SCK 1 ;;
      (* unlock: *)
      i2c_unlock_bus ;;
      ret (elvis o r).

Definition fops_lose_arbitration_set (priv : i2c_gpio_private_data) (duration : Z)
  : M Z :=
  if duration >? 100 * 1000 then ret (- EINVAL)
  else
    update (set_scl_irq_data duration) ;;
    i2c_gpio_fi_act_on_scl_irq priv lose_arbitration_irq_fn.

Definition fops_inject_panic_set (priv : i2c_gpio_private_data) (duration : Z)
  : M Z :=
  if duration >? 100 * 1000 then ret (- EINVAL)
  else
    update (set_scl_irq_data duration) ;;
    i2c_gpio_fi_act_on_scl_irq priv inject_panic_irq_fn.

(** *** Probing the adapter *)

(** The properties [of_i2c_gpio_get_props] reads from the device tree node;
    [None] is a property the node does not have. *)
Record device_node := {
  prop_delay_us : option Z;
  prop_timeout_ms : option Z;
  prop_sda_open_drain : bool;
  prop_scl_open_drain : bool;
  prop_scl_output_only : bool
}.

(** [pdata] as [devm_kzalloc] leaves it. *)
Definition pdata_zero : i2c_gpio_platform_data :=
  {| pd_udelay := 0; pd_timeout := 0; pd_sda_is_open_drain := false;
     pd_scl_is_open_drain := false; pd_scl_is_output_only := false |}.

Definition of_i2c_gpio_get_props (np : device_node) (pdata : i2c_gpio_platform_data)
  : i2c_gpio_platform_data :=
  {| pd_udelay := match prop_delay_us np with
                  | Some v => to_int v
                  | None => pd_udelay pdata
                  end;
     pd_timeout := match prop_timeout_ms np with
                   | Some reg => to_int (msecs_to_jiffies reg)
                   | None => pd_timeout pdata
                   end;
     pd_sda_is_open_drain := prop_sda_open_drain np;
     pd_scl_is_open_drain := prop_scl_open_drain np;
     pd_scl_is_output_only := prop_scl_output_only np |}.

Inductive fops_id :=
| fops_incomplete_addr_phase | fops_incomplete_write_byte
| fops_inject_panic | fops_lose_arbitration | fops_scl | fops_sda.

(** One [debugfs_create_file_unsafe] call: name, mode, file operations. *)
Record debugfs_file := { df_name : string; df_mode : Z; df_fops : fops_id }.

(** What the rest of the kernel answers during a probe. *)
Record probe_env := {
  pe_node : option device_node;     (* the available "i2c-citrus" node *)
  pe_node2 : option device_node;    (* the available "i2c-citrus2" node *)
  pe_kzalloc : bool;                (* devm_kzalloc returned memory *)
  pe_add_bus : Z;                   (* i2c_bit_add_numbered_bus *)
  pe_add_action : Z;                (* devm_add_action_or_reset *)
  pe_debug_dir : bool;              (* i2c_gpio_debug_dir is already set *)
  pe_create_root : bool;            (* debugfs_create_dir("i2c-fault-injector") != NULL *)
  pe_create_dir : bool              (* debugfs_create_dir(pdev->name) != NULL *)
}.

Definition i2c_gpio_fault_injector_init (env : probe_env)
    (priv : i2c_gpio_private_data) : list debugfs_file :=
  if negb CONFIG_I2C_GPIO_FAULT_INJECTOR then []
  else if negb (pe_debug_dir env) && negb (pe_create_root env) then []
  else if negb (pe_create_dir env) then []
  else
    [ {| df_name := "incomplete_address_phase"; df_mode := 128 (* 0200 *);
         df_fops := fops_incomplete_addr_phase |};
      {| df_name := "incomplete_write_byte"; df_mode := 128;
         df_fops := fops_incomplete_write_byte |} ]
    ++ (match bd_getscl (bit_data priv) with
        | Some _ =>
            [ {| df_name := "inject_panic"; df_mode := 128;
                 df_fops := fops_inject_panic |};
              {| df_name := "lose_arbitration"; df_mode := 128;
                 df_fops := fops_lose_arbitration |} ]
        | None => []
        end)
    ++ [ {| df_name := "scl"; df_mode := 384 (* 0600 *); df_fops := fops_scl |};
         {| df_name := "sda"; df_mode := 384; df_fops := fops_sda |} ].

Record probe_result := {
  pr_ret : Z;
  pr_priv : option i2c_gpio_private_data;
  pr_files : list debugfs_file
}.

Definition probe_fails (err : Z) : probe_result :=
  {| pr_ret := err; pr_priv := None; pr_files := [] |}.

(** [i2c_citrus_probe] of citrus-i2c.c (one clock line). *)
Definition i2c_citrus_probe (env : probe_env) : probe_result :=
  match pe_node env with
  | None => probe_fails (- ENODEV)
  | Some np =>
      if negb (pe_kzalloc env) then probe_fails (- ENOMEM)
      else
        let pdata := of_i2c_gpio_get_props np pdata_zero in
        let priv :=
          {| bit_data :=
               {| bd_can_do_atomic := true;
                  bd_setsda := Some fn_i2c_gpio_setsda_val;
                  bd_setscl := Some fn_i2c_gpio_setscl_val;
                  bd_pre_xfer := Some fn_i2c_gpio_pre_xfer;
                  bd_post_xfer := Some fn_i2c_gpio_post_xfer;
                  bd_getscl := if negb (pd_scl_is_output_only pdata)
                               then Some fn_i2c_gpio_getscl else None;
                  bd_getsda := Some fn_i2c_gpio_getsda;
                  bd_udelay := if truthy (pd_udelay pdata) then pd_udelay pdata
                               else if pd_scl_is_output_only pdata then 50 (* 10 kHz *)
                               else 5 (* 100 kHz *);
                  bd_timeout := if truthy (pd_timeout pdata) then pd_timeout pdata
                                else Z.quot HZ 10 (* 100 ms *) |};
             pdata := pdata |} in
        if truthy (pe_add_bus env) then probe_fails (pe_add_bus env)
        else {| pr_ret := 0; pr_priv := Some priv;
                pr_files := i2c_gpio_fault_injector_init env priv |}
  end.

(** [i2c_citrus_probe] of the variant with a second clock line ([scl2]
    selects it); that file has no fault injector. *)
Definition i2c_citrus_probe_scl2 (env : probe_env) (scl2 : bool) : probe_result :=
  match (if scl2 then pe_node2 env else pe_node env) with
  | None => probe_fails (- ENODEV)
  | Some np =>
      if negb (pe_kzalloc env) then probe_fails (- ENOMEM)
      else
        let pdata := of_i2c_gpio_get_props np pdata_zero in
        let priv :=
          {| bit_data :=
               {| bd_can_do_atomic := true;
                  bd_setsda := Some fn_i2c_gpio_setsda_val;
                  bd_setscl := Some (if scl2 then fn_i2c_gpio_setscl2_val
                                     else fn_i2c_gpio_setscl_val);
                  bd_pre_xfer := Some fn_i2c_gpio_pre_xfer;
                  bd_post_xfer := Some fn_i2c_gpio_post_xfer;
                  bd_getscl := if negb (pd_scl_is_output_only pdata)
                               then Some (if scl2 then fn_i2c_gpio_getscl2
                                          else fn_i2c_gpio_getscl)
                               else None;
                  bd_getsda := Some fn_i2c_gpio_getsda;
                  bd_udelay := if truthy (pd_udelay pdata) then pd_udelay pdata
                               else if pd_scl_is_output_only pdata then 50 (* 10 kHz *)
                               else 5 (* 100 kHz *);
                  bd_timeout := if truthy (pd_timeout pdata) then pd_timeout pdata
                                else Z.quot HZ 10 (* 100 ms *) |};
             pdata := pdata |} in
        if truthy (pe_add_bus env) then probe_fails (pe_add_bus env)
        else if truthy (pe_add_action env) then probe_fails (pe_add_action env)
        else {| pr_ret := 0; pr_priv := Some priv; pr_files := [] |}
  end.

End Driver.

(** ** citrus-spi.c: the four-wire master *)

(** What the callbacks read of a [struct spi_device]: its mode bits and the
    flags of its master. *)
Record spi_device := { spi_mode : Z; master_flags : Z }.

Definition setsck (spi : spi_device) (is_on : Z) : M unit :=
  citrus_core_set_spi_sck is_on.

Definition setmosi (spi : spi_device) (is_on : Z) : M unit :=
  citrus_core_set_spi_mosi is_on.

Definition getmiso (spi : spi_device) : M Z := ret 0.

Definition spidelay (x : Z) : M unit := ndelay x.

(** The word-shifting loops come from spi-bitbang-txrx.h, which the driver
    includes after defining [setsck], [setmosi], [getmiso] and [spidelay].
    The header is not part of drivers/platform/citrus; all of it that the
    model fixes is that its code reaches the lines through those four
    helpers only.  A loop is therefore any program over them. *)
Inductive txrx_prog :=
| TxRet (word : Z)
| TxSetSck (is_on : Z) (k : txrx_prog)
| TxSetMosi (is_on : Z) (k : txrx_prog)
| TxGetMiso (k : Z -> txrx_prog)
| TxDelay (nsecs : Z) (k : txrx_prog).

Fixpoint run_txrx (spi : spi_device) (p : txrx_prog) : M Z :=
  match p with
  | TxRet word => ret word
  | TxSetSck is_on k => setsck spi is_on ;; run_txrx spi k
  | TxSetMosi is_on k => setmosi spi is_on ;; run_txrx spi k
  | TxGetMiso k => v <- getmiso spi ;; emit (EvSample v) ;; run_txrx spi (k v)
  | TxDelay nsecs k => spidelay nsecs ;; run_txrx spi k
  end.

(** The word a loop returns when every sample is 0. *)
Fixpoint word_with_miso_low (p : txrx_prog) : Z :=
  match p with
  | TxRet word => word
  | TxSetSck _ k | TxSetMosi _ k | TxDelay _ k => word_with_miso_low k
  | TxGetMiso k => word_with_miso_low (k 0)
  end.

(** The four inline loops of spi-bitbang-txrx.h, arguments in the header's
    order: spi, nsecs, cpol, flags, word, bits. *)
Class BitbangTxrx := {
  bitbang_txrx_be_cpha0 : spi_device -> Z -> Z -> Z -> Z -> Z -> txrx_prog;
  bitbang_txrx_le_cpha0 : spi_device -> Z -> Z -> Z -> Z -> Z -> txrx_prog;
  bitbang_txrx_be_cpha1 : spi_device -> Z -> Z -> Z -> Z -> Z -> txrx_prog;
  bitbang_txrx_le_cpha1 : spi_device -> Z -> Z -> Z -> Z -> Z -> txrx_prog
}.

(** C's [!x]. *)
Definition lnot (x : Z) : Z := if truthy x then 0 else 1.

Inductive spi_mode_id := SPI_MODE_0 | SPI_MODE_1 | SPI_MODE_2 | SPI_MODE_3.

Section Spi.
Context {K : Kernel} {T : BitbangTxrx}.

Definition spi_citrus_txrx_word_mode0 (spi : spi_device) (nsecs word bits flags : Z)
  : txrx_prog :=
  if truthy (Z.land (spi_mode spi) SPI_LSB_FIRST)
  then bitbang_txrx_le_cpha0 spi nsecs 0 flags word bits
  else bitbang_txrx_be_cpha0 spi nsecs 0 flags word bits.

Definition spi_citrus_txrx_word_mode1 (spi : spi_device) (nsecs word bits flags : Z)
  : txrx_prog :=
  if truthy (Z.land (spi_mode spi) SPI_LSB_FIRST)
  then bitbang_txrx_le_cpha1 spi nsecs 0 flags word bits
  else bitbang_txrx_be_cpha1 spi nsecs 0 flags word bits.

Definition spi_citrus_txrx_word_mode2 (spi : spi_device) (nsecs word bits flags : Z)
  : txrx_prog :=
  if truthy (Z.land (spi_mode spi) SPI_LSB_FIRST)
  then bitbang_txrx_le_cpha0 spi nsecs 1 flags word bits
  else bitbang_txrx_be_cpha0 spi nsecs 1 flags word bits.

Definition spi_citrus_txrx_word_mode3 (spi : spi_device) (nsecs word bits flags : Z)
  : txrx_prog :=
  if truthy (Z.land (spi_mode spi) SPI_LSB_FIRST)
  then bitbang_txrx_le_cpha1 spi nsecs 1 flags word bits
  else bitbang_txrx_be_cpha1 spi nsecs 1 flags word bits.

(** The [spec] variants overwrite [flags] with the master's. *)
Definition spi_citrus_spec_txrx_word_mode0 (spi : spi_device)
    (nsecs word bits flags : Z) : txrx_prog :=
  let flags := master_flags spi in
  if truthy (Z.land (spi_mode spi) SPI_LSB_FIRST)
  then bitbang_txrx_le_cpha0 spi nsecs 0 flags word bits
  else bitbang_txrx_be_cpha0 spi nsecs 0 flags word bits.

Definition spi_citrus_spec_txrx_word_mode1 (spi : spi_device)
    (nsecs word bits flags : Z) : txrx_prog :=
  let flags := master_flags spi in
  if truthy (Z.land (spi_mode spi) SPI_LSB_FIRST)
  then bitbang_txrx_le_cpha1 spi nsecs 0 flags word bits
  else bitbang_txrx_be_cpha1 spi nsecs 0 flags word bits.

Definition spi_citrus_spec_txrx_word_mode2 (spi : spi_device)
    (nsecs word bits flags : Z) : txrx_prog :=
  let flags := master_flags spi in
  if truthy (Z.land (spi_mode spi) SPI_LSB_FIRST)
  then bitbang_txrx_le_cpha0 spi nsecs 1 flags word bits
  else bitbang_txrx_be_cpha0 spi nsecs 1 flags word bits.

Definition spi_citrus_spec_txrx_word_mode3 (spi : spi_device)
    (nsecs word bits flags : Z) : txrx_prog :=
  let flags := master_flags spi in
  if truthy (Z.land (spi_mode spi) SPI_LSB_FIRST)
  then bitbang_txrx_le_cpha1 spi nsecs 1 flags word bits
  else bitbang_txrx_be_cpha1 spi nsecs 1 flags word bits.

(** [bb->txrx_word[]] as [spi_citrus_probe] fills it. *)
Definition txrx_word (flags_of_master : Z) (m : spi_mode_id)
  : spi_device -> Z -> Z -> Z -> Z -> txrx_prog :=
  if truthy (Z.land flags_of_master SPI_MASTER_NO_TX) then
    match m with
    | SPI_MODE_0 => spi_citrus_spec_txrx_word_mode0
    | SPI_MODE_1 => spi_citrus_spec_txrx_word_mode1
    | SPI_MODE_2 => spi_citrus_spec_txrx_word_mode2
    | SPI_MODE_3 => spi_citrus_spec_txrx_word_mode3
    end
  else
    match m with
    | SPI_MODE_0 => spi_citrus_txrx_word_mode0
    | SPI_MODE_1 => spi_citrus_txrx_word_mode1
    | SPI_MODE_2 => spi_citrus_txrx_word_mode2
    | SPI_MODE_3 => spi_citrus_txrx_word_mode3
    end.

Definition spi_citrus_chipselect (spi : spi_device) (is_active : Z) : M unit :=
  (* set initial clock line level *)
  if truthy is_active
  then citrus_core_set_spi_sck (Z.land (spi_mode spi) SPI_CPOL)
  else ret tt.

(** The end of [spi_citrus_set_direction], from the test of SPI_3WIRE_HIZ. *)
Definition set_direction_turnaround (spi : spi_device) : M Z :=
  (if truthy (Z.land (spi_mode spi) SPI_3WIRE_HIZ) then
     citrus_core_set_spi_sck (lnot (Z.land (spi_mode spi) SPI_CPOL)) ;;
     citrus_core_set_spi_sck (lnot (lnot (Z.land (spi_mode spi) SPI_CPOL)))
   else ret tt) ;;
  ret 0.

Definition spi_citrus_set_direction (spi : spi_device) (output : bool) : M Z :=
  if output then citrus_core_set_spi_mosi_direction_output 1
  else if truthy (Z.land (spi_mode spi) SPI_3WIRE) then
    r <- citrus_core_set_spi_mosi_direction_input ;;
    if truthy r then ret r
    else set_direction_turnaround spi
  else set_direction_turnaround spi.

Definition spi_citrus_prepare_hardware : M Z :=
  citrus_core_lock_spi ;;
  mutex_lock BitbangLock ;;
  update (set_bb_busy 1) ;;
  mutex_unlock BitbangLock ;;
  ret 0.

Definition spi_citrus_unprepare_hardware : M Z :=
  mutex_lock BitbangLock ;;
  update (set_bb_busy 0) ;;
  mutex_unlock BitbangLock ;;
  citrus_core_unlock_spi ;;
  ret 0.

End Spi.

(** ** The callers of the driver's callbacks *)

(** One call of the two-wire bit-banging algorithm through [bit_data]. *)
Inductive bit_call :=
| CallSetsda (val : Z)
| CallSetscl (val : Z)
| CallGetsda
| CallGetscl
| CallUdelay (usecs : Z).

(** The clock is read back only where a [getscl] callback is installed. *)
Definition run_bit_call (bd : i2c_algo_bit_data) (c : bit_call) : M unit :=
  match c with
  | CallSetsda val => setsda bd val
  | CallSetscl val => setscl bd val
  | CallGetsda => getsda bd ;; ret tt
  | CallGetscl => match bd_getscl bd with
                  | Some _ => getscl bd ;; ret tt
                  | None => ret tt
                  end
  | CallUdelay usecs => udelay usecs
  end.

Fixpoint run_bit_calls (bd : i2c_algo_bit_data) (cs : list bit_call) : M unit :=
  match cs with
  | [] => ret tt
  | c :: cs' => run_bit_call bd c ;; run_bit_calls bd cs'
  end.

(** Modelled from the spec: the two-wire state machine itself (the generic
    bit-banging algorithm, i2c-algo-bit.c) is not under
    drivers/platform/citrus.  Following section 2 of the specification, "a
    transaction request enters an Engine, which acquires the Arbiter's lock,
    drives the Line Abstraction bit-by-bit per its state machine, and
    releases the lock on completion or error": the engine calls [pre_xfer],
    makes its line calls ([body], any finite sequence of them), calls
    [post_xfer] and returns its result [outcome], a byte count or an error. *)
Definition two_wire_transaction (bd : i2c_algo_bit_data) (body : list bit_call)
    (outcome : Z) : M Z :=
  r <- call_pre_xfer (bd_pre_xfer bd) ;;
  if r <? 0 then ret r
  else
    run_bit_calls bd body ;;
    call_post_xfer (bd_post_xfer bd) ;;
    ret outcome.

(** One call of the four-wire bitbang framework into the driver: the
    chip-select callback, the direction callback, or one word through
    [bb->txrx_word[m]]. *)
Inductive bitbang_call :=
| CallChipselect (is_active : Z)
| CallSetLineDirection (output : bool)
| CallTxrxWord (m : spi_mode_id) (nsecs word bits flags : Z).

Section Callers.
Context {K : Kernel} {T : BitbangTxrx}.

Definition run_bitbang_call (spi : spi_device) (c : bitbang_call) : M unit :=
  match c with
  | CallChipselect is_active => spi_citrus_chipselect spi is_active
  | CallSetLineDirection output => spi_citrus_set_direction spi output ;; ret tt
  | CallTxrxWord m nsecs word bits flags =>
      run_txrx spi (txrx_word (master_flags spi) m spi nsecs word bits flags) ;; ret tt
  end.

Fixpoint run_bitbang_calls (spi : spi_device) (cs : list bitbang_call) : M unit :=
  match cs with
  | [] => ret tt
  | c :: cs' => run_bitbang_call spi c ;; run_bitbang_calls spi cs'
  end.

(** Modelled from the spec: the four-wire message pump (the SPI core and
    spi-bitbang.c) is not under drivers/platform/citrus.  Following section 2
    of the specification it acquires the arbiter through
    [prepare_transfer_hardware], makes its calls into the driver, and releases
    through [unprepare_transfer_hardware] on completion or error. *)
Definition four_wire_transaction (spi : spi_device) (body : list bitbang_call)
    (outcome : Z) : M Z :=
  spi_citrus_prepare_hardware ;;
  run_bitbang_calls spi body ;;
  spi_citrus_unprepare_hardware ;;
  ret outcome.

(** Modelled from the spec: the framing of one four-wire message by the
    bitbang framework (spi-bitbang.c, not under drivers/platform/citrus).
    Section 4.3: "Chip-select assertion occurs before the first word";
    deassertion follows the last. *)
Definition four_wire_message (spi : spi_device) (words : list bitbang_call) : M unit :=
  spi_citrus_chipselect spi 1 ;;
  run_bitbang_calls spi words ;;
  spi_citrus_chipselect spi 0.

(** The controls of the fault injector, as a diagnostic client invokes
    them. *)
Inductive fi_action :=
| FiSclGet
| FiSclSet (val : Z)
| FiSdaGet
| FiSdaSet (val : Z)
| FiIncompleteAddrPhase (addr : Z)
| FiIncompleteWriteByte (addr : Z)
| FiLoseArbitration (duration : Z)
| FiInjectPanic (duration : Z).

Definition run_fi_action (priv : i2c_gpio_private_data) (a : fi_action) : M Z :=
  match a with
  | FiSclGet => r <- fops_scl_get priv ;; ret (fst r)
  | FiSclSet val => fops_scl_set priv val
  | FiSdaGet => r <- fops_sda_get priv ;; ret (fst r)
  | FiSdaSet val => fops_sda_set priv val
  | FiIncompleteAddrPhase addr => fops_incomplete_addr_phase_set priv addr
  | FiIncompleteWriteByte addr => fops_incomplete_write_byte_set priv addr
  | FiLoseArbitration duration => fops_lose_arbitration_set priv duration
  | FiInjectPanic duration => fops_inject_panic_set priv duration
  end.

End Callers.

(** ** citrus-spi.c: probing the four-wire master *)

(** More constants of linux/spi/spi.h, with the macro that builds the mask
    of supported word sizes. *)
Class KernelSpi := {
  SPI_CS_HIGH : Z;
  SPI_MASTER_GPIO_SS : Z;
  SPI_BPW_RANGE_MASK : Z -> Z -> Z
}.

(** The procedures the probe stores in the master and in its bitbang. *)
Inductive spi_fn :=
| fn_spi_citrus_setup | fn_spi_citrus_cleanup
| fn_spi_citrus_chipselect | fn_spi_citrus_set_direction
| fn_spi_bitbang_setup_transfer
| fn_spi_citrus_prepare_hardware | fn_spi_citrus_unprepare_hardware.

(** Which of the two sets of word procedures fills [bb->txrx_word]. *)
Inductive word_procedures := plain_txrx_words | spec_txrx_words.

(** The fields of the master and of its bitbang that the probe writes. *)
Record spi_master := {
  sm_of_node : bool;                 (* dev.of_node is the spi-citrus node *)
  sm_use_gpio_descriptors : bool;
  sm_bits_per_word_mask : Z;
  sm_mode_bits : Z;
  sm_bus_num : Z;
  sm_setup : option spi_fn;
  sm_cleanup : option spi_fn;
  sm_flags : Z;
  sm_chipselect : option spi_fn;
  sm_set_line_direction : option spi_fn;
  sm_txrx_word : option word_procedures;
  sm_setup_transfer : option spi_fn;
  sm_prepare_transfer_hardware : option spi_fn;
  sm_unprepare_transfer_hardware : option spi_fn
}.

(** The master as [devm_spi_alloc_master] hands it out: zeroed. *)
Definition spi_master_zero : spi_master :=
  {| sm_of_node := false; sm_use_gpio_descriptors := false;
     sm_bits_per_word_mask := 0; sm_mode_bits := 0;
     sm_bus_num := 0; sm_setup := None; sm_cleanup := None; sm_flags := 0;
     sm_chipselect := None; sm_set_line_direction := None; sm_txrx_word := None;
     sm_setup_transfer := None; sm_prepare_transfer_hardware := None;
     sm_unprepare_transfer_hardware := None |}.

(** What the rest of the kernel answers during the probe of the master. *)
Record spi_probe_env := {
  se_alloc : bool;            (* devm_spi_alloc_master returned a master *)
  se_of_node : bool;          (* pdev->dev.of_node is set *)
  se_spi_node : option bool;  (* the "spi-citrus" node found, and whether it is available *)
  se_pdev_id : Z;             (* pdev->id *)
  se_bitbang_init : Z;        (* spi_bitbang_init *)
  se_register : Z             (* devm_spi_register_master *)
}.

(** [sp_master] is the master as the probe left it when it returned (what
    [spi_bitbang_init] itself writes into it is not modelled);
    [sp_registered] tells whether [devm_spi_register_master] was reached and
    returned 0.  [sp_at_init] and [sp_at_register] are the master as the
    probe had written it when it called [spi_bitbang_init] and
    [devm_spi_register_master], [None] when the call was not reached. *)
Record spi_probe_result := {
  sp_ret : Z;
  sp_master : option spi_master;
  sp_registered : bool;
  sp_at_init : option spi_master;
  sp_at_register : option spi_master
}.

(** Conversion to [s16]. *)
Definition to_s16 (x : Z) : Z := (x + 2 ^ 15) mod 2 ^ 16 - 2 ^ 15.

Section SpiProbe.
Context {K : Kernel} {KS : KernelSpi}.

(** The status, and the master with the node recorded. *)
Definition spi_citrus_probe_dt (env : spi_probe_env) (master : spi_master)
  : Z * spi_master :=
  match se_spi_node env with
  | Some true =>
      (0, {| sm_of_node := true; sm_use_gpio_descriptors := true;
             sm_bits_per_word_mask := sm_bits_per_word_mask master;
             sm_mode_bits := sm_mode_bits master; sm_bus_num := sm_bus_num master;
             sm_setup := sm_setup master; sm_cleanup := sm_cleanup master;
             sm_flags := sm_flags master; sm_chipselect := sm_chipselect master;
             sm_set_line_direction := sm_set_line_direction master;
             sm_txrx_word := sm_txrx_word master;
             sm_setup_transfer := sm_setup_transfer master;
             sm_prepare_transfer_hardware := sm_prepare_transfer_hardware master;
             sm_unprepare_transfer_hardware := sm_unprepare_transfer_hardware master |})
  | _ => (- ENODEV, master)
  end.

Definition spi_citrus_probe (env : spi_probe_env) : spi_probe_result :=
  if negb (se_alloc env) then
    {| sp_ret := - ENOMEM; sp_master := None; sp_registered := false;
       sp_at_init := None; sp_at_register := None |}
  else
    let master := spi_master_zero in
    if negb (se_of_node env) then
      {| sp_ret := - ENODEV; sp_master := Some master; sp_registered := false;
         sp_at_init := None; sp_at_register := None |}
    else
      let (status, master) := spi_citrus_probe_dt env master in
      if truthy status then
        {| sp_ret := status; sp_master := Some master; sp_registered := false;
           sp_at_init := None; sp_at_register := None |}
      else
        let flags := Z.lor (sm_flags master) SPI_MASTER_GPIO_SS in
        let master :=
          {| sm_of_node := sm_of_node master;
             sm_use_gpio_descriptors := sm_use_gpio_descriptors master;
             sm_bits_per_word_mask := SPI_BPW_RANGE_MASK 1 32;
             sm_mode_bits :=
               Z.lor (Z.lor (Z.lor (Z.lor (Z.lor SPI_3WIRE SPI_3WIRE_HIZ) SPI_CPHA)
                                   SPI_CPOL) SPI_CS_HIGH) SPI_LSB_FIRST;
             sm_bus_num := to_s16 (se_pdev_id env);
             sm_setup := Some fn_spi_citrus_setup;
             sm_cleanup := Some fn_spi_citrus_cleanup;
             sm_flags := flags;
             sm_chipselect := Some fn_spi_citrus_chipselect;
             sm_set_line_direction := Some fn_spi_citrus_set_direction;
             sm_txrx_word := Some (if truthy (Z.land flags SPI_MASTER_NO_TX)
                                   then spec_txrx_words else plain_txrx_words);
             sm_setup_transfer := Some fn_spi_bitbang_setup_transfer;
             sm_prepare_transfer_hardware := sm_prepare_transfer_hardware master;
             sm_unprepare_transfer_hardware := sm_unprepare_transfer_hardware master |} in
        let at_init := master in
        let status := se_bitbang_init env in
        if truthy status then
          {| sp_ret := status; sp_master := Some master; sp_registered := false;
             sp_at_init := Some at_init; sp_at_register := None |}
        else
          let master :=
            {| sm_of_node := sm_of_node master;
               sm_use_gpio_descriptors := sm_use_gpio_descriptors master;
               sm_bits_per_word_mask := sm_bits_per_word_mask master;
               sm_mode_bits := sm_mode_bits master; sm_bus_num := sm_bus_num master;
               sm_setup := sm_setup master; sm_cleanup := sm_cleanup master;
               sm_flags := sm_flags master; sm_chipselect := sm_chipselect master;
               sm_set_line_direction := sm_set_line_direction master;
               sm_txrx_word := sm_txrx_word master;
               sm_setup_transfer := sm_setup_transfer master;
               sm_prepare_transfer_hardware := Some fn_spi_citrus_prepare_hardware;
               sm_unprepare_transfer_hardware :=
                 Some fn_spi_citrus_unprepare_hardware |} in
          {| sp_ret := se_register env; sp_master := Some master;
             sp_registered := negb (truthy (se_register env));
             sp_at_init := Some at_init; sp_at_register := Some master |}.

End SpiProbe.

(** ** citrus-core.c: probing the platform device *)

(** What [devm_gpiod_get] hands back: a descriptor, or an error pointer
    ([IS_ERR] holds of it, [PTR_ERR] gives [err]). *)
Inductive gpiod_get_result := Descriptor | ErrPtr (err : Z).

Definition PTR_ERR_OR_ZERO (r : gpiod_get_result) : Z :=
  match r with Descriptor => 0 | ErrPtr err => err end.

(** What the rest of the kernel answers during the probe of the platform
    device; [ce_i2c] answers the probe of the first two-wire adapter,
    [ce_i2c2] that of the second. *)
Record core_env := {
  ce_kzalloc : bool;
  ce_mosi : gpiod_get_result;
  ce_sck : gpiod_get_result;
  ce_sck2 : gpiod_get_result;
  ce_spi : spi_probe_env;
  ce_i2c : probe_env;
  ce_i2c2 : probe_env
}.

(** The driver data of the platform device. *)
Inductive drvdata :=
| DrvNone
| DrvCitrus
| DrvPriv (priv : i2c_gpio_private_data).

(** The requests and sub-probes the probe makes. *)
Inductive probe_step :=
| GetMosi | GetSck | GetSck2 | ProbeSpi | ProbeI2c (scl2 : bool).

Record core_result := {
  cr_ret : Z;
  cr_steps : list probe_step;    (* what was called, in call order *)
  cr_drvdata : drvdata
}.

Section CoreProbe.
Context {K : Kernel} {KS : KernelSpi}.

(** [citrus_core_request] of citrus-core.c (data and one clock line). *)
Definition citrus_core_request (env : core_env) : Z * list probe_step :=
  match ce_mosi env with
  | ErrPtr err => (err, [GetMosi])
  | Descriptor => (PTR_ERR_OR_ZERO (ce_sck env), [GetMosi; GetSck])
  end.

Definition citrus_core_device_init (env : core_env) : Z * list probe_step * drvdata :=
  let (status, steps) := citrus_core_request env in
  if truthy status then (status, steps, DrvNone)
  else (0, steps, DrvCitrus).

(** [citrus_core_probe] of citrus-core.c.  [i2c_citrus_probe] sets the driver
    data to the adapter's private data once the adapter is added. *)
Definition citrus_core_probe (env : core_env) : core_result :=
  if negb (ce_kzalloc env) then
    {| cr_ret := - ENOMEM; cr_steps := []; cr_drvdata := DrvNone |}
  else
    let '(result, steps, data) := citrus_core_device_init env in
    if truthy result then
      {| cr_ret := result; cr_steps := steps; cr_drvdata := data |}
    else
      let result := sp_ret (spi_citrus_probe (ce_spi env)) in
      let steps := steps ++ [ProbeSpi] in
      if truthy result then
        {| cr_ret := result; cr_steps := steps; cr_drvdata := data |}
      else
        let i2c := i2c_citrus_probe (ce_i2c env) in
        let steps := steps ++ [ProbeI2c false] in
        let data := match pr_priv i2c with
                    | Some priv => DrvPriv priv
                    | None => data
                    end in
        if truthy (pr_ret i2c) then
          {| cr_ret := pr_ret i2c; cr_steps := steps; cr_drvdata := data |}
        else
          {| cr_ret := 0; cr_steps := steps; cr_drvdata := data |}.

(** [citrus_core_request] of the variant with a second clock line. *)
Definition citrus_core_request_sck2 (env : core_env) : Z * list probe_step :=
  match ce_mosi env with
  | ErrPtr err => (err, [GetMosi])
  | Descriptor =>
      match ce_sck env with
      | ErrPtr err => (err, [GetMosi; GetSck])
      | Descriptor => (PTR_ERR_OR_ZERO (ce_sck2 env), [GetMosi; GetSck; GetSck2])
      end
  end.

(** [citrus_core_probe] of that variant: the second adapter is optional,
    and the driver data is set last.  The four-wire probe that variant calls
    is not among the sources; all that is used of it is its status, taken
    from [spi_citrus_probe]. *)
Definition citrus_core_probe_sck2 (env : core_env) : core_result :=
  if negb (ce_kzalloc env) then
    {| cr_ret := - ENOMEM; cr_steps := []; cr_drvdata := DrvNone |}
  else
    let (result, steps) := citrus_core_request_sck2 env in
    if truthy result then
      {| cr_ret := result; cr_steps := steps; cr_drvdata := DrvNone |}
    else
      let result := sp_ret (spi_citrus_probe (ce_spi env)) in
      let steps := steps ++ [ProbeSpi] in
      if truthy result then
        {| cr_ret := result; cr_steps := steps; cr_drvdata := DrvNone |}
      else
        let result := pr_ret (i2c_citrus_probe_scl2 (ce_i2c env) false) in
        let steps := steps ++ [ProbeI2c false] in
        if truthy result then
          {| cr_ret := result; cr_steps := steps; cr_drvdata := DrvNone |}
        else
          let result := pr_ret (i2c_citrus_probe_scl2 (ce_i2c2 env) true) in
          let steps := steps ++ [ProbeI2c true] in
          if truthy result && negb (result =? - ENODEV) (* scl2 is optional *) then
            {| cr_ret := result; cr_steps := steps; cr_drvdata := DrvNone |}
          else
            {| cr_ret := 0; cr_steps := steps; cr_drvdata := DrvCitrus |}.

End CoreProbe.

(** The first nonzero status of a list, 0 if there is none. *)
Fixpoint first_error (statuses : list Z) : Z :=
  match statuses with
  | [] => 0
  | s :: rest => if truthy s then s else first_error rest
  end.

(** The number of statuses up to and including the first nonzero one. *)
Fixpoint steps_made (statuses : list Z) : nat :=
  match statuses with
  | [] => O
  | s :: rest => if truthy s then 1%nat else S (steps_made rest)
  end.

(** ** Reading a log *)

Definition lock_eqb (a b : lock_id) : bool :=
  match a, b with
  | BusMutex, BusMutex | AdapBusLock, AdapBusLock | BitbangLock, BitbangLock => true
  | _, _ => false
  end.

(** The event acquires or releases lock [l]. *)
Definition touches (l : lock_id) (e : event) : bool :=
  match e with
  | EvLock l' | EvUnlock l' => lock_eqb l l'
  | _ => false
  end.

Definition is_lock_event (e : event) : bool :=
  match e with EvLock _ | EvUnlock _ => true | _ => false end.

(** The event is an access to a GPIO line. *)
Definition is_line_op (e : event) : bool :=
  match e with
  | EvSetValue _ _ | EvGetValue _ _ | EvDirectionInput _ _
  | EvDirectionOutput _ _ _ => true
  | _ => false
  end.

(** [tr] starts by acquiring [l], ends by releasing it, and does neither in
    between. *)
Definition bracketed (l : lock_id) (tr : list event) : bool :=
  match tr with
  | EvLock l' :: rest =>
      lock_eqb l l' &&
      match rev rest with
      | EvUnlock l'' :: body => lock_eqb l l'' && forallb (fun e => negb (touches l e)) body
      | _ => false
      end
  | _ => false
  end.

(** START and STOP conditions on the two-wire bus, read off the writes to
    the clock line [scl_line] and the data line: a fall, respectively a rise,
    of the data line while the clock is high.  [scl] and [sda] are the levels
    before the first event. *)
Fixpoint start_conditions (scl_line : line) (scl sda : bool) (tr : list event) : nat :=
  match tr with
  | [] => O
  | EvSetValue MOSI v :: tr' =>
      ((if scl && sda && negb v then 1 else 0) + start_conditions scl_line scl v tr')%nat
  | EvSetValue SCK v :: tr' =>
      match scl_line with
      | SCK => start_conditions scl_line v sda tr'
      | _ => start_conditions scl_line scl sda tr'
      end
  | EvSetValue SCK2 v :: tr' =>
      match scl_line with
      | SCK2 => start_conditions scl_line v sda tr'
      | _ => start_conditions scl_line scl sda tr'
      end
  | _ :: tr' => start_conditions scl_line scl sda tr'
  end.

Fixpoint stop_conditions (scl_line : line) (scl sda : bool) (tr : list event) : nat :=
  match tr with
  | [] => O
  | EvSetValue MOSI v :: tr' =>
      ((if scl && negb sda && v then 1 else 0) + stop_conditions scl_line scl v tr')%nat
  | EvSetValue SCK v :: tr' =>
      match scl_line with
      | SCK => stop_conditions scl_line v sda tr'
      | _ => stop_conditions scl_line scl sda tr'
      end
  | EvSetValue SCK2 v :: tr' =>
      match scl_line with
      | SCK2 => stop_conditions scl_line v sda tr'
      | _ => stop_conditions scl_line scl sda tr'
      end
  | _ :: tr' => stop_conditions scl_line scl sda tr'
  end.

(** Rising edges written to a line: its clock pulses. *)
Fixpoint rising_edges (l : line) (level : bool) (tr : list event) : nat :=
  match tr with
  | [] => O
  | EvSetValue SCK v :: tr' =>
      match l with
      | SCK => ((if negb level && v then 1 else 0) + rising_edges l v tr')%nat
      | _ => rising_edges l level tr'
      end
  | EvSetValue SCK2 v :: tr' =>
      match l with
      | SCK2 => ((if negb level && v then 1 else 0) + rising_edges l v tr')%nat
      | _ => rising_edges l level tr'
      end
  | EvSetValue MOSI v :: tr' =>
      match l with
      | MOSI => ((if negb level && v then 1 else 0) + rising_edges l v tr')%nat
      | _ => rising_edges l level tr'
      end
  | _ :: tr' => rising_edges l level tr'
  end.

(** The number a bit string spells, most significant bit first. *)
Definition msb_first_value (bits : list bool) : Z :=
  fold_left (fun acc (b : bool) => 2 * acc + (if b then 1 else 0)) bits 0.

(** The values [getmiso] handed back. *)
Fixpoint samples (tr : list event) : list Z :=
  match tr with
  | [] => []
  | EvSample v :: tr' => v :: samples tr'
  | _ :: tr' => samples tr'
  end.

(** The time a run spent in [udelay] or [ndelay], in the unit of the calls. *)
Fixpoint total_delay (tr : list event) : Z :=
  match tr with
  | [] => 0
  | EvDelay n :: tr' => n + total_delay tr'
  | _ :: tr' => total_delay tr'
  end.

(** What a receiver on the two-wire bus reads: the level of the data line at
    each rising edge written to the clock line [SCK].  [scl] and [sda] are the
    levels before the first event. *)
Fixpoint sampled_bits (scl sda : bool) (tr : list event) : list bool :=
  match tr with
  | [] => []
  | EvSetValue SCK v :: tr' =>
      if negb scl && v then sda :: sampled_bits v sda tr' else sampled_bits v sda tr'
  | EvSetValue MOSI v :: tr' => sampled_bits scl v tr'
  | _ :: tr' => sampled_bits scl sda tr'
  end.

Definition line_eqb (a b : line) : bool :=
  match a, b with
  | SCK, SCK | SCK2, SCK2 | MOSI, MOSI => true
  | _, _ => false
  end.

(** The event is an access to line [l]. *)
Definition accesses (l : line) (e : event) : bool :=
  match e with
  | EvSetValue l' _ | EvGetValue l' _ | EvDirectionInput l' _
  | EvDirectionOutput l' _ _ => line_eqb l l'
  | _ => false
  end.

(** The event asks for a change of direction of line [l]. *)
Definition redirects (l : line) (e : event) : bool :=
  match e with
  | EvDirectionInput l' _ | EvDirectionOutput l' _ _ => line_eqb l l'
  | _ => false
  end.

(** The interrupts a run obtained (request_irq returned 0) and the
    interrupts it freed, in order. *)
Fixpoint irqs_requested (tr : list event) : list Z :=
  match tr with
  | [] => []
  | EvRequestIrq irq _ ret :: tr' =>
      if truthy ret then irqs_requested tr' else irq :: irqs_requested tr'
  | _ :: tr' => irqs_requested tr'
  end.

Fixpoint irqs_freed (tr : list event) : list Z :=
  match tr with
  | [] => []
  | EvFreeIrq irq :: tr' => irq :: irqs_freed tr'
  | _ :: tr' => irqs_freed tr'
  end.

(** How often line [l] was switched to input (the switch accepted), and how
    often it was asked back to output. *)
Fixpoint inputs_granted (l : line) (tr : list event) : nat :=
  match tr with
  | [] => O
  | EvDirectionInput l' ret :: tr' =>
      if line_eqb l l' && negb (truthy ret)
      then S (inputs_granted l tr') else inputs_granted l tr'
  | _ :: tr' => inputs_granted l tr'
  end.

Fixpoint outputs_requested (l : line) (tr : list event) : nat :=
  match tr with
  | [] => O
  | EvDirectionOutput l' _ _ :: tr' =>
      if line_eqb l l' then S (outputs_requested l tr') else outputs_requested l tr'
  | _ :: tr' => outputs_requested l tr'
  end.

(** ** The vocabulary of the properties *)

(** [m], run from [w], returns [a] in [w'] after logging [tr]. *)
Definition returns {A} (m : M A) (w : world) (a : A) (tr : list event) (w' : world)
  : Prop :=
  m w = Ok a w' /\ w_log w' = w_log w ++ tr.

(** An event that touches no lock and, if it is a sample handed back by
    [getmiso], carries 0. *)
Definition benign (e : event) : bool :=
  match e with
  | EvLock _ | EvUnlock _ => false
  | EvSample v => v =? 0
  | _ => true
  end.

(** Nothing but the lines, the log and the environment stream moved: no
    lock was touched, and every event logged is benign. *)
Definition quiet (w w' : world) (tr : list event) : Prop :=
  (forall l, lock_held l w' = lock_held l w) /\
  w_scl_irq_data w' = w_scl_irq_data w /\
  forallb benign tr = true.

(** [m] always returns, touching no lock. *)
Definition runs_quietly {A} (m : M A) : Prop :=
  forall w, exists a w' tr, returns m w a tr w' /\ quiet w w' tr.

(** The callbacks [i2c_citrus_probe] installs in every adapter. *)
Definition installed (bd : i2c_algo_bit_data) : Prop :=
  bd_setsda bd = Some fn_i2c_gpio_setsda_val /\
  bd_setscl bd = Some fn_i2c_gpio_setscl_val /\
  bd_getsda bd = Some fn_i2c_gpio_getsda /\
  bd_pre_xfer bd = Some fn_i2c_gpio_pre_xfer /\
  bd_post_xfer bd = Some fn_i2c_gpio_post_xfer /\
  (bd_getscl bd = None \/ bd_getscl bd = Some fn_i2c_gpio_getscl).

(** The callbacks every probe installs: data and clock setters, a data
    getter, and the driver's two transfer hooks. *)
Definition wired (bd : i2c_algo_bit_data) : Prop :=
  (exists f, bd_setsda bd = Some f) /\
  (exists f, bd_setscl bd = Some f) /\
  (exists f, bd_getsda bd = Some f) /\
  bd_pre_xfer bd = Some fn_i2c_gpio_pre_xfer /\
  bd_post_xfer bd = Some fn_i2c_gpio_post_xfer.

(** The clock line is an output driven high. *)
Definition clock_restored (w : world) : Prop := line_of SCK w = gpio GPIO_OUT true.

(** The bits of [p] at positions [n-1 .. 0]. *)
Definition msb_first (n : nat) (p : Z) : list bool :=
  map (fun i => Z.testbit p (Z.of_nat i)) (rev (seq 0 n)).

(** One bit on the wire: clock low, data, clock high, with the loop's three
    delays for a half-bit delay [d]. *)
Definition bit_cell (d : Z) (b : bool) : list event :=
  [EvSetValue SCK false; EvDelay (Z.quot d 2); EvSetValue MOSI b;
   EvDelay (Z.quot (to_int (d + 1)) 2); EvSetValue SCK true; EvDelay d].

(** What [i2c_gpio_incomplete_transfer] logs for a pattern of [n] bits. *)
Definition incomplete_transfer_log (d : Z) (n : nat) (pattern : Z) : list event :=
  EvLock AdapBusLock :: EvSetValue MOSI false :: EvDelay d ::
  flat_map (bit_cell d) (msb_first n pattern) ++ [EvUnlock AdapBusLock].

(** The patterns the two controls build, as numbers. *)
Definition addr_phase_pattern (a : Z) : Z := Z.lor (Z.shiftl a 2) 3.
Definition write_byte_pattern (a : Z) : Z :=
  Z.lor (Z.shiftl (Z.lor (Z.shiftl a 2) 1) 9) 1.

(** An incomplete transfer of the [n]-bit [pattern] took [w] to [w'], with
    half-bit delay [d]: the log grew by the adapter lock, the START write
    (data low), [n] bit cells carrying the bits of [pattern] most significant
    first, and the unlock; those [n] bits spell [pattern]; the clock rose [n]
    times; the data line never rose while the clock was high (no STOP),
    whatever the levels before; from an idle bus the data line fell exactly
    once while the clock was high (the START); both lines end high and the
    adapter lock is free again. *)
Definition incomplete_framing (d : Z) (n : nat) (pattern : Z) (w w' : world) : Prop :=
  let tr := incomplete_transfer_log d n pattern in
  let scl := gd_level (line_of SCK w) in
  let sda := gd_level (line_of MOSI w) in
  w_log w' = w_log w ++ tr /\
  List.length (msb_first n pattern) = n /\
  msb_first_value (msb_first n pattern) = pattern /\
  rising_edges SCK scl tr = n /\
  stop_conditions SCK scl sda tr = O /\
  start_conditions SCK true true tr = 1%nat /\
  gd_level (line_of MOSI w') = true /\
  gd_level (line_of SCK w') = true /\
  lock_held AdapBusLock w' = false.

(** A request to one of the two engines, with the calls its state machine
    will make and the result it will report. *)
Inductive engine_request :=
| TwoWire (body : list bit_call) (outcome : Z)
| FourWire (spi : spi_device) (body : list bitbang_call) (outcome : Z).

Definition outcome_of (req : engine_request) : Z :=
  match req with TwoWire _ o | FourWire _ _ o => o end.

Section Vocabulary.
Context {K : Kernel} {T : BitbangTxrx}.

Definition transaction (bd : i2c_algo_bit_data) (req : engine_request) : M Z :=
  match req with
  | TwoWire body outcome => two_wire_transaction bd body outcome
  | FourWire spi body outcome => four_wire_transaction spi body outcome
  end.

(** The idle level of the clock for a device: its CPOL mode bit. *)
Definition cpol_level (spi : spi_device) : bool :=
  truthy (Z.land (spi_mode spi) SPI_CPOL).

End Vocabulary.

(** What one fault-injector action leaves behind: if it returns, its log is
    empty or bracketed by the adapter's bus lock, never touches the arbiter's
    mutex, and both locks are as before; it never sleeps on a lock.  It fails
    to return only by the panic of the fatal-stop handler or by reading the
    clock through the missing [getscl] of an output-only adapter; its log
    then starts with the acquire of the adapter's bus lock and has no other
    lock operation, so the run stops with that lock held, having left the
    arbiter's mutex alone. *)
Definition fi_action_outcome (priv : i2c_gpio_private_data) (a : fi_action)
    (w : world) (r : result Z) : Prop :=
  match r with
  | Ok _ w' =>
      exists tr,
        w_log w' = w_log w ++ tr /\
        (tr = [] \/ bracketed AdapBusLock tr = true) /\
        forallb (fun e => negb (touches BusMutex e)) tr = true /\
        lock_held AdapBusLock w' = false /\
        lock_held BusMutex w' = lock_held BusMutex w
  | Halt h w' =>
      exists tr,
        w_log w' = w_log w ++ EvLock AdapBusLock :: tr /\
        forallb (fun e => negb (is_lock_event e)) tr = true /\
        lock_held AdapBusLock w' = true /\
        lock_held BusMutex w' = lock_held BusMutex w /\
        ((h = Panic /\ (exists d, a = FiInjectPanic d) /\
          existsb is_line_op tr = true) \/
         (h = Oops /\ a = FiSclGet /\ bd_getscl (bit_data priv) = None /\ tr = []))
  end.

(** A control of that name is among the debugfs files created. *)
Definition control_created (name : string) (files : list debugfs_file) : bool :=
  existsb (fun f => String.eqb (df_name f) name) files.

Definition getscl_installed (priv : i2c_gpio_private_data) : bool :=
  match bd_getscl (bit_data priv) with Some _ => true | None => false end.

(** The per-adapter debug directory came into being: the fault injector is
    compiled in, the global directory exists or was created, and so was the
    adapter's. *)
Definition debug_dir_created {K : Kernel} (env : probe_env) : bool :=
  CONFIG_I2C_GPIO_FAULT_INJECTOR &&
  (pe_debug_dir env || pe_create_root env) && pe_create_dir env.

(** A run from [w] to [w'] with log [tr] left line [l] alone: the line is as
    it was and no event accesses it. *)
Definition leaves_alone (l : line) (w w' : world) (tr : list event) : Prop :=
  line_of l w' = line_of l w /\
  forallb (fun e => negb (accesses l e)) tr = true.

(** The run did not change the direction of line [l], nor ask to. *)
Definition keeps_direction (l : line) (w w' : world) (tr : list event) : Prop :=
  gd_dir (line_of l w') = gd_dir (line_of l w) /\
  forallb (fun e => negb (redirects l e)) tr = true.

(** The run is confined: it left the lines of [untouched] alone and kept the
    direction of the lines of [fixed]. *)
Definition confined (untouched fixed : line -> bool) (w w' : world) (tr : list event)
  : Prop :=
  (forall l, untouched l = true -> leaves_alone l w w' tr) /\
  (forall l, fixed l = true -> keeps_direction l w w' tr).

(** [m] always returns, and the run satisfies [I]. *)
Definition runs_keeping (I : world -> world -> list event -> Prop) {A} (m : M A)
  : Prop :=
  forall w, exists a w' tr, returns m w a tr w' /\ I w w' tr.

(** The line a callback of [bit_data] works on. *)
Definition setter_line (f : setter_fn) : line :=
  match f with
  | fn_i2c_gpio_setsda_val => MOSI
  | fn_i2c_gpio_setscl_val => SCK
  | fn_i2c_gpio_setscl2_val => SCK2
  end.

Definition getter_line (f : getter_fn) : line :=
  match f with
  | fn_i2c_gpio_getsda => MOSI
  | fn_i2c_gpio_getscl => SCK
  | fn_i2c_gpio_getscl2 => SCK2
  end.

(** The callbacks of [bd] are installed and none of them works on a line of
    [untouched]. *)
Definition callbacks_avoid (untouched : line -> bool) (bd : i2c_algo_bit_data) : Prop :=
  (exists f, bd_setsda bd = Some f /\ untouched (setter_line f) = false) /\
  (exists f, bd_setscl bd = Some f /\ untouched (setter_line f) = false) /\
  (exists f, bd_getsda bd = Some f /\ untouched (getter_line f) = false) /\
  (forall f, bd_getscl bd = Some f -> untouched (getter_line f) = false).

(** The call asks the driver to switch the direction of the data line. *)
Definition is_direction_call (c : bitbang_call) : bool :=
  match c with CallSetLineDirection _ => true | _ => false end.

(** The clock polarity and phase of the four SPI modes, as linux/spi/spi.h
    numbers them: mode [2 * cpol + cpha]. *)
Definition mode_cpol (m : spi_mode_id) : Z :=
  match m with SPI_MODE_0 | SPI_MODE_1 => 0 | SPI_MODE_2 | SPI_MODE_3 => 1 end.

Definition mode_cpha (m : spi_mode_id) : bool :=
  match m with SPI_MODE_0 | SPI_MODE_2 => false | SPI_MODE_1 | SPI_MODE_3 => true end.

(** The loop of spi-bitbang-txrx.h for a bit order and a clock phase. *)
Definition word_loop {T : BitbangTxrx} (lsb_first cpha : bool)
  : spi_device -> Z -> Z -> Z -> Z -> Z -> txrx_prog :=
  match lsb_first, cpha with
  | false, false => bitbang_txrx_be_cpha0
  | true, false => bitbang_txrx_le_cpha0
  | false, true => bitbang_txrx_be_cpha1
  | true, true => bitbang_txrx_le_cpha1
  end.

(** Whether a DEFINE_DEBUGFS_ATTRIBUTE of citrus-i2c.c names a getter: the
    two wire attributes do, the four actions pass NULL. *)
Definition fops_has_get (f : fops_id) : bool :=
  match f with
  | fops_scl | fops_sda => true
  | fops_incomplete_addr_phase | fops_incomplete_write_byte
  | fops_inject_panic | fops_lose_arbitration => false
  end.

(** A device tree node with the two open-drain flags replaced. *)
Definition with_open_drain (sda scl : bool) (np : device_node) : device_node :=
  {| prop_delay_us := prop_delay_us np; prop_timeout_ms := prop_timeout_ms np;
     prop_sda_open_drain := sda; prop_scl_open_drain := scl;
     prop_scl_output_only := prop_scl_output_only np |}.

(** A device tree node without the numeric properties whose value is 0. *)
Definition without_zero_props (np : device_node) : device_node :=
  {| prop_delay_us := match prop_delay_us np with
                      | Some 0 => None
                      | p => p
                      end;
     prop_timeout_ms := match prop_timeout_ms np with
                        | Some 0 => None
                        | p => p
                        end;
     prop_sda_open_drain := prop_sda_open_drain np;
     prop_scl_open_drain := prop_scl_open_drain np;
     prop_scl_output_only := prop_scl_output_only np |}.

Definition with_node (np : device_node) (env : probe_env) : probe_env :=
  {| pe_node := Some np; pe_node2 := pe_node2 env; pe_kzalloc := pe_kzalloc env;
     pe_add_bus := pe_add_bus env; pe_add_action := pe_add_action env;
     pe_debug_dir := pe_debug_dir env; pe_create_root := pe_create_root env;
     pe_create_dir := pe_create_dir env |}.

(** ** Concrete inputs

    The header values of a Linux build, one instance of the word loops, a
    probed adapter and a few worlds, for evaluating the model. *)

Definition linux : Kernel :=
  {| EINVAL := 22; ENODEV := 19; ENOMEM := 12;
     HZ := 100; msecs_to_jiffies := fun m => (m + 9) / 10;
     SPI_CPHA := 0x01; SPI_CPOL := 0x02; SPI_LSB_FIRST := 0x08;
     SPI_3WIRE := 0x10; SPI_3WIRE_HIZ := 0x8000;
     SPI_MASTER_NO_TX := 0x04;
     CONFIG_I2C_GPIO_FAULT_INJECTOR := true |}.

(** Modelled from the spec: a word loop in the manner of spi-bitbang-txrx.h
    (not under drivers/platform/citrus), after section 4.3: per bit, the data
    line is driven, the clock leaves its idle level, the input is sampled and
    the clock returns to idle ([cpha] = false), or the clock leaves idle
    first and the sample follows its return ([cpha] = true); bits go most or
    least significant first.  [n] bits are left, [rx] collects the samples. *)
Fixpoint shift_word (lsb_first cpha : bool) (nsecs cpol tx : Z) (width n : nat) (rx : Z)
  : txrx_prog :=
  match n with
  | O => TxRet rx
  | S i =>
      let pos := if lsb_first then Z.of_nat (width - n) else Z.of_nat i in
      let out := Z.land (Z.shiftr tx pos) 1 in
      let keep := fun v => Z.lor rx (Z.shiftl v pos) in
      if cpha then
        TxSetSck (lnot cpol) (TxSetMosi out (TxDelay nsecs (TxSetSck cpol
          (TxDelay nsecs (TxGetMiso (fun v =>
             shift_word lsb_first cpha nsecs cpol tx width i (keep v)))))))
      else
        TxSetMosi out (TxDelay nsecs (TxSetSck (lnot cpol) (TxDelay nsecs
          (TxGetMiso (fun v => TxSetSck cpol
             (shift_word lsb_first cpha nsecs cpol tx width i (keep v)))))))
  end.

Definition sample_loops : BitbangTxrx :=
  {| bitbang_txrx_be_cpha0 := fun _ nsecs cpol _ word bits =>
       shift_word false false nsecs cpol word (Z.to_nat bits) (Z.to_nat bits) 0;
     bitbang_txrx_le_cpha0 := fun _ nsecs cpol _ word bits =>
       shift_word true false nsecs cpol word (Z.to_nat bits) (Z.to_nat bits) 0;
     bitbang_txrx_be_cpha1 := fun _ nsecs cpol _ word bits =>
       shift_word false true nsecs cpol word (Z.to_nat bits) (Z.to_nat bits) 0;
     bitbang_txrx_le_cpha1 := fun _ nsecs cpol _ word bits =>
       shift_word true true nsecs cpol word (Z.to_nat bits) (Z.to_nat bits) 0 |}.

(** A world with the given line levels (lines driven as outputs), arbiter
    state and environment answers; nothing else held, empty log. *)
Definition world_with (scl sda arbiter_held : bool) (ext : list Z) : world :=
  {| w_citrus := {| sck := gpio GPIO_OUT scl; sck2 := gpio GPIO_OUT true;
                    mosi := gpio GPIO_OUT sda; bus_mutex := arbiter_held |};
     w_adap_bus_lock := false; w_bb_lock := false; w_bb_busy := 0;
     w_scl_irq_data := 0; w_scl_irq_completion := 0;
     w_ext := ext; w_log := [] |}.

(** The idle two-wire bus: both lines high, nothing held. *)
Definition idle_world : world := world_with true true false [].

Definition node_default : device_node :=
  {| prop_delay_us := None; prop_timeout_ms := None;
     prop_sda_open_drain := false; prop_scl_open_drain := false;
     prop_scl_output_only := false |}.

Definition env_default : probe_env :=
  {| pe_node := Some node_default; pe_node2 := None; pe_kzalloc := true;
     pe_add_bus := 0; pe_add_action := 0; pe_debug_dir := false;
     pe_create_root := true; pe_create_dir := true |}.

(** The adapter a default device tree node yields. *)
Definition priv_default : i2c_gpio_private_data :=
  match pr_priv (@i2c_citrus_probe linux env_default) with
  | Some priv => priv
  | None => {| bit_data := {| bd_setsda := None; bd_setscl := None; bd_getsda := None;
                              bd_getscl := None; bd_pre_xfer := None;
                              bd_post_xfer := None; bd_udelay := 0; bd_timeout := 0;
                              bd_can_do_atomic := false |};
               pdata := pdata_zero |}
  end.

(** A device in mode 3 (CPOL and CPHA set), a half-duplex device with the
    turnaround enabled, and a full-duplex device with the turnaround flag. *)
Definition spi_mode3 : spi_device := {| spi_mode := 0x03; master_flags := 0 |}.
Definition spi_3wire_hiz : spi_device := {| spi_mode := 0x8010; master_flags := 0 |}.
Definition spi_hiz_only : spi_device := {| spi_mode := 0x8000; master_flags := 0 |}.

(** An adapter whose clock line is output-only. *)
Definition env_output_only : probe_env :=
  {| pe_node := Some {| prop_delay_us := None; prop_timeout_ms := None;
                        prop_sda_open_drain := false; prop_scl_open_drain := false;
                        prop_scl_output_only := true |};
     pe_node2 := None; pe_kzalloc := true;
     pe_add_bus := 0; pe_add_action := 0; pe_debug_dir := false;
     pe_create_root := true; pe_create_dir := true |}.

Definition priv_output_only : i2c_gpio_private_data :=
  match pr_priv (@i2c_citrus_probe linux env_output_only) with
  | Some priv => priv
  | None => priv_default
  end.

(** A device tree with both two-wire nodes, and the adapter on the second
    clock line. *)
Definition env_two_clocks : probe_env :=
  {| pe_node := Some node_default; pe_node2 := Some node_default; pe_kzalloc := true;
     pe_add_bus := 0; pe_add_action := 0; pe_debug_dir := false;
     pe_create_root := true; pe_create_dir := true |}.

Definition priv_scl2 : i2c_gpio_private_data :=
  match pr_priv (@i2c_citrus_probe_scl2 linux env_two_clocks true) with
  | Some priv => priv
  | None => priv_default
  end.

(** A node that supplies both timing properties, 20 us and 250 ms, and the
    adapter it yields. *)
Definition node_timed : device_node :=
  {| prop_delay_us := Some 20; prop_timeout_ms := Some 250;
     prop_sda_open_drain := false; prop_scl_open_drain := false;
     prop_scl_output_only := false |}.

Definition env_timed : probe_env :=
  {| pe_node := Some node_timed; pe_node2 := None; pe_kzalloc := true;
     pe_add_bus := 0; pe_add_action := 0; pe_debug_dir := false;
     pe_create_root := true; pe_create_dir := true |}.

Definition priv_timed : i2c_gpio_private_data :=
  match pr_priv (@i2c_citrus_probe linux env_timed) with
  | Some priv => priv
  | None => priv_default
  end.

Definition linux_spi : KernelSpi :=
  {| SPI_CS_HIGH := 0x04; SPI_MASTER_GPIO_SS := 0x20;
     SPI_BPW_RANGE_MASK := fun min max => Z.ones max - Z.ones (min - 1) |}.

Definition spi_env_default : spi_probe_env :=
  {| se_alloc := true; se_of_node := true; se_spi_node := Some true;
     se_pdev_id := -1; se_bitbang_init := 0; se_register := 0 |}.

(** A platform device whose every request is granted, with both two-wire
    nodes; and one whose second clock line cannot be had. *)
Definition core_env_default : core_env :=
  {| ce_kzalloc := true; ce_mosi := Descriptor; ce_sck := Descriptor;
     ce_sck2 := Descriptor; ce_spi := spi_env_default;
     ce_i2c := env_two_clocks; ce_i2c2 := env_two_clocks |}.

Definition core_env_no_sck : core_env :=
  {| ce_kzalloc := true; ce_mosi := Descriptor; ce_sck := ErrPtr (-2);
     ce_sck2 := Descriptor; ce_spi := spi_env_default;
     ce_i2c := env_two_clocks; ce_i2c2 := env_two_clocks |}.

(** The second two-wire node is there, but adding its bus fails with
    -ENODEV. *)
Definition core_env_second_bus_enodev : core_env :=
  {| ce_kzalloc := true; ce_mosi := Descriptor; ce_sck := Descriptor;
     ce_sck2 := Descriptor; ce_spi := spi_env_default;
     ce_i2c := env_two_clocks;
     ce_i2c2 := {| pe_node := Some node_default; pe_node2 := Some node_default;
                   pe_kzalloc := true; pe_add_bus := -19; pe_add_action := 0;
                   pe_debug_dir := false; pe_create_root := true;
                   pe_create_dir := true |} |}.

(** * Properties *)

(** ** Running monadic code *)

Lemma returns_ret {A} (a : A) w : returns (ret a) w a [] w.
Proof. split; [reflexivity | now rewrite app_nil_r]. Qed.

Lemma returns_bind {A B} (m : M A) (k : A -> M B) w a tr1 w1 b tr2 w2 :
  returns m w a tr1 w1 -> returns (k a) w1 b tr2 w2 ->
  returns (bind m k) w b (tr1 ++ tr2) w2.
Proof.
  intros [E1 L1] [E2 L2]. split.
  - unfold bind. now rewrite E1.
  - now rewrite L2, L1, app_assoc.
Qed.

Lemma quiet_refl w : quiet w w [].
Proof. repeat split. Qed.

Lemma quiet_trans w w1 w2 tr1 tr2 :
  quiet w w1 tr1 -> quiet w1 w2 tr2 -> quiet w w2 (tr1 ++ tr2).
Proof.
  intros (L1 & D1 & Q1) (L2 & D2 & Q2). repeat split.
  - intros l. now rewrite L2, L1.
  - now rewrite D2, D1.
  - rewrite forallb_app, Q1, Q2. reflexivity.
Qed.

Lemma set_value_runs l value w :
  exists w', returns (gpiod_set_value_cansleep l value) w tt [EvSetValue l (truthy value)] w'
             /\ quiet w w' [EvSetValue l (truthy value)]
             /\ gd_level (line_of l w') = truthy value
             /\ (forall l', l' <> l -> line_of l' w' = line_of l' w)
             /\ w_ext w' = w_ext w.
Proof.
  eexists. split; [split; reflexivity|].
  repeat split; try (intros []; reflexivity); destruct l; try reflexivity;
    intros [] H; try reflexivity; congruence.
Qed.

Lemma get_value_runs l w :
  exists v w', returns (gpiod_get_value_cansleep l) w v [EvGetValue l v] w'
               /\ quiet w w' [EvGetValue l v].
Proof.
  unfold gpiod_get_value_cansleep, returns, bind, ask, emit, ret.
  destruct (w_ext w) as [|v rest] eqn:E;
    do 2 eexists; (split; [split; reflexivity|]);
    repeat split; intros []; reflexivity.
Qed.

Lemma delay_runs n w :
  exists w', returns (udelay n) w tt [EvDelay n] w' /\ quiet w w' [EvDelay n]
             /\ w_citrus w' = w_citrus w /\ w_ext w' = w_ext w.
Proof.
  eexists. split; [split; reflexivity|]. repeat split; intros []; reflexivity.
Qed.

(** ** Bit arithmetic of the shifted patterns *)

Lemma truthy_bit p i :
  0 <= i -> truthy (to_int (Z.land (Z.shiftr p i) 1)) = Z.testbit p i.
Proof.
  intros Hi.
  change 1 with (Z.ones 1) at 1. rewrite Z.land_ones by lia.
  change (2 ^ 1) with 2.
  rewrite <- Z.bit0_mod, Z.shiftr_spec by lia. simpl.
  destruct (Z.testbit p i); reflexivity.
Qed.

Lemma msb_first_S n p :
  msb_first (S n) p = Z.testbit p (Z.of_nat n) :: msb_first n p.
Proof.
  unfold msb_first. rewrite seq_S, rev_app_distr. reflexivity.
Qed.

(** Facts that hold at each of the 128 seven-bit addresses are checked at
    each. *)
Lemma forall_addr7 (P : Z -> bool) :
  forallb P (map Z.of_nat (seq 0 128)) = true ->
  forall a, 0 <= a <= 0x7f -> P a = true.
Proof.
  intros H a Ha. rewrite forallb_forall in H. apply H.
  rewrite in_map_iff. exists (Z.to_nat a). split; [lia|].
  apply in_seq. lia.
Qed.

Section FaultInjector.
Context {K : Kernel}.

(** ** C3: configuration errors *)

(** C3.  An address above 0x7f given to the incomplete-address-phase or the
    incomplete-write-byte control, and a delay above 100000 microseconds given
    to the lose-arbitration or the fatal-stop control, is answered with
    -EINVAL in the very world the call started in: no lock was taken, no
    interrupt requested, no line accessed, [scl_irq_data] not written, the
    log not extended. *)
Theorem out_of_range_rejected_untouched :
  forall (priv : i2c_gpio_private_data) (addr duration : Z) (w : world),
    0x7f < addr -> 100000 < duration ->
    fops_incomplete_addr_phase_set priv addr w = Ok (- EINVAL) w /\
    fops_incomplete_write_byte_set priv addr w = Ok (- EINVAL) w /\
    fops_lose_arbitration_set priv duration w = Ok (- EINVAL) w /\
    fops_inject_panic_set priv duration w = Ok (- EINVAL) w.
Proof.
  intros priv addr duration w Ha Hd.
  unfold fops_incomplete_addr_phase_set, fops_incomplete_write_byte_set,
    fops_lose_arbitration_set, fops_inject_panic_set.
  assert (E1 : (addr >? 0x7f) = true) by (apply Z.gtb_lt; lia).
  assert (E2 : (duration >? 100 * 1000) = true) by (apply Z.gtb_lt; lia).
  rewrite E1, E2. repeat split.
Qed.

End FaultInjector.

Lemma out_of_range_rejected_untouched_witness :
  @fops_incomplete_addr_phase_set linux priv_default 0x80 idle_world
    = Ok (-22) idle_world /\
  @fops_incomplete_write_byte_set linux priv_default 0x80 idle_world
    = Ok (-22) idle_world /\
  @fops_lose_arbitration_set linux priv_default 100001 idle_world
    = Ok (-22) idle_world /\
  @fops_inject_panic_set linux priv_default 100001 idle_world
    = Ok (-22) idle_world.
Proof.
  apply (@out_of_range_rejected_untouched linux priv_default 0x80 100001 idle_world); lia.
Defined.

(** ** C2: the two malformed framings *)

Section Framing.
Context {K : Kernel}.

Lemma probe_installed env priv :
  pr_priv (i2c_citrus_probe env) = Some priv -> installed (bit_data priv).
Proof.
  unfold i2c_citrus_probe.
  destruct (pe_node env); [|discriminate].
  destruct (negb (pe_kzalloc env)); [discriminate|].
  destruct (truthy (pe_add_bus env)); [discriminate|].
  intros [= <-]. unfold installed. simpl.
  repeat split. destruct (negb _); auto.
Qed.

Lemma incomplete_transfer_loop_runs bd p n :
  bd_setsda bd = Some fn_i2c_gpio_setsda_val ->
  bd_setscl bd = Some fn_i2c_gpio_setscl_val ->
  forall w, exists w',
    returns (incomplete_transfer_loop bd p n) w tt
      (flat_map (bit_cell (bd_udelay bd)) (msb_first n p)) w' /\
    (forall l, lock_held l w' = lock_held l w) /\
    w_ext w' = w_ext w /\
    (n <> O -> gd_level (line_of MOSI w') = Z.testbit p 0 /\
               gd_level (line_of SCK w') = true) /\
    (n = O -> w' = w).
Proof.
  intros Hsda Hscl. induction n as [|n IH]; intros w.
  - exists w. split; [apply returns_ret|]. repeat split; congruence.
  - rewrite msb_first_S. simpl flat_map.
    unfold returns. simpl incomplete_transfer_loop.
    unfold setscl, setsda. rewrite Hsda, Hscl. simpl call_setter.
    unfold i2c_gpio_setscl_val, i2c_gpio_setsda_val, citrus_core_set_i2c_scl,
      citrus_core_set_i2c_sda, gpiod_set_value_cansleep, udelay.
    unfold bind, update, emit. simpl.
    rewrite truthy_bit by lia.
    match goal with |- context [incomplete_transfer_loop bd p n ?w1] =>
      destruct (IH w1) as (w' & [E L] & Hl & Hx & Hlev & Hz) end.
    exists w'. split; [split|].
    + exact E.
    + rewrite L. simpl. repeat rewrite <- app_assoc. reflexivity.
    + split; [|split; [|split]].
      * intros l. rewrite Hl. destruct l; reflexivity.
      * rewrite Hx. reflexivity.
      * intros _. destruct n as [|n'].
        -- rewrite (Hz eq_refl). simpl. split; reflexivity.
        -- apply Hlev. discriminate.
      * discriminate.
Qed.

Lemma incomplete_transfer_runs priv pattern pattern_size w :
  installed (bit_data priv) -> lock_held AdapBusLock w = false ->
  exists w',
    returns (i2c_gpio_incomplete_transfer priv pattern pattern_size) w tt
      (incomplete_transfer_log (bd_udelay (bit_data priv)) (Z.to_nat pattern_size) pattern) w' /\
    (forall l, lock_held l w' = lock_held l w) /\
    w_ext w' = w_ext w /\
    (Z.to_nat pattern_size <> O ->
     gd_level (line_of MOSI w') = Z.testbit pattern 0 /\
     gd_level (line_of SCK w') = true).
Proof.
  intros (Hsda & Hscl & _) Hfree. simpl in Hfree.
  unfold returns, i2c_gpio_incomplete_transfer, i2c_lock_bus, mutex_lock, setsda.
  rewrite Hsda. simpl call_setter.
  unfold i2c_gpio_setsda_val, citrus_core_set_i2c_sda, gpiod_set_value_cansleep,
    udelay, i2c_unlock_bus, mutex_unlock, bind, read, update, emit.
  simpl. rewrite Hfree. simpl.
  match goal with |- context [incomplete_transfer_loop ?bd pattern ?n ?w1] =>
    destruct (incomplete_transfer_loop_runs bd pattern n Hsda Hscl w1)
      as (w2 & [E L] & Hl & Hx & Hlev & _) end.
  rewrite E.
  eexists. split; [split; [reflexivity|]|].
  - simpl. rewrite L. simpl. unfold incomplete_transfer_log.
    repeat rewrite <- app_assoc. reflexivity.
  - simpl. split; [|split].
    + intros l. specialize (Hl l). destruct l; simpl in Hl |- *; congruence.
    + rewrite Hx. reflexivity.
    + exact Hlev.
Qed.

End Framing.

Lemma addr_phase_pattern_u32 a :
  0 <= a <= 0x7f ->
  to_u32 (Z.lor (to_u64 (Z.shiftl a 2)) 3) = addr_phase_pattern a.
Proof.
  intros Ha. apply Z.eqb_eq.
  apply (forall_addr7 (fun a => to_u32 (Z.lor (to_u64 (Z.shiftl a 2)) 3)
                                =? addr_phase_pattern a)); [|exact Ha].
  vm_compute. reflexivity.
Qed.

Lemma write_byte_pattern_u32 a :
  0 <= a <= 0x7f ->
  to_u32 (Z.lor (to_u32 (Z.shiftl (to_u32 (Z.lor (to_u64 (Z.shiftl a 2)) 1)) 9)) 1)
  = write_byte_pattern a.
Proof.
  intros Ha. apply Z.eqb_eq.
  apply (forall_addr7 (fun a =>
    to_u32 (Z.lor (to_u32 (Z.shiftl (to_u32 (Z.lor (to_u64 (Z.shiftl a 2)) 1)) 9)) 1)
    =? write_byte_pattern a)); [|exact Ha].
  vm_compute. reflexivity.
Qed.

Lemma addr_phase_bits_spell a :
  0 <= a <= 0x7f ->
  msb_first_value (msb_first 9 (addr_phase_pattern a)) = addr_phase_pattern a.
Proof.
  intros Ha. apply Z.eqb_eq.
  apply (forall_addr7 (fun a =>
    msb_first_value (msb_first 9 (addr_phase_pattern a)) =? addr_phase_pattern a));
    [|exact Ha].
  vm_compute. reflexivity.
Qed.

Lemma write_byte_bits_spell a :
  0 <= a <= 0x7f ->
  msb_first_value (msb_first 18 (write_byte_pattern a)) = write_byte_pattern a.
Proof.
  intros Ha. apply Z.eqb_eq.
  apply (forall_addr7 (fun a =>
    msb_first_value (msb_first 18 (write_byte_pattern a)) =? write_byte_pattern a));
    [|exact Ha].
  vm_compute. reflexivity.
Qed.

Lemma pattern_keeps_sda_high a :
  Z.testbit (addr_phase_pattern a) 0 = true /\ Z.testbit (write_byte_pattern a) 0 = true.
Proof.
  unfold addr_phase_pattern, write_byte_pattern.
  split; rewrite Z.lor_spec; apply orb_true_r.
Qed.

(** What can be read off the log alone, for 9 and for 18 bits. *)
Lemma framing_log_9 d p scl sda :
  rising_edges SCK scl (incomplete_transfer_log d 9 p) = 9%nat /\
  stop_conditions SCK scl sda (incomplete_transfer_log d 9 p) = O /\
  start_conditions SCK true true (incomplete_transfer_log d 9 p) = 1%nat.
Proof. destruct scl, sda; repeat split. Qed.

Lemma framing_log_18 d p scl sda :
  rising_edges SCK scl (incomplete_transfer_log d 18 p) = 18%nat /\
  stop_conditions SCK scl sda (incomplete_transfer_log d 18 p) = O /\
  start_conditions SCK true true (incomplete_transfer_log d 18 p) = 1%nat.
Proof. destruct scl, sda; repeat split. Qed.

Section FramingTheorem.
Context {K : Kernel}.

(** C2.  For every adapter the probe yields, every address [a <= 0x7f] and
    every world in which the adapter's bus lock is free: the
    incomplete-address-phase control returns 0 after a START write and exactly
    9 bit cells, one clock pulse each, carrying [(a << 2) | 3] most
    significant bit first, the data line left high and no STOP issued; the
    incomplete-write-byte control does the same with the 18 bits of
    [(((a << 2) | 1) << 9) | 1]. *)
Theorem incomplete_transfers_framing :
  forall (env : probe_env) (priv : i2c_gpio_private_data) (a : Z) (w : world),
    pr_priv (i2c_citrus_probe env) = Some priv ->
    lock_held AdapBusLock w = false ->
    0 <= a <= 0x7f ->
    (exists w', fops_incomplete_addr_phase_set priv a w = Ok 0 w' /\
                incomplete_framing (bd_udelay (bit_data priv)) 9
                  (Z.lor (Z.shiftl a 2) 3) w w') /\
    (exists w', fops_incomplete_write_byte_set priv a w = Ok 0 w' /\
                incomplete_framing (bd_udelay (bit_data priv)) 18
                  (Z.lor (Z.shiftl (Z.lor (Z.shiftl a 2) 1) 9) 1) w w').
Proof.
  intros env priv a w Hp Hfree Ha.
  apply probe_installed in Hp.
  assert (Hgt : (a >? 0x7f) = false) by (rewrite Z.gtb_ltb; apply Z.ltb_ge; lia).
  destruct (pattern_keeps_sda_high a) as [B9 B18].
  split.
  - unfold fops_incomplete_addr_phase_set. rewrite Hgt.
    rewrite (addr_phase_pattern_u32 a Ha).
    destruct (incomplete_transfer_runs priv (addr_phase_pattern a) 9 w Hp Hfree)
      as (w' & [E L] & Hl & _ & Hlev).
    exists w'. split.
    + unfold bind. rewrite E. reflexivity.
    + change (Z.lor (Z.shiftl a 2) 3) with (addr_phase_pattern a).
      destruct (framing_log_9 (bd_udelay (bit_data priv)) (addr_phase_pattern a)
                  (gd_level (line_of SCK w)) (gd_level (line_of MOSI w)))
        as (R & P & S).
      destruct Hlev as [Hm Hs]; [discriminate|].
      unfold incomplete_framing.
      repeat split; try assumption.
      * apply addr_phase_bits_spell, Ha.
      * rewrite Hm. exact B9.
      * rewrite Hl. exact Hfree.
  - unfold fops_incomplete_write_byte_set. rewrite Hgt.
    rewrite (write_byte_pattern_u32 a Ha).
    destruct (incomplete_transfer_runs priv (write_byte_pattern a) 18 w Hp Hfree)
      as (w' & [E L] & Hl & _ & Hlev).
    exists w'. split.
    + unfold bind. rewrite E. reflexivity.
    + change (Z.lor (Z.shiftl (Z.lor (Z.shiftl a 2) 1) 9) 1) with (write_byte_pattern a).
      destruct (framing_log_18 (bd_udelay (bit_data priv)) (write_byte_pattern a)
                  (gd_level (line_of SCK w)) (gd_level (line_of MOSI w)))
        as (R & P & S).
      destruct Hlev as [Hm Hs]; [discriminate|].
      unfold incomplete_framing.
      repeat split; try assumption.
      * apply write_byte_bits_spell, Ha.
      * rewrite Hm. exact B18.
      * rewrite Hl. exact Hfree.
Qed.

End FramingTheorem.

Lemma incomplete_transfers_framing_witness :
  (exists w', @fops_incomplete_addr_phase_set linux priv_default 0x3A idle_world = Ok 0 w' /\
              incomplete_framing 5 9 (Z.lor (Z.shiftl 0x3A 2) 3) idle_world w') /\
  (exists w', @fops_incomplete_write_byte_set linux priv_default 0x3A idle_world = Ok 0 w' /\
              incomplete_framing 5 18 (Z.lor (Z.shiftl (Z.lor (Z.shiftl 0x3A 2) 1) 9) 1)
                idle_world w').
Proof.
  apply (@incomplete_transfers_framing linux env_default priv_default 0x3A idle_world).
  - reflexivity.
  - reflexivity.
  - lia.
Defined.

(** ** C4: the interrupt-synchronized actions *)

Lemma truthy_nonzero x : x <> 0 -> truthy x = true.
Proof. intros H. unfold truthy. now apply negb_true_iff, Z.eqb_neq. Qed.

Lemma elvis_nonzero a b : a <> 0 -> elvis a b = a.
Proof. intros H. unfold elvis. now rewrite truthy_nonzero. Qed.

Ltac run_fi :=
  unfold returns, i2c_gpio_fi_act_on_scl_irq, gpiod_to_irq, i2c_lock_bus,
    i2c_unlock_bus, mutex_lock, mutex_unlock, gpiod_direction_input,
    gpiod_direction_output, reinit_completion, request_irq, free_irq,
    wait_for_completion_interruptible, run_irq_handler,
    inject_panic_irq, panic, halt_with, udelay,
    bind, ask, read, update, emit, ret.

(** Reduce, rewriting with the equations at hand wherever one applies. *)
Ltac crank :=
  simpl;
  repeat (match goal with
          | H : ?x = _ |- context [?x] => rewrite H
          end; simpl).

Section ClockIrq.
Context {K : Kernel}.

(** The lose-arbitration handler: data low, the requested delay, data
    released, completion signalled. *)
Lemma lose_arbitration_irq_runs priv w :
  bd_setsda (bit_data priv) = Some fn_i2c_gpio_setsda_val ->
  exists w',
    lose_arbitration_irq priv w = Ok tt w' /\
    w_log w' = w_log w ++ [EvSetValue MOSI false; EvDelay (w_scl_irq_data w);
                           EvSetValue MOSI true] /\
    w_ext w' = w_ext w /\
    line_of SCK w' = line_of SCK w /\
    (forall l, lock_held l w' = lock_held l w) /\
    w_scl_irq_data w' = w_scl_irq_data w /\
    w_scl_irq_completion w' = w_scl_irq_completion w + 1.
Proof.
  intros Hsda. unfold lose_arbitration_irq, setsda. rewrite Hsda. simpl call_setter.
  unfold i2c_gpio_setsda_val, citrus_core_set_i2c_sda, gpiod_set_value_cansleep,
    complete, udelay, bind, read, update, emit. simpl.
  eexists. split; [reflexivity|]. simpl. repeat rewrite <- app_assoc.
  repeat split; intros []; reflexivity.
Qed.

Section Paths.
Variables (priv : i2c_gpio_private_data) (h : irq_handler) (w : world).
Variables (irq din rq wt dout : Z) (rest : list Z).
Hypothesis Hsda : bd_setsda (bit_data priv) = Some fn_i2c_gpio_setsda_val.
Hypothesis Hfree : w_adap_bus_lock w = false.

Lemma fi_act_lookup_fails :
  irq < 0 -> w_ext w = irq :: rest ->
  i2c_gpio_fi_act_on_scl_irq priv h w = Ok irq (set_ext rest w).
Proof.
  intros Hirq Hx. apply Z.ltb_lt in Hirq. run_fi. crank. reflexivity.
Qed.

Lemma fi_act_switch_refused :
  0 <= irq -> din <> 0 -> w_ext w = irq :: din :: rest ->
  exists w', returns (i2c_gpio_fi_act_on_scl_irq priv h) w din
               [EvLock AdapBusLock; EvDirectionInput SCK din;
                EvUnlock AdapBusLock] w' /\
             w_citrus w' = w_citrus w /\ lock_held AdapBusLock w' = false.
Proof.
  intros Hirq Hdin Hx. apply Z.ltb_ge in Hirq.
  pose proof (truthy_nonzero din Hdin) as Hd.
  run_fi. crank.
  eexists. split; [split; [reflexivity|]|split].
  - simpl. repeat rewrite <- app_assoc. reflexivity.
  - simpl. destruct (w_citrus w). reflexivity.
  - reflexivity.
Qed.

Lemma fi_act_registration_fails :
  0 <= irq -> rq <> 0 -> w_ext w = irq :: 0 :: rq :: dout :: rest ->
  exists w', returns (i2c_gpio_fi_act_on_scl_irq priv h) w (elvis dout rq)
               [EvLock AdapBusLock; EvDirectionInput SCK 0;
                EvRequestIrq irq h rq; EvDirectionOutput SCK true dout;
                EvUnlock AdapBusLock] w' /\
             (dout = 0 -> clock_restored w') /\
             lock_held AdapBusLock w' = false.
Proof.
  intros Hirq Hrq Hx. apply Z.ltb_ge in Hirq.
  pose proof (truthy_nonzero rq Hrq) as Hr.
  destruct (Z.eq_dec dout 0) as [->|Hdout];
    [|pose proof (truthy_nonzero dout Hdout) as Ho];
    run_fi; unfold elvis; crank;
    (eexists; split; [split; [reflexivity|]|split]);
    simpl; try (repeat rewrite <- app_assoc; reflexivity); try reflexivity;
    intros; try contradiction; reflexivity.
Qed.

Lemma fi_act_wait_cut_short :
  0 <= irq -> wt <> 0 -> w_ext w = irq :: 0 :: 0 :: wt :: dout :: rest ->
  exists w', returns (i2c_gpio_fi_act_on_scl_irq priv h) w dout
               [EvLock AdapBusLock; EvDirectionInput SCK 0;
                EvRequestIrq irq h 0; EvWait wt; EvFreeIrq irq;
                EvDirectionOutput SCK true dout; EvUnlock AdapBusLock] w' /\
             (dout = 0 -> clock_restored w') /\
             lock_held AdapBusLock w' = false.
Proof.
  intros Hirq Hwt Hx. apply Z.ltb_ge in Hirq.
  pose proof (truthy_nonzero wt Hwt) as Ht.
  destruct (Z.eq_dec dout 0) as [->|Hdout];
    [|pose proof (truthy_nonzero dout Hdout) as Ho];
    run_fi; unfold elvis; crank;
    (eexists; split; [split; [reflexivity|]|split]);
    simpl; try (repeat rewrite <- app_assoc; reflexivity); try reflexivity;
    intros; try contradiction; reflexivity.
Qed.

Lemma fi_act_lose_arbitration :
  0 <= irq -> w_ext w = irq :: 0 :: 0 :: 0 :: dout :: rest ->
  exists w', returns (i2c_gpio_fi_act_on_scl_irq priv lose_arbitration_irq_fn) w dout
               [EvLock AdapBusLock; EvDirectionInput SCK 0;
                EvRequestIrq irq lose_arbitration_irq_fn 0;
                EvSetValue MOSI false; EvDelay (w_scl_irq_data w);
                EvSetValue MOSI true; EvWait 0; EvFreeIrq irq;
                EvDirectionOutput SCK true dout; EvUnlock AdapBusLock] w' /\
             (dout = 0 -> clock_restored w') /\
             lock_held AdapBusLock w' = false.
Proof.
  intros Hirq Hx. apply Z.ltb_ge in Hirq.
  destruct (Z.eq_dec dout 0) as [->|Hdout];
    [|pose proof (truthy_nonzero dout Hdout) as Ho];
    run_fi; unfold elvis; crank;
    match goal with |- context [lose_arbitration_irq priv ?W] =>
      destruct (lose_arbitration_irq_runs priv W Hsda)
        as (w1 & E & L & X & S & _ & _ & _) end;
    simpl in *; crank;
    (eexists; split; [split; [reflexivity|]|split]);
    crank; try (repeat rewrite <- app_assoc; reflexivity); try reflexivity;
    intros; try contradiction; crank; reflexivity.
Qed.

Lemma fi_act_panics :
  0 <= irq -> w_ext w = irq :: 0 :: 0 :: 0 :: dout :: rest ->
  exists w', i2c_gpio_fi_act_on_scl_irq priv inject_panic_irq_fn w = Halt Panic w'.
Proof.
  intros Hirq Hx. apply Z.ltb_ge in Hirq.
  run_fi. crank. eexists. reflexivity.
Qed.

End Paths.
(** C4, as the code has it.  Let the environment answer [irq] to the
    interrupt lookup, [din] to the switch of the clock line to input, [rq] to
    request_irq, [wt] to the wait and [dout] to the switch back to output.

    - Lookup failure ([irq < 0]): the action returns [irq]; it took no lock
      and touched no line, so the clock line is as it was, not restored.
    - Switch refused ([din <> 0]): it returns [din] and unlocks; the clock
      line is as it was, and no switch back to output is requested.
    - Registration failure ([rq <> 0]), wait cut short by a signal
      ([wt <> 0]) and interrupt handled by lose-arbitration ([wt = 0]): the
      clock line is requested back to output, driven high, before the unlock,
      and is restored when that request succeeds ([dout = 0]).  The result is
      [dout] if the restore failed, else [rq]: a registration failure is
      reported, a wait cut short is not (the result is that of a handled
      interrupt, 0).
    - Interrupt handled by the fatal-stop handler: the kernel panics, the
      action does not return. *)
Theorem scl_irq_action_exits :
  forall (env : probe_env) (priv : i2c_gpio_private_data) (h : irq_handler)
         (w : world) (irq din rq wt dout : Z) (rest : list Z),
    pr_priv (i2c_citrus_probe env) = Some priv ->
    lock_held AdapBusLock w = false ->
    (irq < 0 -> w_ext w = irq :: rest ->
       i2c_gpio_fi_act_on_scl_irq priv h w = Ok irq (set_ext rest w)) /\
    (0 <= irq -> din <> 0 -> w_ext w = irq :: din :: rest ->
       exists w', returns (i2c_gpio_fi_act_on_scl_irq priv h) w din
                    [EvLock AdapBusLock; EvDirectionInput SCK din;
                     EvUnlock AdapBusLock] w' /\
                  w_citrus w' = w_citrus w /\ lock_held AdapBusLock w' = false) /\
    (0 <= irq -> rq <> 0 -> w_ext w = irq :: 0 :: rq :: dout :: rest ->
       exists w', returns (i2c_gpio_fi_act_on_scl_irq priv h) w (elvis dout rq)
                    [EvLock AdapBusLock; EvDirectionInput SCK 0;
                     EvRequestIrq irq h rq; EvDirectionOutput SCK true dout;
                     EvUnlock AdapBusLock] w' /\
                  (dout = 0 -> clock_restored w') /\
                  lock_held AdapBusLock w' = false) /\
    (0 <= irq -> wt <> 0 -> w_ext w = irq :: 0 :: 0 :: wt :: dout :: rest ->
       exists w', returns (i2c_gpio_fi_act_on_scl_irq priv h) w dout
                    [EvLock AdapBusLock; EvDirectionInput SCK 0;
                     EvRequestIrq irq h 0; EvWait wt; EvFreeIrq irq;
                     EvDirectionOutput SCK true dout; EvUnlock AdapBusLock] w' /\
                  (dout = 0 -> clock_restored w') /\
                  lock_held AdapBusLock w' = false) /\
    (0 <= irq -> w_ext w = irq :: 0 :: 0 :: 0 :: dout :: rest ->
       (exists w', returns (i2c_gpio_fi_act_on_scl_irq priv lose_arbitration_irq_fn) w dout
                    [EvLock AdapBusLock; EvDirectionInput SCK 0;
                     EvRequestIrq irq lose_arbitration_irq_fn 0;
                     EvSetValue MOSI false; EvDelay (w_scl_irq_data w);
                     EvSetValue MOSI true; EvWait 0; EvFreeIrq irq;
                     EvDirectionOutput SCK true dout; EvUnlock AdapBusLock] w' /\
                  (dout = 0 -> clock_restored w') /\
                  lock_held AdapBusLock w' = false) /\
       (exists w', i2c_gpio_fi_act_on_scl_irq priv inject_panic_irq_fn w = Halt Panic w')).
Proof.
  intros env priv h w irq din rq wt dout rest Hp Hfree.
  apply probe_installed in Hp. destruct Hp as (Hsda & _).
  simpl in Hfree.
  split; [|split; [|split; [|split]]].
  - intros Hirq Hx. exact (fi_act_lookup_fails priv h w irq rest Hirq Hx).
  - intros Hirq Hdin Hx.
    exact (fi_act_switch_refused priv h w irq din rest Hfree Hirq Hdin Hx).
  - intros Hirq Hrq Hx.
    exact (fi_act_registration_fails priv h w irq rq dout rest Hfree Hirq Hrq Hx).
  - intros Hirq Hwt Hx.
    exact (fi_act_wait_cut_short priv h w irq wt dout rest Hfree Hirq Hwt Hx).
  - intros Hirq Hx. split.
    + exact (fi_act_lose_arbitration priv w irq dout rest Hsda Hfree Hirq Hx).
    + exact (fi_act_panics priv w irq dout rest Hfree Hirq Hx).
Qed.

End ClockIrq.

(** From a clock line left low, [world_with false true false ext] answers
    the calls of the action with [ext]. *)
Lemma scl_irq_action_exits_witness :
  exists w',
    returns (i2c_gpio_fi_act_on_scl_irq priv_default lose_arbitration_irq_fn)
      (world_with false true false [17; 0; 0; -512; 0]) 0
      [EvLock AdapBusLock; EvDirectionInput SCK 0;
       EvRequestIrq 17 lose_arbitration_irq_fn 0; EvWait (-512); EvFreeIrq 17;
       EvDirectionOutput SCK true 0; EvUnlock AdapBusLock] w' /\
    (0 = 0 -> clock_restored w') /\
    lock_held AdapBusLock w' = false.
Proof.
  destruct (@scl_irq_action_exits linux env_default priv_default lose_arbitration_irq_fn
              (world_with false true false [17; 0; 0; -512; 0])
              17 0 0 (-512) 0 [] eq_refl eq_refl) as (_ & _ & _ & H & _).
  apply H; [lia | lia | reflexivity].
Defined.

(** C4 as stated fails twice.  A wait cut short by a signal (answer -512,
    -ERESTARTSYS) and a handled interrupt both end in result 0, so the
    cancellation is not reported as an error of its own; and after a failed
    interrupt lookup (answer -6, -ENXIO) the action returns with the clock line
    still low, no restore having been attempted. *)
Lemma scl_irq_action_counterexample :
  (exists w1 w2,
     @fops_lose_arbitration_set linux priv_default 10
       (world_with false true false [17; 0; 0; -512; 0]) = Ok 0 w1 /\
     @fops_lose_arbitration_set linux priv_default 10
       (world_with false true false [17; 0; 0; 0; 0]) = Ok 0 w2) /\
  (exists w3,
     @fops_lose_arbitration_set linux priv_default 10
       (world_with false true false [-6]) = Ok (-6) w3 /\
     line_of SCK w3 = gpio GPIO_OUT false /\
     existsb is_line_op (w_log w3) = false).
Proof.
  split.
  - do 2 eexists. split; vm_compute; reflexivity.
  - eexists. split; [vm_compute; reflexivity|]. split; reflexivity.
Qed.

(** ** C1: the arbiter lock around transactions *)

Lemma runs_quietly_ret {A} (a : A) : runs_quietly (ret a).
Proof. intros w. exists a, w, []. split; [apply returns_ret | apply quiet_refl]. Qed.

Lemma runs_quietly_bind {A B} (m : M A) (k : A -> M B) :
  runs_quietly m -> (forall a, runs_quietly (k a)) -> runs_quietly (bind m k).
Proof.
  intros Hm Hk w.
  destruct (Hm w) as (a & w1 & tr1 & R1 & Q1).
  destruct (Hk a w1) as (b & w2 & tr2 & R2 & Q2).
  exists b, w2, (tr1 ++ tr2). split.
  - eapply returns_bind; eassumption.
  - eapply quiet_trans; eassumption.
Qed.

Lemma set_value_quietly l value : runs_quietly (gpiod_set_value_cansleep l value).
Proof.
  intros w. destruct (set_value_runs l value w) as (w' & R & Q & _).
  now exists tt, w', [EvSetValue l (truthy value)].
Qed.

Lemma get_value_quietly l : runs_quietly (gpiod_get_value_cansleep l).
Proof.
  intros w. destruct (get_value_runs l w) as (v & w' & R & Q).
  now exists v, w', [EvGetValue l v].
Qed.

Lemma delay_quietly n : runs_quietly (udelay n).
Proof.
  intros w. destruct (delay_runs n w) as (w' & R & Q & _).
  now exists tt, w', [EvDelay n].
Qed.

Lemma direction_input_quietly l : runs_quietly (gpiod_direction_input l).
Proof.
  intros w. unfold gpiod_direction_input, returns, bind, ask, update, emit, ret.
  destruct (w_ext w) as [|r rest]; simpl.
  - do 3 eexists. split; [split; reflexivity|].
    repeat split; intros []; destruct l; reflexivity.
  - destruct (truthy r); do 3 eexists; (split; [split; reflexivity|]);
      repeat split; intros []; destruct l; reflexivity.
Qed.

Lemma direction_output_quietly l value : runs_quietly (gpiod_direction_output l value).
Proof.
  intros w. unfold gpiod_direction_output, returns, bind, ask, update, emit, ret.
  destruct (w_ext w) as [|r rest]; simpl.
  - do 3 eexists. split; [split; reflexivity|].
    repeat split; intros []; destruct l; reflexivity.
  - destruct (truthy r); do 3 eexists; (split; [split; reflexivity|]);
      repeat split; intros []; destruct l; reflexivity.
Qed.

Lemma sample_quietly : runs_quietly (emit (EvSample 0)).
Proof.
  intros w. do 3 eexists. split; [split; reflexivity|].
  repeat split; intros []; reflexivity.
Qed.

Lemma call_setter_quietly f val : runs_quietly (call_setter (Some f) val).
Proof. destruct f; apply set_value_quietly. Qed.

Lemma call_getter_quietly f : runs_quietly (call_getter (Some f)).
Proof. destruct f; apply get_value_quietly. Qed.

Lemma run_bit_calls_quietly bd body : wired bd -> runs_quietly (run_bit_calls bd body).
Proof.
  intros ([fa Ha] & [fb Hb] & [fc Hc] & _).
  induction body as [|c body IH]; [apply runs_quietly_ret|].
  simpl. apply runs_quietly_bind; [|intros _; exact IH].
  destruct c; simpl; unfold setsda, setscl, getsda, getscl.
  - rewrite Ha. apply call_setter_quietly.
  - rewrite Hb. apply call_setter_quietly.
  - rewrite Hc. apply runs_quietly_bind;
      [apply call_getter_quietly | intros; apply runs_quietly_ret].
  - destruct (bd_getscl bd) as [f|]; [|apply runs_quietly_ret].
    apply runs_quietly_bind;
      [apply call_getter_quietly | intros; apply runs_quietly_ret].
  - apply delay_quietly.
Qed.

Lemma run_txrx_quietly spi p : runs_quietly (run_txrx spi p).
Proof.
  induction p as [word|is_on k IH|is_on k IH|k IH|nsecs k IH]; simpl.
  - apply runs_quietly_ret.
  - apply runs_quietly_bind; [apply set_value_quietly | intros _; exact IH].
  - apply runs_quietly_bind; [apply set_value_quietly | intros _; exact IH].
  - change (runs_quietly (emit (EvSample 0) ;; run_txrx spi (k 0))).
    apply runs_quietly_bind; [apply sample_quietly | intros _; apply IH].
  - apply runs_quietly_bind; [apply delay_quietly | intros _; exact IH].
Qed.

Lemma forallb_rev {A} (f : A -> bool) l : forallb f (rev l) = forallb f l.
Proof.
  induction l as [|x l IH]; [reflexivity|].
  simpl. rewrite forallb_app, IH. simpl. rewrite andb_true_r. apply andb_comm.
Qed.

Lemma lock_eqb_refl l : lock_eqb l l = true.
Proof. destruct l; reflexivity. Qed.

Lemma bracketed_intro l body :
  forallb (fun e => negb (touches l e)) body = true ->
  bracketed l (EvLock l :: body ++ [EvUnlock l]) = true.
Proof.
  intros H. unfold bracketed.
  rewrite rev_app_distr. simpl. rewrite !lock_eqb_refl, forallb_rev, H. reflexivity.
Qed.

Lemma not_lock_not_touching l tr :
  forallb benign tr = true ->
  forallb (fun e => negb (touches l e)) tr = true.
Proof.
  rewrite !forallb_forall. intros H e He. specialize (H e He).
  destruct e; simpl in *; try reflexivity; discriminate.
Qed.

Lemma mutex_lock_runs l w :
  lock_held l w = false ->
  exists w', returns (mutex_lock l) w tt [EvLock l] w' /\
             lock_held l w' = true /\
             (forall l', l' <> l -> lock_held l' w' = lock_held l' w).
Proof.
  intros H. unfold mutex_lock, returns, bind, read, update, emit. rewrite H.
  eexists. split; [split; [reflexivity | destruct l; reflexivity]|]. split.
  - destruct l; reflexivity.
  - intros l' Hl. destruct l, l'; try reflexivity; congruence.
Qed.

Lemma mutex_lock_blocks l w :
  lock_held l w = true -> mutex_lock l w = Halt (Blocked l) w.
Proof. intros H. unfold mutex_lock, bind, read. rewrite H. reflexivity. Qed.

Lemma mutex_unlock_runs l w :
  exists w', returns (mutex_unlock l) w tt [EvUnlock l] w' /\
             lock_held l w' = false /\
             (forall l', l' <> l -> lock_held l' w' = lock_held l' w).
Proof.
  unfold mutex_unlock, returns, bind, update, emit.
  eexists. split; [split; [reflexivity | destruct l; reflexivity]|]. split.
  - destruct l; reflexivity.
  - intros l' Hl. destruct l, l'; try reflexivity; congruence.
Qed.

Section Arbiter.
Context {K : Kernel} {T : BitbangTxrx}.

Lemma probe_wired env priv :
  pr_priv (i2c_citrus_probe env) = Some priv -> wired (bit_data priv).
Proof.
  intros H. destruct (probe_installed env priv H) as (A & B & C & D & E & _).
  unfold wired. eauto 10.
Qed.

Lemma probe_scl2_wired env scl2 priv :
  pr_priv (i2c_citrus_probe_scl2 env scl2) = Some priv -> wired (bit_data priv).
Proof.
  unfold i2c_citrus_probe_scl2.
  destruct (if scl2 then pe_node2 env else pe_node env); [|discriminate].
  destruct (negb (pe_kzalloc env)); [discriminate|].
  destruct (truthy (pe_add_bus env)); [discriminate|].
  destruct (truthy (pe_add_action env)); [discriminate|].
  intros [= <-]. unfold wired. simpl. eauto 10.
Qed.

Lemma chipselect_quietly spi is_active : runs_quietly (spi_citrus_chipselect spi is_active).
Proof.
  unfold spi_citrus_chipselect.
  destruct (truthy is_active); [apply set_value_quietly | apply runs_quietly_ret].
Qed.

Lemma turnaround_quietly spi : runs_quietly (set_direction_turnaround spi).
Proof.
  unfold set_direction_turnaround.
  apply runs_quietly_bind; [|intros; apply runs_quietly_ret].
  destruct (truthy _); [|apply runs_quietly_ret].
  apply runs_quietly_bind; [apply set_value_quietly | intros; apply set_value_quietly].
Qed.

Lemma set_direction_quietly spi output : runs_quietly (spi_citrus_set_direction spi output).
Proof.
  unfold spi_citrus_set_direction.
  destruct output; [apply direction_output_quietly|].
  destruct (truthy (Z.land _ _)); [|apply turnaround_quietly].
  apply runs_quietly_bind; [apply direction_input_quietly|].
  intros r. destruct (truthy r); [apply runs_quietly_ret | apply turnaround_quietly].
Qed.

Lemma run_bitbang_calls_quietly spi body : runs_quietly (run_bitbang_calls spi body).
Proof.
  induction body as [|c body IH]; [apply runs_quietly_ret|].
  simpl. apply runs_quietly_bind; [|intros _; exact IH].
  destruct c; simpl.
  - apply chipselect_quietly.
  - apply runs_quietly_bind; [apply set_direction_quietly | intros; apply runs_quietly_ret].
  - apply runs_quietly_bind; [apply run_txrx_quietly | intros; apply runs_quietly_ret].
Qed.

Lemma transaction_bracketed bd req w :
  wired bd ->
  lock_held BusMutex w = false -> lock_held BitbangLock w = false ->
  exists tr w',
    returns (transaction bd req) w (outcome_of req) tr w' /\
    bracketed BusMutex tr = true /\
    (forall l, lock_held l w' = lock_held l w).
Proof.
  intros Hw Hbus Hbb. pose proof Hw as (_ & _ & _ & Hpre & Hpost).
  simpl in Hbus, Hbb.
  destruct req as [body outcome | spi body outcome]; simpl.
  - unfold two_wire_transaction. rewrite Hpre, Hpost. simpl.
    unfold i2c_gpio_pre_xfer, i2c_gpio_post_xfer, citrus_core_lock_i2c,
      citrus_core_unlock_i2c, mutex_lock, mutex_unlock, returns,
      bind, read, update, emit, ret.
    simpl. rewrite Hbus. simpl.
    match goal with |- context [run_bit_calls bd body ?w1] =>
      destruct (run_bit_calls_quietly bd body Hw w1)
        as ([] & w2 & tr & [E L] & Hl & _ & Hq) end.
    rewrite E. simpl in L.
    exists (EvLock BusMutex :: tr ++ [EvUnlock BusMutex]). eexists.
    split; [split; [reflexivity|]|split].
    + simpl. rewrite L. repeat rewrite <- app_assoc. reflexivity.
    + apply bracketed_intro, not_lock_not_touching, Hq.
    + intros l. specialize (Hl l). destruct l; simpl in Hl |- *; congruence.
  - unfold four_wire_transaction, spi_citrus_prepare_hardware,
      spi_citrus_unprepare_hardware, citrus_core_lock_spi, citrus_core_unlock_spi,
      mutex_lock, mutex_unlock, returns, bind, read, update, emit, ret.
    simpl. rewrite Hbus. simpl. rewrite Hbb. simpl.
    match goal with |- context [run_bitbang_calls spi body ?w1] =>
      destruct (run_bitbang_calls_quietly spi body w1)
        as ([] & w2 & tr & [E L] & Hl & _ & Hq) end.
    rewrite E. simpl in L.
    pose proof (Hl BitbangLock) as Hb2. simpl in Hb2. rewrite Hb2. simpl.
    exists (EvLock BusMutex ::
            ([EvLock BitbangLock; EvUnlock BitbangLock] ++ tr ++
             [EvLock BitbangLock; EvUnlock BitbangLock]) ++ [EvUnlock BusMutex]).
    eexists. split; [split; [reflexivity|]|split].
    + simpl. rewrite L. repeat rewrite <- app_assoc. reflexivity.
    + apply bracketed_intro. rewrite !forallb_app. simpl.
      rewrite (not_lock_not_touching BusMutex tr Hq). reflexivity.
    + intros l. specialize (Hl l). destruct l; simpl in Hl |- *; congruence.
Qed.

Lemma transaction_blocks bd req w :
  wired bd -> lock_held BusMutex w = true ->
  transaction bd req w = Halt (Blocked BusMutex) w.
Proof.
  intros (_ & _ & _ & Hpre & _) Hheld.
  destruct req as [body outcome | spi body outcome]; simpl.
  - unfold two_wire_transaction. rewrite Hpre. simpl.
    unfold i2c_gpio_pre_xfer, citrus_core_lock_i2c, bind.
    now rewrite (mutex_lock_blocks BusMutex w Hheld).
  - unfold four_wire_transaction, spi_citrus_prepare_hardware, citrus_core_lock_spi, bind.
    now rewrite (mutex_lock_blocks BusMutex w Hheld).
Qed.

End Arbiter.

Lemma ask_eq w : ask w = Ok (hd 0 (w_ext w)) (set_ext (tl (w_ext w)) w).
Proof.
  unfold ask. destruct w as [c a b bb d dc ext lg]. simpl.
  destruct ext; reflexivity.
Qed.

Ltac close_outcome :=
  simpl;
  first [ exists []; split; [symmetry; apply app_nil_r|]
        | eexists; split; [crank; repeat rewrite <- app_assoc; reflexivity|] ];
  repeat split; crank;
  first [left; reflexivity | right; reflexivity | reflexivity].

Section InjectorLock.
Context {K : Kernel}.

Lemma incomplete_transfer_outcome priv p n w a r :
  installed (bit_data priv) -> lock_held AdapBusLock w = false ->
  fi_action_outcome priv a w
    ((i2c_gpio_incomplete_transfer priv p (Z.of_nat n) ;; ret r) w).
Proof.
  intros Hi Hfree.
  destruct (incomplete_transfer_runs priv p (Z.of_nat n) w Hi Hfree)
    as (w' & [E L] & Hl & _).
  unfold bind. rewrite E. unfold ret, fi_action_outcome.
  eexists. split; [exact L|]. rewrite Nat2Z.id.
  assert (Hcells : forall e, In e (flat_map (bit_cell (bd_udelay (bit_data priv)))
                                     (msb_first n p)) -> is_lock_event e = false).
  { intros e He. apply in_flat_map in He. destruct He as (b & _ & He).
    simpl in He. intuition (subst; reflexivity). }
  split; [right|split; [|split]].
  - unfold incomplete_transfer_log.
    apply (bracketed_intro AdapBusLock (EvSetValue MOSI false :: EvDelay _ :: _)).
    simpl. apply forallb_forall. intros e He. specialize (Hcells e He).
    destruct e; try reflexivity; discriminate.
  - unfold incomplete_transfer_log. simpl. rewrite forallb_app. simpl.
    rewrite andb_true_r. apply forallb_forall. intros e He. specialize (Hcells e He).
    destruct e; try reflexivity; discriminate.
  - rewrite Hl. exact Hfree.
  - apply Hl.
Qed.

Section Actions.
Variables (priv : i2c_gpio_private_data) (w : world).
Hypothesis Hi : installed (bit_data priv).
Hypothesis Hfree : w_adap_bus_lock w = false.

Let Hsda : bd_setsda (bit_data priv) = Some fn_i2c_gpio_setsda_val := proj1 Hi.

Ltac split_answers :=
  repeat (simpl;
          match goal with
          | H : ?x = _ |- context [?x] => rewrite H
          | |- context [ask ?W] => rewrite (ask_eq W)
          | |- context [lose_arbitration_irq priv ?W] =>
              let w1 := fresh "w" in
              let E := fresh "E" in
              let L := fresh "L" in
              let X := fresh "X" in
              let Hl := fresh "Hl" in
              destruct (lose_arbitration_irq_runs priv W Hsda)
                as (w1 & E & L & X & _ & Hl & _ & _);
              pose proof (Hl BusMutex); pose proof (Hl AdapBusLock);
              clear Hl; simpl in *
          | |- context [if ?x <? 0 then _ else _] => destruct (x <? 0) eqn:?
          | |- context [if truthy ?x then _ else _] => destruct (truthy x) eqn:?
          end).

Ltac run_act :=
  unfold returns, i2c_gpio_fi_act_on_scl_irq, gpiod_to_irq, i2c_lock_bus,
    i2c_unlock_bus, mutex_lock, mutex_unlock, gpiod_direction_input,
    gpiod_direction_output, gpiod_get_value_cansleep, gpiod_set_value_cansleep,
    reinit_completion, request_irq, free_irq,
    wait_for_completion_interruptible, run_irq_handler,
    inject_panic_irq, panic, halt_with, udelay,
    bind, read, update, emit, ret.

(** An interrupt-synchronized action, [scl_irq_data] just written. *)
Lemma scl_irq_action_outcome_at d h a :
  (h = inject_panic_irq_fn -> exists d, a = FiInjectPanic d) ->
  fi_action_outcome priv a w
    (i2c_gpio_fi_act_on_scl_irq priv h (set_scl_irq_data d w)).
Proof.
  intros Ha. run_act. split_answers; try close_outcome.
  all: destruct h; simpl; split_answers; try close_outcome.
  all: eexists; split; [crank; repeat rewrite <- app_assoc; reflexivity|].
  all: repeat split; crank; try reflexivity.
  all: left; repeat split; apply Ha; reflexivity.
Qed.

Lemma fi_action_bracketed a :
  fi_action_outcome priv a w (run_fi_action priv a w).
Proof.
  pose proof Hi as (_ & Hscl & Hgsda & _ & _ & Hgscl).
  destruct a; simpl run_fi_action.
  - unfold fops_scl_get, getscl. destruct Hgscl as [E|E]; rewrite E; simpl call_getter.
    + run_act. split_answers.
      exists []. repeat split; crank; try reflexivity. right. auto.
    + unfold i2c_gpio_getscl, citrus_core_get_i2c_scl.
      run_act. split_answers. close_outcome.
  - unfold fops_scl_set, setscl. rewrite Hscl. simpl call_setter.
    unfold i2c_gpio_setscl_val, citrus_core_set_i2c_scl.
    run_act. split_answers. close_outcome.
  - unfold fops_sda_get, getsda. rewrite Hgsda. simpl call_getter.
    unfold i2c_gpio_getsda, citrus_core_get_i2c_sda.
    run_act. split_answers. close_outcome.
  - unfold fops_sda_set, setsda. rewrite Hsda. simpl call_setter.
    unfold i2c_gpio_setsda_val, citrus_core_set_i2c_sda.
    run_act. split_answers. close_outcome.
  - unfold fops_incomplete_addr_phase_set.
    destruct (addr >? 0x7f); [unfold ret; close_outcome|].
    apply (incomplete_transfer_outcome priv _ 9); assumption.
  - unfold fops_incomplete_write_byte_set.
    destruct (addr >? 0x7f); [unfold ret; close_outcome|].
    apply (incomplete_transfer_outcome priv _ 18); assumption.
  - unfold fops_lose_arbitration_set.
    destruct (duration >? 100 * 1000); [unfold ret; close_outcome|].
    change (fi_action_outcome priv (FiLoseArbitration duration) w
              (i2c_gpio_fi_act_on_scl_irq priv lose_arbitration_irq_fn
                 (set_scl_irq_data duration w))).
    apply scl_irq_action_outcome_at. discriminate.
  - unfold fops_inject_panic_set.
    destruct (duration >? 100 * 1000); [unfold ret; close_outcome|].
    change (fi_action_outcome priv (FiInjectPanic duration) w
              (i2c_gpio_fi_act_on_scl_irq priv inject_panic_irq_fn
                 (set_scl_irq_data duration w))).
    apply scl_irq_action_outcome_at. eauto.
Qed.

End Actions.
End InjectorLock.

Section ArbiterTheorem.
Context {K : Kernel} {T : BitbangTxrx}.

(** C1, as the code has it.  For every adapter the probe yields and every
    world in which the three locks are free:

    - the acquire and release operations of the two engines are the same
      operations on the one [bus_mutex];
    - a transaction of either engine returns its outcome, whatever it is, and
      its log starts with the acquire of [bus_mutex], ends with its one
      release, and touches the mutex nowhere in between, so every line
      operation lies inside; the locks are then as before, and a following
      transaction of either engine is bracketed likewise, never blocked;
    - the same holds for an adapter of the two-clock variant of the probe;
    - while [bus_mutex] is held, a transaction of either engine waits on it;
    - a fault-injector action takes the root bus lock of the two-wire adapter
      instead ([i2c_lock_bus]) and never touches the arbiter's [bus_mutex].
      When it returns, its log is empty (the request was rejected or the
      interrupt lookup failed) or starts with the acquire of that lock, ends
      with its release and touches it nowhere in between, and the lock is
      free again.  It does not return in two cases only, the fatal-stop
      action whose handler runs and the read of the clock of an output-only
      adapter (no [getscl]): its log then starts with the acquire of that
      lock and holds no other lock operation, so the line operations of the
      fatal-stop action lie after the acquire and the lock is never
      released. *)
Theorem transactions_bracketed_by_one_lock :
  forall (env : probe_env) (priv : i2c_gpio_private_data)
         (req next : engine_request) (a : fi_action) (w : world),
    pr_priv (i2c_citrus_probe env) = Some priv ->
    lock_held BusMutex w = false ->
    lock_held BitbangLock w = false ->
    lock_held AdapBusLock w = false ->
    (citrus_core_lock_spi = citrus_core_lock_i2c /\
     citrus_core_unlock_spi = citrus_core_unlock_i2c) /\
    (exists tr w1,
       returns (transaction (bit_data priv) req) w (outcome_of req) tr w1 /\
       bracketed BusMutex tr = true /\
       (forall l, lock_held l w1 = lock_held l w) /\
       exists tr2 w2,
         returns (transaction (bit_data priv) next) w1 (outcome_of next) tr2 w2 /\
         bracketed BusMutex tr2 = true /\
         (forall l, lock_held l w2 = lock_held l w)) /\
    (forall scl2 priv2,
       pr_priv (i2c_citrus_probe_scl2 env scl2) = Some priv2 ->
       exists tr w1,
         returns (transaction (bit_data priv2) req) w (outcome_of req) tr w1 /\
         bracketed BusMutex tr = true /\
         (forall l, lock_held l w1 = lock_held l w)) /\
    (forall w_held,
       lock_held BusMutex w_held = true ->
       transaction (bit_data priv) req w_held = Halt (Blocked BusMutex) w_held) /\
    fi_action_outcome priv a w (run_fi_action priv a w).
Proof.
  intros env priv req next a w Hp Hbus Hbb Hadap.
  pose proof (probe_wired env priv Hp) as Hw.
  split; [split; reflexivity|]. split; [|split; [|split]].
  - destruct (transaction_bracketed (bit_data priv) req w Hw Hbus Hbb)
      as (tr & w1 & R & B & Hl).
    exists tr, w1. repeat split; try assumption; try apply R.
    destruct (transaction_bracketed (bit_data priv) next w1 Hw)
      as (tr2 & w2 & R2 & B2 & Hl2).
    + now rewrite Hl.
    + now rewrite Hl.
    + exists tr2, w2. repeat split; try assumption; try apply R2.
      intros l. now rewrite Hl2, Hl.
  - intros scl2 priv2 Hp2.
    apply transaction_bracketed; try assumption.
    apply (probe_scl2_wired env scl2 priv2 Hp2).
  - intros w_held Hheld. now apply transaction_blocks.
  - apply fi_action_bracketed; [apply (probe_installed env priv Hp) | exact Hadap].
Qed.

End ArbiterTheorem.

Lemma transactions_bracketed_by_one_lock_witness :
  exists tr w1,
    returns (@transaction linux sample_loops (bit_data priv_default)
               (TwoWire [CallSetsda 0; CallSetscl 0; CallGetsda] 1))
      idle_world 1 tr w1 /\
    bracketed BusMutex tr = true /\
    (forall l, lock_held l w1 = lock_held l idle_world) /\
    exists tr2 w2,
      returns (@transaction linux sample_loops (bit_data priv_default)
                 (FourWire {| spi_mode := 0; master_flags := 0 |}
                    [CallChipselect 1; CallTxrxWord SPI_MODE_0 0 0xB2 8 0] 1))
        w1 1 tr2 w2 /\
      bracketed BusMutex tr2 = true /\
      (forall l, lock_held l w2 = lock_held l idle_world).
Proof.
  destruct (@transactions_bracketed_by_one_lock linux sample_loops env_default
              priv_default
              (TwoWire [CallSetsda 0; CallSetscl 0; CallGetsda] 1)
              (FourWire {| spi_mode := 0; master_flags := 0 |}
                 [CallChipselect 1; CallTxrxWord SPI_MODE_0 0 0xB2 8 0] 1)
              (FiSdaSet 1) idle_world eq_refl eq_refl eq_refl eq_refl)
    as (_ & H & _).
  exact H.
Defined.

(** C1 as stated fails for the fault injector.  With the arbiter's mutex held
    by another party, the incomplete-address-phase control still runs to
    completion and drives the lines: it never asks for [bus_mutex], its log is
    bracketed by the adapter's bus lock only. *)
Lemma injector_bypasses_arbiter :
  exists w',
    @run_fi_action linux priv_default (FiIncompleteAddrPhase 0x3A)
      (world_with true true true []) = Ok 0 w' /\
    lock_held BusMutex (world_with true true true []) = true /\
    existsb is_line_op (w_log w') = true /\
    existsb (touches BusMutex) (w_log w') = false /\
    bracketed BusMutex (w_log w') = false /\
    bracketed AdapBusLock (w_log w') = true.
Proof.
  eexists. split; [vm_compute; reflexivity|]. repeat split.
Qed.

(** ** C5 and C6: what the probe installs *)

Lemma to_int_in_range x : - 2 ^ 31 <= x < 2 ^ 31 -> to_int x = x.
Proof. intros H. unfold to_int. rewrite Z.mod_small by lia. lia. Qed.

Section Probe.
Context {K : Kernel}.

Lemma probe_either env scl2 priv :
  pr_priv (i2c_citrus_probe env) = Some priv \/
  pr_priv (i2c_citrus_probe_scl2 env scl2) = Some priv ->
  exists np,
    pdata priv = of_i2c_gpio_get_props np pdata_zero /\
    bd_getscl (bit_data priv) =
      (if negb (pd_scl_is_output_only (pdata priv))
       then Some (if scl2 then fn_i2c_gpio_getscl2 else fn_i2c_gpio_getscl)
       else None) \/
    pdata priv = of_i2c_gpio_get_props np pdata_zero /\
    bd_getscl (bit_data priv) =
      (if negb (pd_scl_is_output_only (pdata priv))
       then Some fn_i2c_gpio_getscl else None).
Proof.
  intros [H|H].
  - unfold i2c_citrus_probe in H.
    destruct (pe_node env) as [np|]; [|discriminate].
    destruct (negb (pe_kzalloc env)); [discriminate|].
    destruct (truthy (pe_add_bus env)); [discriminate|].
    injection H as <-. exists np. right. split; reflexivity.
  - unfold i2c_citrus_probe_scl2 in H.
    destruct (if scl2 then pe_node2 env else pe_node env) as [np|]; [|discriminate].
    destruct (negb (pe_kzalloc env)); [discriminate|].
    destruct (truthy (pe_add_bus env)); [discriminate|].
    destruct (truthy (pe_add_action env)); [discriminate|].
    injection H as <-. exists np. left. split; reflexivity.
Qed.

Lemma probe_timing env scl2 priv :
  pr_priv (i2c_citrus_probe env) = Some priv \/
  pr_priv (i2c_citrus_probe_scl2 env scl2) = Some priv ->
  exists np,
    pdata priv = of_i2c_gpio_get_props np pdata_zero /\
    bd_udelay (bit_data priv) =
      (if truthy (pd_udelay (pdata priv)) then pd_udelay (pdata priv)
       else if pd_scl_is_output_only (pdata priv) then 50 else 5) /\
    bd_timeout (bit_data priv) =
      (if truthy (pd_timeout (pdata priv)) then pd_timeout (pdata priv)
       else Z.quot HZ 10).
Proof.
  intros [H|H].
  - unfold i2c_citrus_probe in H.
    destruct (pe_node env) as [np|]; [|discriminate].
    destruct (negb (pe_kzalloc env)); [discriminate|].
    destruct (truthy (pe_add_bus env)); [discriminate|].
    injection H as <-. exists np. repeat split.
  - unfold i2c_citrus_probe_scl2 in H.
    destruct (if scl2 then pe_node2 env else pe_node env) as [np|]; [|discriminate].
    destruct (negb (pe_kzalloc env)); [discriminate|].
    destruct (truthy (pe_add_bus env)); [discriminate|].
    destruct (truthy (pe_add_action env)); [discriminate|].
    injection H as <-. exists np. repeat split.
Qed.

Lemma probe_files env priv :
  pr_priv (i2c_citrus_probe env) = Some priv ->
  pr_files (i2c_citrus_probe env) = i2c_gpio_fault_injector_init env priv.
Proof.
  unfold i2c_citrus_probe.
  destruct (pe_node env) as [np|]; [|discriminate].
  destruct (negb (pe_kzalloc env)); [discriminate|].
  destruct (truthy (pe_add_bus env)); [discriminate|].
  simpl. now intros [= <-].
Qed.

Lemma probe_of_node env (scl2 : bool) np priv :
  (pe_node env = Some np /\ pr_priv (i2c_citrus_probe env) = Some priv) \/
  ((if scl2 then pe_node2 env else pe_node env) = Some np /\
   pr_priv (i2c_citrus_probe_scl2 env scl2) = Some priv) ->
  pdata priv = of_i2c_gpio_get_props np pdata_zero /\
  bd_udelay (bit_data priv) =
    (if truthy (pd_udelay (pdata priv)) then pd_udelay (pdata priv)
     else if pd_scl_is_output_only (pdata priv) then 50 else 5) /\
  bd_timeout (bit_data priv) =
    (if truthy (pd_timeout (pdata priv)) then pd_timeout (pdata priv)
     else Z.quot HZ 10).
Proof.
  intros [[N H]|[N H]].
  - unfold i2c_citrus_probe in H. rewrite N in H.
    destruct (negb (pe_kzalloc env)); [discriminate|].
    destruct (truthy (pe_add_bus env)); [discriminate|].
    injection H as <-. repeat split.
  - unfold i2c_citrus_probe_scl2 in H. rewrite N in H.
    destruct (negb (pe_kzalloc env)); [discriminate|].
    destruct (truthy (pe_add_bus env)); [discriminate|].
    destruct (truthy (pe_add_action env)); [discriminate|].
    injection H as <-. repeat split.
Qed.

Lemma probe_getscl env scl2 priv :
  (pr_priv (i2c_citrus_probe env) = Some priv ->
   bd_getscl (bit_data priv) =
     (if pd_scl_is_output_only (pdata priv) then None else Some fn_i2c_gpio_getscl)) /\
  (pr_priv (i2c_citrus_probe_scl2 env scl2) = Some priv ->
   bd_getscl (bit_data priv) =
     (if pd_scl_is_output_only (pdata priv) then None
      else Some (if scl2 then fn_i2c_gpio_getscl2 else fn_i2c_gpio_getscl))).
Proof.
  split; intros H.
  - unfold i2c_citrus_probe in H.
    destruct (pe_node env) as [np|]; [|discriminate].
    destruct (negb (pe_kzalloc env)); [discriminate|].
    destruct (truthy (pe_add_bus env)); [discriminate|].
    injection H as <-. simpl. destruct (prop_scl_output_only np); reflexivity.
  - unfold i2c_citrus_probe_scl2 in H.
    destruct (if scl2 then pe_node2 env else pe_node env) as [np|]; [|discriminate].
    destruct (negb (pe_kzalloc env)); [discriminate|].
    destruct (truthy (pe_add_bus env)); [discriminate|].
    destruct (truthy (pe_add_action env)); [discriminate|].
    injection H as <-. simpl. destruct (prop_scl_output_only np); reflexivity.
Qed.

Lemma injector_controls env priv :
  debug_dir_created env = true ->
  i2c_gpio_fault_injector_init env priv
  = [ {| df_name := "incomplete_address_phase"; df_mode := 128;
         df_fops := fops_incomplete_addr_phase |};
      {| df_name := "incomplete_write_byte"; df_mode := 128;
         df_fops := fops_incomplete_write_byte |} ]
    ++ (if getscl_installed priv
        then [ {| df_name := "inject_panic"; df_mode := 128;
                  df_fops := fops_inject_panic |};
               {| df_name := "lose_arbitration"; df_mode := 128;
                  df_fops := fops_lose_arbitration |} ]
        else [])
    ++ [ {| df_name := "scl"; df_mode := 384; df_fops := fops_scl |};
         {| df_name := "sda"; df_mode := 384; df_fops := fops_sda |} ].
Proof.
  unfold i2c_gpio_fault_injector_init, debug_dir_created, getscl_installed.
  destruct CONFIG_I2C_GPIO_FAULT_INJECTOR, (pe_debug_dir env),
    (pe_create_root env), (pe_create_dir env), (bd_getscl (bit_data priv));
    simpl; intros; try discriminate; reflexivity.
Qed.

(** C5.  In every adapter either probe yields, the clock-readback callback
    is installed exactly when the output-only flag of the configuration is
    unset: [i2c_gpio_getscl] (or its second-clock twin) when the flag is
    unset, none when it is set, whatever else the node says.  Where the
    fault injector is compiled in and its directory for the adapter exists,
    the lose-arbitration and the fatal-stop control, each with its own file
    operations, are created exactly when that callback is installed; the
    incomplete-address, incomplete-write-byte, scl and sda controls, each
    with its own file operations, are created whether it is or not; and no
    other file is created. *)
Theorem clock_readback_gates_controls :
  forall (env : probe_env) (scl2 : bool) (priv : i2c_gpio_private_data),
    (pr_priv (i2c_citrus_probe env) = Some priv \/
     pr_priv (i2c_citrus_probe_scl2 env scl2) = Some priv) ->
    let control := fun (name : string) (mode : Z) (fops : fops_id) =>
      {| df_name := name; df_mode := mode; df_fops := fops |} in
    getscl_installed priv = negb (pd_scl_is_output_only (pdata priv)) /\
    (pr_priv (i2c_citrus_probe env) = Some priv ->
     bd_getscl (bit_data priv) =
       (if pd_scl_is_output_only (pdata priv) then None else Some fn_i2c_gpio_getscl)) /\
    (pr_priv (i2c_citrus_probe_scl2 env scl2) = Some priv ->
     bd_getscl (bit_data priv) =
       (if pd_scl_is_output_only (pdata priv) then None
        else Some (if scl2 then fn_i2c_gpio_getscl2 else fn_i2c_gpio_getscl))) /\
    (pr_priv (i2c_citrus_probe env) = Some priv ->
     debug_dir_created env = true ->
     let files := pr_files (i2c_citrus_probe env) in
     (In (control "lose_arbitration"%string 128 fops_lose_arbitration) files <->
      getscl_installed priv = true) /\
     (In (control "inject_panic"%string 128 fops_inject_panic) files <->
      getscl_installed priv = true) /\
     control_created "lose_arbitration" files = getscl_installed priv /\
     control_created "inject_panic" files = getscl_installed priv /\
     In (control "incomplete_address_phase"%string 128 fops_incomplete_addr_phase) files /\
     In (control "incomplete_write_byte"%string 128 fops_incomplete_write_byte) files /\
     In (control "scl"%string 384 fops_scl) files /\
     In (control "sda"%string 384 fops_sda) files /\
     (forall f, In f files ->
        In f [control "incomplete_address_phase"%string 128 fops_incomplete_addr_phase;
              control "incomplete_write_byte"%string 128 fops_incomplete_write_byte;
              control "inject_panic"%string 128 fops_inject_panic;
              control "lose_arbitration"%string 128 fops_lose_arbitration;
              control "scl"%string 384 fops_scl;
              control "sda"%string 384 fops_sda])).
Proof.
  intros env scl2 priv H control.
  destruct (probe_getscl env scl2 priv) as [G1 G2].
  split; [|split; [exact G1|split; [exact G2|]]].
  - unfold getscl_installed.
    destruct H as [H|H]; [rewrite (G1 H) | rewrite (G2 H)];
      destruct (pd_scl_is_output_only (pdata priv)); reflexivity.
  - intros Hp Hd files. subst files.
    rewrite (probe_files env priv Hp), (injector_controls env priv Hd).
    subst control. destruct (getscl_installed priv); simpl.
    + repeat split; auto 10.
    + split; [split; [intros Hf; intuition discriminate | discriminate]|].
      split; [split; [intros Hf; intuition discriminate | discriminate]|].
      repeat split; auto 10. intros f Hf. intuition.
Qed.

(** C6.  In every adapter either probe yields from a node of the device
    tree: the configuration is what [of_i2c_gpio_get_props] reads from that
    node, and the engine's timing follows from it.  A half-bit delay the node
    omits leaves the configuration at zero and becomes 5 microseconds, or 50
    when the clock line is output-only; a clock-stretch timeout the node
    omits leaves the configuration at zero and becomes HZ/10 jiffies
    (100 ms).  A nonzero configured value is taken as it is.  In terms of the
    node: a supplied delay [d] is stored as the [int] of the same 32 bits,
    which is [d] itself below 2^31 (and [d - 2^32] from there on) and is
    what the engine gets unless it is zero; a supplied timeout of [t]
    milliseconds is stored as [msecs_to_jiffies t], in jiffies, as an [int],
    which is what the engine gets unless it is zero. *)
Theorem timing_defaults :
  forall (env : probe_env) (scl2 : bool) (np : device_node)
         (priv : i2c_gpio_private_data),
    (pe_node env = Some np /\ pr_priv (i2c_citrus_probe env) = Some priv) \/
    ((if scl2 then pe_node2 env else pe_node env) = Some np /\
     pr_priv (i2c_citrus_probe_scl2 env scl2) = Some priv) ->
    let pd := pdata priv in
    let bd := bit_data priv in
    let default_udelay := if prop_scl_output_only np then 50 else 5 in
    (pd_udelay pd = match prop_delay_us np with Some d => to_int d | None => 0 end /\
     pd_timeout pd = match prop_timeout_ms np with
                     | Some t => to_int (msecs_to_jiffies t)
                     | None => 0
                     end /\
     pd_scl_is_output_only pd = prop_scl_output_only np) /\
    (prop_delay_us np = None -> bd_udelay bd = default_udelay) /\
    (prop_timeout_ms np = None -> bd_timeout bd = Z.quot HZ 10) /\
    (pd_udelay pd = 0 -> pd_scl_is_output_only pd = false -> bd_udelay bd = 5) /\
    (pd_udelay pd = 0 -> pd_scl_is_output_only pd = true -> bd_udelay bd = 50) /\
    (pd_timeout pd = 0 -> bd_timeout bd = Z.quot HZ 10) /\
    (pd_udelay pd <> 0 -> bd_udelay bd = pd_udelay pd) /\
    (pd_timeout pd <> 0 -> bd_timeout bd = pd_timeout pd) /\
    (forall d, prop_delay_us np = Some d -> 0 <= d < 2 ^ 32 ->
       (d = 0 -> bd_udelay bd = default_udelay) /\
       (0 < d < 2 ^ 31 -> bd_udelay bd = d) /\
       (2 ^ 31 <= d -> bd_udelay bd = d - 2 ^ 32)) /\
    (forall t, prop_timeout_ms np = Some t ->
       let j := to_int (msecs_to_jiffies t) in
       (j = 0 -> bd_timeout bd = Z.quot HZ 10) /\
       (j <> 0 -> bd_timeout bd = j) /\
       (0 < msecs_to_jiffies t < 2 ^ 31 -> bd_timeout bd = msecs_to_jiffies t)).
Proof.
  intros env scl2 np priv H pd bd default_udelay.
  destruct (probe_of_node env scl2 np priv H) as (Ep & Eu & Et).
  fold pd in Ep, Eu, Et. fold bd in Eu, Et.
  assert (Hd : pd_udelay pd
               = match prop_delay_us np with Some d => to_int d | None => 0 end)
    by (rewrite Ep; reflexivity).
  assert (Ht : pd_timeout pd
               = match prop_timeout_ms np with
                 | Some t => to_int (msecs_to_jiffies t)
                 | None => 0
                 end)
    by (rewrite Ep; reflexivity).
  assert (Ho : pd_scl_is_output_only pd = prop_scl_output_only np)
    by (rewrite Ep; reflexivity).
  assert (Hhigh : forall x, 2 ^ 31 <= x < 2 ^ 32 -> to_int x = x - 2 ^ 32).
  { intros x Hx. unfold to_int.
    replace (x + 2 ^ 31) with (x - 2 ^ 31 + 1 * 2 ^ 32) by lia.
    rewrite Z.mod_add by lia. rewrite Z.mod_small by lia. lia. }
  split; [split; [exact Hd|split; [exact Ht|exact Ho]]|].
  split; [intros Hn; rewrite Hn in Hd; rewrite Eu, Hd, Ho; reflexivity|].
  split; [intros Hn; rewrite Hn in Ht; rewrite Et, Ht; reflexivity|].
  split; [intros Hz Hf; rewrite Eu, Hz, Hf; reflexivity|].
  split; [intros Hz Hf; rewrite Eu, Hz, Hf; reflexivity|].
  split; [intros Hz; rewrite Et, Hz; reflexivity|].
  split; [intros Hz; rewrite Eu, (truthy_nonzero _ Hz); reflexivity|].
  split; [intros Hz; rewrite Et, (truthy_nonzero _ Hz); reflexivity|].
  split.
  - intros d Hs Hr. rewrite Hs in Hd. split; [|split].
    + intros ->. rewrite Eu, Hd, Ho. reflexivity.
    + intros Hp. rewrite to_int_in_range in Hd by lia.
      rewrite Eu, Hd, truthy_nonzero by lia. reflexivity.
    + intros Hp. rewrite Hhigh in Hd by lia.
      rewrite Eu, Hd, truthy_nonzero by lia. reflexivity.
  - intros t Hs j. rewrite Hs in Ht. fold j in Ht. split; [|split].
    + intros Hz. rewrite Et, Ht, Hz. reflexivity.
    + intros Hz. rewrite Et, Ht, (truthy_nonzero _ Hz). reflexivity.
    + intros Hp. subst j. rewrite to_int_in_range in Ht by lia.
      rewrite Et, Ht, truthy_nonzero by lia. reflexivity.
Qed.

End Probe.

Lemma clock_readback_gates_controls_witness :
  (getscl_installed priv_default = negb (pd_scl_is_output_only (pdata priv_default)) /\
   In {| df_name := "lose_arbitration"; df_mode := 128; df_fops := fops_lose_arbitration |}
      (pr_files (@i2c_citrus_probe linux env_default)) /\
   In {| df_name := "scl"; df_mode := 384; df_fops := fops_scl |}
      (pr_files (@i2c_citrus_probe linux env_default))) /\
  (bd_getscl (bit_data priv_output_only) = None /\
   control_created "lose_arbitration" (pr_files (@i2c_citrus_probe linux env_output_only))
   = false /\
   In {| df_name := "scl"; df_mode := 384; df_fops := fops_scl |}
      (pr_files (@i2c_citrus_probe linux env_output_only))).
Proof.
  split.
  - destruct (@clock_readback_gates_controls linux env_default false priv_default
                (or_introl eq_refl)) as (H1 & _ & _ & H2).
    destruct (H2 eq_refl eq_refl) as (H3 & _ & _ & _ & _ & _ & H4 & _).
    split; [exact H1|]. split; [apply H3; reflexivity | exact H4].
  - destruct (@clock_readback_gates_controls linux env_output_only false
                priv_output_only (or_introl eq_refl)) as (_ & H1 & _ & H2).
    destruct (H2 eq_refl eq_refl) as (_ & _ & H3 & _ & _ & _ & H4 & _).
    split; [exact (H1 eq_refl)|]. split; [exact H3 | exact H4].
Defined.

Lemma timing_defaults_witness :
  (bd_udelay (bit_data priv_default) = 5 /\
   bd_timeout (bit_data priv_default) = Z.quot (@HZ linux) 10) /\
  (bd_udelay (bit_data priv_timed) = 20 /\
   bd_timeout (bit_data priv_timed) = @msecs_to_jiffies linux 250) /\
  bd_udelay (bit_data priv_output_only) = 50.
Proof.
  split; [|split].
  - destruct (@timing_defaults linux env_default false node_default priv_default
                (or_introl (conj eq_refl eq_refl))) as (_ & H1 & H2 & _).
    exact (conj (H1 eq_refl) (H2 eq_refl)).
  - destruct (@timing_defaults linux env_timed false node_timed priv_timed
                (or_introl (conj eq_refl eq_refl)))
      as (_ & _ & _ & _ & _ & _ & _ & _ & H1 & H2).
    destruct (H1 20 eq_refl ltac:(lia)) as (_ & H3 & _).
    destruct (H2 250 eq_refl) as (_ & _ & H4).
    split; [apply H3; lia | apply H4; vm_compute; split; reflexivity].
  - destruct (@timing_defaults linux env_output_only false _ priv_output_only
                (or_introl (conj eq_refl eq_refl))) as (_ & H1 & _).
    exact (H1 eq_refl).
Defined.

(** ** C7 to C10: the four-wire callbacks *)

Lemma truthy_lnot x : truthy (lnot x) = negb (truthy x).
Proof. unfold lnot. destruct (truthy x); reflexivity. Qed.

Lemma truthy_zero_iff x : truthy x = false <-> x = 0.
Proof.
  unfold truthy. rewrite negb_false_iff. apply Z.eqb_eq.
Qed.

Lemma benign_samples_low tr :
  forallb benign tr = true -> Forall (fun v => v = 0) (samples tr).
Proof.
  induction tr as [|e tr IH]; simpl; [constructor|].
  intros H. apply andb_true_iff in H. destruct H as [He Ht].
  destruct e; simpl; auto. constructor; [|auto]. now apply Z.eqb_eq.
Qed.

Lemma samples_app a b : samples (a ++ b) = samples a ++ samples b.
Proof.
  induction a as [|e a IH]; [reflexivity|].
  destruct e; simpl; rewrite IH; reflexivity.
Qed.

Section FourWire.
Context {K : Kernel} {T : BitbangTxrx}.

Lemma chipselect_active_runs spi is_active w :
  is_active <> 0 ->
  exists w',
    returns (spi_citrus_chipselect spi is_active) w tt
      [EvSetValue SCK (cpol_level spi)] w' /\
    line_of SCK w' = {| gd_dir := gd_dir (line_of SCK w); gd_level := cpol_level spi |} /\
    line_of MOSI w' = line_of MOSI w /\
    w_ext w' = w_ext w.
Proof.
  intros Ha. unfold spi_citrus_chipselect. rewrite (truthy_nonzero _ Ha).
  eexists. split; [split; reflexivity|]. repeat split.
Qed.

(** C7.  Asserting chip select performs exactly one line operation: it
    writes the clock line to the level of the device's CPOL bit, leaving its
    direction and the data line alone.  Deasserting it changes nothing and
    logs nothing.  In a message framed by the two calls, the log is that one
    clock write followed by exactly the events of the words shifted in
    between: the write comes before the first word, and chip select
    contributes no other event. *)
Theorem chipselect_sets_idle_clock :
  forall (spi : spi_device) (is_active : Z) (words : list bitbang_call) (w : world),
    (is_active <> 0 ->
     exists w',
       returns (spi_citrus_chipselect spi is_active) w tt
         [EvSetValue SCK (cpol_level spi)] w' /\
       line_of SCK w' = {| gd_dir := gd_dir (line_of SCK w);
                           gd_level := cpol_level spi |} /\
       line_of MOSI w' = line_of MOSI w) /\
    spi_citrus_chipselect spi 0 w = Ok tt w /\
    (exists w1,
       returns (spi_citrus_chipselect spi 1) w tt [EvSetValue SCK (cpol_level spi)] w1 /\
       forall tr w2,
         returns (run_bitbang_calls spi words) w1 tt tr w2 ->
         returns (four_wire_message spi words) w tt
           (EvSetValue SCK (cpol_level spi) :: tr) w2).
Proof.
  intros spi is_active words w. split; [|split].
  - intros Ha. destruct (chipselect_active_runs spi is_active w Ha)
      as (w' & R & S & M & _).
    now exists w'.
  - reflexivity.
  - destruct (chipselect_active_runs spi 1 w) as (w1 & R & _); [discriminate|].
    exists w1. split; [exact R|].
    intros tr w2 R2. unfold four_wire_message.
    change (EvSetValue SCK (cpol_level spi) :: tr)
      with ([EvSetValue SCK (cpol_level spi)] ++ tr).
    eapply returns_bind; [exact R|]. simpl.
    rewrite <- (app_nil_r tr).
    eapply returns_bind; [exact R2|]. apply returns_ret.
Qed.

Lemma turnaround_runs spi w :
  exists w',
    returns (set_direction_turnaround spi) w 0
      (if truthy (Z.land (spi_mode spi) SPI_3WIRE_HIZ)
       then [EvSetValue SCK (negb (cpol_level spi)); EvSetValue SCK (cpol_level spi)]
       else []) w' /\
    line_of MOSI w' = line_of MOSI w /\
    gd_dir (line_of SCK w') = gd_dir (line_of SCK w) /\
    (truthy (Z.land (spi_mode spi) SPI_3WIRE_HIZ) = true ->
     gd_level (line_of SCK w') = cpol_level spi) /\
    (truthy (Z.land (spi_mode spi) SPI_3WIRE_HIZ) = false -> w' = w) /\
    w_ext w' = w_ext w.
Proof.
  unfold set_direction_turnaround, cpol_level.
  destruct (truthy (Z.land (spi_mode spi) SPI_3WIRE_HIZ)).
  - unfold citrus_core_set_spi_sck, gpiod_set_value_cansleep, returns,
      bind, update, emit, ret. simpl.
    rewrite !truthy_lnot, negb_involutive.
    eexists. split; [split; [reflexivity|]|].
    + simpl. rewrite <- app_assoc. reflexivity.
    + repeat split. discriminate.
  - exists w. split; [apply returns_ret|]. repeat split. discriminate.
Qed.

(** C8, as the code has it.  A request to switch the data line to input, on
    a device in 3-wire mode, first asks for the data line to become an input;
    [r] is the answer.  If the switch is refused ([r <> 0]) the request
    returns [r] and nothing else happens, the clock is not toggled.  If it
    succeeds and the high-impedance turnaround is enabled, the clock is then
    written to the non-idle level and back to the CPOL idle level, the data
    line being an undriven input during both writes: the turnaround follows
    the direction switch.  Without the turnaround flag no clock write
    occurs. *)
Theorem three_wire_turnaround :
  forall (spi : spi_device) (w : world),
    truthy (Z.land (spi_mode spi) SPI_3WIRE) = true ->
    let r := hd 0 (w_ext w) in
    let hiz := truthy (Z.land (spi_mode spi) SPI_3WIRE_HIZ) in
    (r <> 0 ->
     exists w', returns (spi_citrus_set_direction spi false) w r
                  [EvDirectionInput MOSI r] w' /\
                w_citrus w' = w_citrus w) /\
    (r = 0 ->
     exists w', returns (spi_citrus_set_direction spi false) w 0
                  (EvDirectionInput MOSI 0 ::
                   (if hiz
                    then [EvSetValue SCK (negb (cpol_level spi));
                          EvSetValue SCK (cpol_level spi)]
                    else [])) w' /\
                gd_dir (line_of MOSI w') = GPIO_IN /\
                (hiz = true -> gd_level (line_of SCK w') = cpol_level spi) /\
                (hiz = false -> line_of SCK w' = line_of SCK w)).
Proof.
  intros spi w H3 r hiz. unfold spi_citrus_set_direction. rewrite H3.
  unfold citrus_core_set_spi_mosi_direction_input, gpiod_direction_input.
  split.
  - intros Hr. unfold returns, bind, update, emit, ret. rewrite ask_eq. simpl.
    fold r. rewrite (truthy_nonzero r Hr). simpl. rewrite (truthy_nonzero r Hr).
    eexists. split; [split; reflexivity|].
    simpl. destruct (w_citrus w). reflexivity.
  - intros Hr. unfold returns, bind at 1 2 3 4, update, emit, ret at 1.
    rewrite ask_eq. simpl. fold r. rewrite Hr. simpl.
    match goal with |- context [set_direction_turnaround spi ?w1] =>
      destruct (turnaround_runs spi w1) as (w' & [E L] & M & D & Lv & Same & _) end.
    fold hiz in L, Lv, Same.
    exists w'. split; [split; [exact E|]|].
    + rewrite L. simpl. rewrite <- app_assoc. reflexivity.
    + unfold line_of in *. simpl in M, Lv |- *. split; [|split].
      * rewrite M. reflexivity.
      * exact Lv.
      * intros Hh. rewrite (Same Hh). reflexivity.
Qed.

(** C10.  On a device whose mode lacks the 3-wire flag, a request to switch
    the data line to input returns 0 without asking anything of the
    environment and leaves the data line as it was, direction and level; the
    only line operations are the two clock writes of the turnaround, and
    only when the high-impedance flag is set. *)
Theorem full_duplex_input_request_keeps_data_line :
  forall (spi : spi_device) (w : world),
    Z.land (spi_mode spi) SPI_3WIRE = 0 ->
    exists w',
      returns (spi_citrus_set_direction spi false) w 0
        (if truthy (Z.land (spi_mode spi) SPI_3WIRE_HIZ)
         then [EvSetValue SCK (negb (cpol_level spi)); EvSetValue SCK (cpol_level spi)]
         else []) w' /\
      line_of MOSI w' = line_of MOSI w /\
      gd_dir (line_of SCK w') = gd_dir (line_of SCK w) /\
      (truthy (Z.land (spi_mode spi) SPI_3WIRE_HIZ) = false -> w' = w) /\
      w_ext w' = w_ext w.
Proof.
  intros spi w H3. unfold spi_citrus_set_direction.
  rewrite (proj2 (truthy_zero_iff _) H3).
  destruct (turnaround_runs spi w) as (w' & R & M & D & _ & Same & X).
  exists w'. repeat split; try assumption; apply R.
Qed.

Lemma run_txrx_low spi p w :
  exists tr w',
    returns (run_txrx spi p) w (word_with_miso_low p) tr w' /\ quiet w w' tr.
Proof.
  revert w.
  induction p as [word|is_on k IH|is_on k IH|k IH|nsecs k IH]; intros w; simpl.
  - exists [], w. split; [apply returns_ret | apply quiet_refl].
  - destruct (set_value_runs SCK is_on w) as (w1 & R1 & Q1 & _).
    destruct (IH w1) as (tr & w2 & R2 & Q2).
    do 2 eexists. split; [eapply returns_bind; [exact R1 | exact R2]|].
    eapply quiet_trans; eassumption.
  - destruct (set_value_runs MOSI is_on w) as (w1 & R1 & Q1 & _).
    destruct (IH w1) as (tr & w2 & R2 & Q2).
    do 2 eexists. split; [eapply returns_bind; [exact R1 | exact R2]|].
    eapply quiet_trans; eassumption.
  - destruct (sample_quietly w) as ([] & w1 & tr1 & R1 & Q1).
    destruct (IH 0 w1) as (tr & w2 & R2 & Q2).
    exists (tr1 ++ tr), w2. split.
    + change (returns (emit (EvSample 0) ;; run_txrx spi (k 0)) w
                (word_with_miso_low (k 0)) (tr1 ++ tr) w2).
      eapply returns_bind; [exact R1 | exact R2].
    + eapply quiet_trans; eassumption.
  - destruct (delay_runs nsecs w) as (w1 & R1 & Q1 & _).
    destruct (IH w1) as (tr & w2 & R2 & Q2).
    do 2 eexists. split; [eapply returns_bind; [exact R1 | exact R2]|].
    eapply quiet_trans; eassumption.
Qed.

(** C9.  [getmiso] returns 0 for every device in every world, without
    touching the world.  Whatever loop the header supplies, a word transfer
    therefore returns the word its loop computes from samples that are all 0,
    independently of lines and environment; and in the log of every
    four-wire transaction, in any of the four modes and with either set of
    word procedures, every sample handed back is 0. *)
Theorem miso_always_reads_zero :
  forall (spi : spi_device) (w : world),
    getmiso spi w = Ok 0 w /\
    (forall p, exists tr w',
       returns (run_txrx spi p) w (word_with_miso_low p) tr w' /\
       Forall (fun v => v = 0) (samples tr)) /\
    (forall m nsecs word bits flags, exists tr w',
       returns (run_txrx spi (txrx_word (master_flags spi) m spi nsecs word bits flags)) w
         (word_with_miso_low (txrx_word (master_flags spi) m spi nsecs word bits flags))
         tr w' /\
       Forall (fun v => v = 0) (samples tr)) /\
    (forall body outcome,
       lock_held BusMutex w = false -> lock_held BitbangLock w = false ->
       exists tr w',
         returns (four_wire_transaction spi body outcome) w outcome tr w' /\
         Forall (fun v => v = 0) (samples tr)).
Proof.
  intros spi w. split; [reflexivity|]. split; [|split].
  - intros p. destruct (run_txrx_low spi p w) as (tr & w' & R & _ & _ & B).
    exists tr, w'. split; [exact R | now apply benign_samples_low].
  - intros m nsecs word bits flags.
    destruct (run_txrx_low spi (txrx_word (master_flags spi) m spi nsecs word bits flags) w)
      as (tr & w' & R & _ & _ & B).
    exists tr, w'. split; [exact R | now apply benign_samples_low].
  - intros body outcome Hbus Hbb. simpl in Hbus, Hbb.
    unfold four_wire_transaction, spi_citrus_prepare_hardware,
      spi_citrus_unprepare_hardware, citrus_core_lock_spi, citrus_core_unlock_spi,
      mutex_lock, mutex_unlock, returns, bind, read, update, emit, ret.
    simpl. rewrite Hbus. simpl. rewrite Hbb. simpl.
    match goal with |- context [run_bitbang_calls spi body ?w1] =>
      destruct (run_bitbang_calls_quietly spi body w1)
        as ([] & w2 & tr & [E L] & Hl & _ & Hq) end.
    rewrite E. simpl in L.
    pose proof (Hl BitbangLock) as Hb2. simpl in Hb2. rewrite Hb2. simpl.
    exists (EvLock BusMutex ::
            ([EvLock BitbangLock; EvUnlock BitbangLock] ++ tr ++
             [EvLock BitbangLock; EvUnlock BitbangLock]) ++ [EvUnlock BusMutex]).
    eexists. split; [split; [reflexivity|]|].
    + simpl. rewrite L. repeat rewrite <- app_assoc. reflexivity.
    + apply benign_samples_low in Hq. simpl.
      rewrite !samples_app. simpl. now rewrite !app_nil_r.
Qed.

End FourWire.

Lemma chipselect_sets_idle_clock_witness :
  exists w',
    returns (@spi_citrus_chipselect linux spi_mode3 1) (world_with false true false []) tt
      [EvSetValue SCK true] w' /\
    line_of SCK w' = gpio GPIO_OUT true /\
    line_of MOSI w' = line_of MOSI (world_with false true false []).
Proof.
  destruct (@chipselect_sets_idle_clock linux sample_loops spi_mode3 1 []
              (world_with false true false [])) as (H & _).
  apply H. discriminate.
Defined.

Lemma three_wire_turnaround_witness :
  exists w',
    returns (@spi_citrus_set_direction linux spi_3wire_hiz false) idle_world 0
      [EvDirectionInput MOSI 0; EvSetValue SCK true; EvSetValue SCK false] w' /\
    gd_dir (line_of MOSI w') = GPIO_IN /\
    (true = true -> gd_level (line_of SCK w') = false) /\
    (true = false -> line_of SCK w' = line_of SCK idle_world).
Proof.
  destruct (@three_wire_turnaround linux spi_3wire_hiz idle_world eq_refl) as (_ & H).
  apply H. reflexivity.
Defined.

(** C8 as stated fails on the order: on a half-duplex device with the
    turnaround enabled, the first line operation of the request is the switch
    of the data line to input, and the two clock writes follow it.  And when
    that switch is refused (answer -5), the clock is not toggled at all. *)
Lemma turnaround_follows_direction_switch :
  (exists w',
     @spi_citrus_set_direction linux spi_3wire_hiz false idle_world = Ok 0 w' /\
     w_log w' = [EvDirectionInput MOSI 0; EvSetValue SCK true; EvSetValue SCK false] /\
     hd_error (w_log w') = Some (EvDirectionInput MOSI 0)) /\
  (exists w',
     @spi_citrus_set_direction linux spi_3wire_hiz false (world_with false true false [-5])
       = Ok (-5) w' /\
     w_log w' = [EvDirectionInput MOSI (-5)]).
Proof.
  split; eexists; (split; [vm_compute; reflexivity|]); repeat split.
Qed.

Lemma miso_always_reads_zero_witness :
  exists tr w',
    returns (@four_wire_transaction linux sample_loops spi_mode3
               [CallChipselect 1; CallTxrxWord SPI_MODE_3 0 0xB2 8 0; CallChipselect 0] 1)
      (world_with false true false [1; 1; 1]) 1 tr w' /\
    Forall (fun v => v = 0) (samples tr).
Proof.
  destruct (@miso_always_reads_zero linux sample_loops spi_mode3
              (world_with false true false [1; 1; 1])) as (_ & _ & _ & H).
  apply H; reflexivity.
Defined.

Lemma full_duplex_input_request_keeps_data_line_witness :
  exists w',
    returns (@spi_citrus_set_direction linux spi_hiz_only false) idle_world 0
      [EvSetValue SCK true; EvSetValue SCK false] w' /\
    line_of MOSI w' = line_of MOSI idle_world /\
    gd_dir (line_of SCK w') = gd_dir (line_of SCK idle_world) /\
    (true = false -> w' = idle_world) /\
    w_ext w' = w_ext idle_world.
Proof.
  apply (@full_duplex_input_request_keeps_data_line linux spi_hiz_only idle_world).
  reflexivity.
Defined.

(** The sample loops at work: an 8-bit word 0xB2 shifted in mode 0 on a bus
    whose every line read would answer 1 comes back as 0, after eight clock
    pulses. *)
Example sample_word_reads_zero :
  exists w',
    run_txrx spi_mode3
      (@txrx_word linux sample_loops 0 SPI_MODE_0 spi_mode3 0 0xB2 8 0)
      (world_with false true false [1; 1; 1; 1; 1; 1; 1; 1]) = Ok 0 w' /\
    samples (w_log w') = [0; 0; 0; 0; 0; 0; 0; 0] /\
    rising_edges SCK false (w_log w') = 8%nat.
Proof. eexists. split; [vm_compute; reflexivity|]. split; reflexivity. Qed.

(** * Further properties of the driver *)

(** ** The incomplete transfer, for any pattern *)

Lemma cells_rising d bits :
  forall lvl,
    rising_edges SCK lvl (flat_map (bit_cell d) bits ++ [EvUnlock AdapBusLock])
    = List.length bits.
Proof.
  induction bits as [|b bits IH]; intros lvl; [reflexivity|].
  simpl. rewrite andb_false_r. simpl. now rewrite IH.
Qed.

Lemma cells_no_stop d bits :
  forall scl sda,
    stop_conditions SCK scl sda (flat_map (bit_cell d) bits ++ [EvUnlock AdapBusLock]) = O.
Proof.
  induction bits as [|b bits IH]; intros scl sda; [reflexivity|].
  simpl. apply IH.
Qed.

Lemma cells_no_start d bits :
  forall scl sda,
    start_conditions SCK scl sda (flat_map (bit_cell d) bits ++ [EvUnlock AdapBusLock]) = O.
Proof.
  induction bits as [|b bits IH]; intros scl sda; [reflexivity|].
  simpl. apply IH.
Qed.

Lemma cells_sampled d bits :
  forall scl sda,
    sampled_bits scl sda (flat_map (bit_cell d) bits ++ [EvUnlock AdapBusLock]) = bits.
Proof.
  induction bits as [|b bits IH]; intros scl sda; [reflexivity|].
  simpl. rewrite andb_false_r. simpl. now rewrite IH.
Qed.

Lemma cells_delay d bits :
  0 <= d < 2 ^ 31 - 1 ->
  total_delay (flat_map (bit_cell d) bits ++ [EvUnlock AdapBusLock])
  = 2 * d * Z.of_nat (List.length bits).
Proof.
  intros Hd. induction bits as [|b bits IH]; [simpl; lia|].
  cbn [flat_map bit_cell app total_delay List.length]. rewrite IH.
  assert (Z.quot d 2 + Z.quot (to_int (d + 1)) 2 = d).
  { rewrite to_int_in_range by lia. rewrite !Z.quot_div_nonneg by lia.
    pose proof (Z.div_mod d 2 ltac:(lia)). pose proof (Z.mod_pos_bound d 2 ltac:(lia)).
    pose proof (Z.div_mod (d + 1) 2 ltac:(lia)).
    pose proof (Z.mod_pos_bound (d + 1) 2 ltac:(lia)).
    assert (d mod 2 = 0 \/ d mod 2 = 1) as [E|E] by lia.
    - assert ((d + 1) mod 2 = 1) by (rewrite Z.add_mod, E by lia; reflexivity). lia.
    - assert ((d + 1) mod 2 = 0) by (rewrite Z.add_mod, E by lia; reflexivity). lia. }
  lia.
Qed.

Lemma msb_first_length n p : List.length (msb_first n p) = n.
Proof. unfold msb_first. now rewrite length_map, length_rev, length_seq. Qed.

Lemma msb_first_value_app bits :
  forall acc,
    fold_left (fun acc (b : bool) => 2 * acc + (if b then 1 else 0)) bits acc
    = acc * 2 ^ Z.of_nat (List.length bits) + msb_first_value bits.
Proof.
  unfold msb_first_value.
  induction bits as [|b bits IH]; intros acc; [simpl; lia|].
  cbn [fold_left List.length]. rewrite IH, (IH (2 * 0 + _)).
  rewrite Nat2Z.inj_succ, Z.pow_succ_r by lia. lia.
Qed.

Lemma msb_first_spells n p :
  0 <= p -> msb_first_value (msb_first n p) = p mod 2 ^ Z.of_nat n.
Proof.
  intros Hp. induction n as [|n IH].
  - simpl. now rewrite Z.mod_1_r.
  - rewrite msb_first_S. unfold msb_first_value. cbn [fold_left].
    rewrite msb_first_value_app, msb_first_length, IH.
    rewrite Nat2Z.inj_succ, Z.pow_succ_r by lia.
    replace (2 * 2 ^ Z.of_nat n) with (2 ^ Z.of_nat n * 2) by lia.
    rewrite Z.rem_mul_r by lia.
    pose proof (Z.testbit_spec' p (Z.of_nat n) ltac:(lia)) as Hb.
    rewrite <- Hb. destruct (Z.testbit p (Z.of_nat n)); simpl Z.b2z; lia.
Qed.

Lemma transfer_log_bracketed d n p :
  bracketed AdapBusLock (incomplete_transfer_log d n p) = true.
Proof.
  unfold incomplete_transfer_log.
  apply (bracketed_intro AdapBusLock (EvSetValue MOSI false :: EvDelay d :: _)).
  simpl. apply forallb_forall. intros e He.
  apply in_flat_map in He. destruct He as (b & _ & He).
  simpl in He. intuition (subst; reflexivity).
Qed.

Lemma transfer_log_reads d n p scl sda :
  rising_edges SCK scl (incomplete_transfer_log d n p) = n /\
  stop_conditions SCK scl sda (incomplete_transfer_log d n p) = O /\
  start_conditions SCK scl sda (incomplete_transfer_log d n p)
    = (if scl && sda then 1 else 0)%nat /\
  sampled_bits scl sda (incomplete_transfer_log d n p) = msb_first n p.
Proof.
  unfold incomplete_transfer_log. simpl.
  rewrite cells_rising, cells_no_stop, cells_no_start, cells_sampled, msb_first_length.
  rewrite andb_false_r, andb_true_r. repeat split. apply Nat.add_0_r.
Qed.

Lemma transfer_log_delay d n p :
  0 <= d < 2 ^ 31 - 1 -> total_delay (incomplete_transfer_log d n p) = (2 * Z.of_nat n + 1) * d.
Proof.
  intros Hd. unfold incomplete_transfer_log. cbn [total_delay].
  rewrite cells_delay, msb_first_length by exact Hd. lia.
Qed.

Section AnyPattern.
Context {K : Kernel}.

(** X1.  [i2c_gpio_incomplete_transfer], for every 32-bit pattern and every
    size up to 32 bits, on an adapter the probe yields with its bus lock free:
    the call returns with a log bracketed by the adapter's bus lock; whatever
    the line levels before, the clock rises exactly [n] times, the data line
    never rises while the clock is high (no STOP), it falls while the clock is
    high only in the opening write and only if both lines were high (the
    START), and a receiver sampling the data line on the rising clock edges
    reads the low [n] bits of the pattern, most significant first.  With
    [n = 0] only the START is written: the data line is left low and the
    clock untouched; otherwise the clock is left high and the data line at bit
    0 of the pattern. *)
Theorem incomplete_transfer_any_pattern :
  forall (env : probe_env) (priv : i2c_gpio_private_data) (pattern n : Z) (w : world),
    pr_priv (i2c_citrus_probe env) = Some priv ->
    lock_held AdapBusLock w = false ->
    0 <= pattern < 2 ^ 32 -> 0 <= n <= 32 ->
    exists w' tr,
      returns (i2c_gpio_incomplete_transfer priv pattern n) w tt tr w' /\
      bracketed AdapBusLock tr = true /\
      (forall scl sda,
         rising_edges SCK scl tr = Z.to_nat n /\
         stop_conditions SCK scl sda tr = O /\
         start_conditions SCK scl sda tr = (if scl && sda then 1 else 0)%nat /\
         sampled_bits scl sda tr = msb_first (Z.to_nat n) pattern) /\
      msb_first_value (msb_first (Z.to_nat n) pattern) = pattern mod 2 ^ n /\
      (forall l, lock_held l w' = lock_held l w) /\
      (n = 0 -> line_of MOSI w' = with_level false (line_of MOSI w) /\
                line_of SCK w' = line_of SCK w) /\
      (0 < n -> gd_level (line_of MOSI w') = Z.testbit pattern 0 /\
                gd_level (line_of SCK w') = true).
Proof.
  intros env priv pattern n w Hp Hfree Hpat Hn.
  apply probe_installed in Hp.
  destruct (incomplete_transfer_runs priv pattern n w Hp Hfree)
    as (w' & R & Hl & _ & Hlev).
  exists w', (incomplete_transfer_log (bd_udelay (bit_data priv)) (Z.to_nat n) pattern).
  split; [exact R|]. split; [apply transfer_log_bracketed|].
  split; [|split; [|split; [|split]]].
  - intros scl sda. apply transfer_log_reads.
  - rewrite msb_first_spells by lia. now rewrite Z2Nat.id by lia.
  - exact Hl.
  - intros ->. destruct Hp as (Hsda & _). simpl in Hfree.
    destruct R as [E _]. revert E.
    unfold i2c_gpio_incomplete_transfer, i2c_lock_bus, mutex_lock, setsda.
    rewrite Hsda. simpl.
    unfold i2c_gpio_setsda_val, citrus_core_set_i2c_sda, gpiod_set_value_cansleep,
      udelay, i2c_unlock_bus, mutex_unlock, bind, read, update, emit, ret.
    simpl. rewrite Hfree. simpl. intros [= <-]. split; reflexivity.
  - intros Hpos. apply Hlev. lia.
Qed.

(** X2.  With a half-bit delay [0 <= d < 2^31 - 1], an incomplete transfer
    of [n] bits spends [(2 n + 1) d] microseconds in delays: [d] after the
    START and [2 d] per bit, the two halves of the low phase adding up to [d]
    whether [d] is even or odd.  (At [d = 2^31 - 1], the largest [int], the
    sum [d + 1] of the second half no longer fits an [int]: the bound keeps
    to the delays for which it does.) *)
Theorem incomplete_transfer_duration :
  forall (env : probe_env) (priv : i2c_gpio_private_data) (pattern n : Z) (w : world),
    pr_priv (i2c_citrus_probe env) = Some priv ->
    lock_held AdapBusLock w = false ->
    0 <= n <= 32 ->
    0 <= bd_udelay (bit_data priv) < 2 ^ 31 - 1 ->
    exists w' tr,
      returns (i2c_gpio_incomplete_transfer priv pattern n) w tt tr w' /\
      total_delay tr = (2 * n + 1) * bd_udelay (bit_data priv).
Proof.
  intros env priv pattern n w Hp Hfree Hn Hd.
  apply probe_installed in Hp.
  destruct (incomplete_transfer_runs priv pattern n w Hp Hfree) as (w' & R & _).
  do 2 eexists. split; [exact R|].
  rewrite transfer_log_delay, Z2Nat.id by lia. reflexivity.
Qed.

End AnyPattern.

Lemma incomplete_transfer_any_pattern_witness :
  exists w' tr,
    returns (@i2c_gpio_incomplete_transfer priv_default 0x5 3) idle_world tt tr w' /\
    bracketed AdapBusLock tr = true /\
    (forall scl sda,
       rising_edges SCK scl tr = 3%nat /\
       stop_conditions SCK scl sda tr = O /\
       start_conditions SCK scl sda tr = (if scl && sda then 1 else 0)%nat /\
       sampled_bits scl sda tr = [true; false; true]) /\
    msb_first_value [true; false; true] = 5 /\
    (forall l, lock_held l w' = lock_held l idle_world) /\
    (3 = 0 -> line_of MOSI w' = with_level false (line_of MOSI idle_world) /\
              line_of SCK w' = line_of SCK idle_world) /\
    (0 < 3 -> gd_level (line_of MOSI w') = true /\ gd_level (line_of SCK w') = true).
Proof.
  apply (@incomplete_transfer_any_pattern linux env_default priv_default 0x5 3 idle_world);
    [reflexivity | reflexivity | lia | lia].
Defined.

Lemma incomplete_transfer_duration_witness :
  exists w' tr,
    returns (@i2c_gpio_incomplete_transfer priv_default 0x1f7 9) idle_world tt tr w' /\
    total_delay tr = 95.
Proof.
  apply (@incomplete_transfer_duration linux env_default priv_default 0x1f7 9 idle_world);
    [reflexivity | reflexivity | lia | vm_compute; split; [discriminate | reflexivity]].
Defined.

(** ** The fields of the two malformed frames *)

Ltac pattern_bit :=
  repeat (rewrite Z.lor_spec || rewrite Z.shiftl_spec by (simpl; lia));
  simpl; rewrite ?Z.testbit_neg_r by lia;
  rewrite ?orb_false_r, ?orb_true_r; reflexivity.

Lemma addr_phase_fields a :
  msb_first 9 (addr_phase_pattern a) = msb_first 7 a ++ [true; true].
Proof.
  unfold msb_first, addr_phase_pattern. cbn [seq rev app map].
  repeat (apply (f_equal2 (@cons bool)); [pattern_bit|]). reflexivity.
Qed.

Lemma write_byte_fields a :
  msb_first 18 (write_byte_pattern a)
  = msb_first 7 a ++ [false; true] ++ repeat false 8 ++ [true].
Proof.
  unfold msb_first, write_byte_pattern. cbn [seq rev app map repeat].
  repeat (apply (f_equal2 (@cons bool)); [pattern_bit|]). reflexivity.
Qed.

Section Fields.
Context {K : Kernel}.

(** X3.  What a receiver reads from the two malformed frames, sampling the
    data line on the rising clock edges, for a seven-bit address [a]: from the
    incomplete address phase, the seven bits of [a] most significant first,
    the direction bit 1 (read) and a released data line in the acknowledge
    slot; from the incomplete write byte, the seven bits of [a], the
    direction bit 0 (write), a released acknowledge slot, eight zero data
    bits and a released acknowledge slot.  The seven address bits spell
    [a]. *)
Theorem incomplete_frames_carry_address :
  forall (env : probe_env) (priv : i2c_gpio_private_data) (a : Z) (w : world),
    pr_priv (i2c_citrus_probe env) = Some priv ->
    lock_held AdapBusLock w = false ->
    0 <= a <= 0x7f ->
    (exists w' tr,
       returns (fops_incomplete_addr_phase_set priv a) w 0 tr w' /\
       forall scl sda, sampled_bits scl sda tr = msb_first 7 a ++ [true; true]) /\
    (exists w' tr,
       returns (fops_incomplete_write_byte_set priv a) w 0 tr w' /\
       forall scl sda,
         sampled_bits scl sda tr
         = msb_first 7 a ++ [false; true] ++ repeat false 8 ++ [true]) /\
    msb_first_value (msb_first 7 a) = a.
Proof.
  intros env priv a w Hp Hfree Ha.
  apply probe_installed in Hp.
  assert (Hgt : (a >? 0x7f) = false) by (rewrite Z.gtb_ltb; apply Z.ltb_ge; lia).
  split; [|split].
  - unfold fops_incomplete_addr_phase_set. rewrite Hgt, (addr_phase_pattern_u32 a Ha).
    destruct (incomplete_transfer_runs priv (addr_phase_pattern a) 9 w Hp Hfree)
      as (w' & R & _).
    exists w', (incomplete_transfer_log (bd_udelay (bit_data priv)) 9 (addr_phase_pattern a) ++ []).
    split.
    + eapply returns_bind; [exact R | apply returns_ret].
    + intros scl sda. rewrite app_nil_r.
      destruct (transfer_log_reads (bd_udelay (bit_data priv)) 9 (addr_phase_pattern a)
                  scl sda) as (_ & _ & _ & ->).
      apply addr_phase_fields.
  - unfold fops_incomplete_write_byte_set. rewrite Hgt, (write_byte_pattern_u32 a Ha).
    destruct (incomplete_transfer_runs priv (write_byte_pattern a) 18 w Hp Hfree)
      as (w' & R & _).
    exists w', (incomplete_transfer_log (bd_udelay (bit_data priv)) 18 (write_byte_pattern a) ++ []).
    split.
    + eapply returns_bind; [exact R | apply returns_ret].
    + intros scl sda. rewrite app_nil_r.
      destruct (transfer_log_reads (bd_udelay (bit_data priv)) 18 (write_byte_pattern a)
                  scl sda) as (_ & _ & _ & ->).
      apply write_byte_fields.
  - rewrite msb_first_spells by lia. apply Z.mod_small. simpl. lia.
Qed.

End Fields.

Lemma incomplete_frames_carry_address_witness :
  (exists w' tr,
     returns (@fops_incomplete_addr_phase_set linux priv_default 0x3A) idle_world 0 tr w' /\
     forall scl sda,
       sampled_bits scl sda tr
       = [false; true; true; true; false; true; false] ++ [true; true]) /\
  (exists w' tr,
     returns (@fops_incomplete_write_byte_set linux priv_default 0x3A) idle_world 0 tr w' /\
     forall scl sda,
       sampled_bits scl sda tr
       = [false; true; true; true; false; true; false] ++ [false; true]
         ++ repeat false 8 ++ [true]) /\
  msb_first_value [false; true; true; true; false; true; false] = 0x3A.
Proof.
  apply (@incomplete_frames_carry_address linux env_default priv_default 0x3A idle_world);
    [reflexivity | reflexivity | lia].
Defined.

(** ** The wire controls of the fault injector *)

Lemma to_int_zero_iff x : to_int x = 0 <-> x mod 2 ^ 32 = 0.
Proof.
  unfold to_int.
  pose proof (Z.mod_pos_bound x (2 ^ 32) ltac:(lia)) as Hr.
  rewrite Z.add_mod by lia.
  change (2 ^ 31 mod 2 ^ 32) with (2 ^ 31).
  destruct (Z_lt_ge_dec (x mod 2 ^ 32) (2 ^ 31)) as [Hlt|Hge].
  - rewrite (Z.mod_small (x mod 2 ^ 32 + 2 ^ 31)) by lia. lia.
  - assert (E : (x mod 2 ^ 32 + 2 ^ 31) mod 2 ^ 32 = x mod 2 ^ 32 - 2 ^ 31).
    { symmetry. apply (Z.mod_unique _ _ 1); lia. }
    rewrite E. lia.
Qed.

Lemma truthy_to_int x : truthy (to_int x) = negb (x mod 2 ^ 32 =? 0).
Proof.
  unfold truthy. f_equal.
  destruct (x mod 2 ^ 32 =? 0) eqn:E.
  - apply Z.eqb_eq. apply to_int_zero_iff. now apply Z.eqb_eq.
  - apply Z.eqb_neq. rewrite to_int_zero_iff. now apply Z.eqb_neq.
Qed.

Section WireControls.
Context {K : Kernel}.

(** X4.  Writing [val] to the sda or the scl control of an adapter the probe
    yields, its bus lock free: the call returns 0 after exactly one write, to
    the data line respectively the clock line, under the adapter's bus lock.
    The level written is high exactly when the low 32 bits of the 64-bit
    value are not all zero (the value is narrowed to the callback's [int]):
    writing 2^32 drives the line low.  The line keeps its direction; the
    other lines are as they were. *)
Theorem wire_set_takes_low_word :
  forall (env : probe_env) (priv : i2c_gpio_private_data) (val : Z) (w : world),
    pr_priv (i2c_citrus_probe env) = Some priv ->
    lock_held AdapBusLock w = false ->
    0 <= val < 2 ^ 64 ->
    let level := negb (val mod 2 ^ 32 =? 0) in
    (exists w',
       returns (fops_sda_set priv val) w 0
         [EvLock AdapBusLock; EvSetValue MOSI level; EvUnlock AdapBusLock] w' /\
       line_of MOSI w' = with_level level (line_of MOSI w) /\
       line_of SCK w' = line_of SCK w /\ line_of SCK2 w' = line_of SCK2 w /\
       (forall l, lock_held l w' = lock_held l w)) /\
    (exists w',
       returns (fops_scl_set priv val) w 0
         [EvLock AdapBusLock; EvSetValue SCK level; EvUnlock AdapBusLock] w' /\
       line_of SCK w' = with_level level (line_of SCK w) /\
       line_of MOSI w' = line_of MOSI w /\ line_of SCK2 w' = line_of SCK2 w /\
       (forall l, lock_held l w' = lock_held l w)).
Proof.
  intros env priv val w Hp Hfree Hval level.
  destruct (probe_installed env priv Hp) as (Hsda & Hscl & _).
  simpl in Hfree.
  split.
  - unfold fops_sda_set, setsda. rewrite Hsda. simpl call_setter.
    unfold i2c_gpio_setsda_val, citrus_core_set_i2c_sda, gpiod_set_value_cansleep,
      i2c_lock_bus, i2c_unlock_bus, mutex_lock, mutex_unlock, returns,
      bind, read, update, emit, ret.
    simpl. rewrite Hfree. simpl. rewrite truthy_to_int. fold level.
    eexists. split; [split; [reflexivity|]|].
    + simpl. repeat rewrite <- app_assoc. reflexivity.
    + repeat split. intros []; simpl; congruence.
  - unfold fops_scl_set, setscl. rewrite Hscl. simpl call_setter.
    unfold i2c_gpio_setscl_val, citrus_core_set_i2c_scl, gpiod_set_value_cansleep,
      i2c_lock_bus, i2c_unlock_bus, mutex_lock, mutex_unlock, returns,
      bind, read, update, emit, ret.
    simpl. rewrite Hfree. simpl. rewrite truthy_to_int. fold level.
    eexists. split; [split; [reflexivity|]|].
    + simpl. repeat rewrite <- app_assoc. reflexivity.
    + repeat split. intros []; simpl; congruence.
Qed.

(** X5.  Reading the sda control, and the scl control of an adapter whose
    clock can be read back, asks the line for its level once, under the
    adapter's bus lock, and hands back status 0 with the answer widened to 64
    bits: a negative answer (an error of the read) is not reported as an
    error of the call but as a huge value.  No line is written or switched:
    the lines are as they were. *)
Theorem wire_get_hands_back_answer :
  forall (env : probe_env) (priv : i2c_gpio_private_data) (w : world),
    pr_priv (i2c_citrus_probe env) = Some priv ->
    lock_held AdapBusLock w = false ->
    let v := hd 0 (w_ext w) in
    (exists w',
       returns (fops_sda_get priv) w (0, to_u64 v)
         [EvLock AdapBusLock; EvGetValue MOSI v; EvUnlock AdapBusLock] w' /\
       w_citrus w' = w_citrus w /\ w_ext w' = tl (w_ext w) /\
       (forall l, lock_held l w' = lock_held l w)) /\
    (pd_scl_is_output_only (pdata priv) = false ->
     exists w',
       returns (fops_scl_get priv) w (0, to_u64 v)
         [EvLock AdapBusLock; EvGetValue SCK v; EvUnlock AdapBusLock] w' /\
       w_citrus w' = w_citrus w /\ w_ext w' = tl (w_ext w) /\
       (forall l, lock_held l w' = lock_held l w)) /\
    (- 2 ^ 31 <= v < 0 -> to_u64 v = 2 ^ 64 + v).
Proof.
  intros env priv w Hp Hfree v.
  destruct (probe_installed env priv Hp) as (_ & _ & Hgsda & _).
  simpl in Hfree.
  split; [|split].
  - unfold fops_sda_get, getsda. rewrite Hgsda. simpl call_getter.
    unfold i2c_gpio_getsda, citrus_core_get_i2c_sda, gpiod_get_value_cansleep,
      i2c_lock_bus, i2c_unlock_bus, mutex_lock, mutex_unlock, returns,
      bind, read, update, emit, ret.
    simpl. rewrite Hfree. simpl. rewrite ask_eq. simpl. fold v.
    eexists. split; [split; [reflexivity|]|].
    + simpl. repeat rewrite <- app_assoc. reflexivity.
    + simpl. split; [destruct (w_citrus w); reflexivity|].
      split; [reflexivity|]. intros []; simpl; congruence.
  - intros Hro.
    assert (Hg : bd_getscl (bit_data priv) = Some fn_i2c_gpio_getscl).
    { destruct (probe_either env false priv (or_introl Hp)) as (np & [[_ E]|[_ E]]);
        rewrite E, Hro; reflexivity. }
    unfold fops_scl_get, getscl. rewrite Hg. simpl call_getter.
    unfold i2c_gpio_getscl, citrus_core_get_i2c_scl, gpiod_get_value_cansleep,
      i2c_lock_bus, i2c_unlock_bus, mutex_lock, mutex_unlock, returns,
      bind, read, update, emit, ret.
    simpl. rewrite Hfree. simpl. rewrite ask_eq. simpl. fold v.
    eexists. split; [split; [reflexivity|]|].
    + simpl. repeat rewrite <- app_assoc. reflexivity.
    + simpl. split; [destruct (w_citrus w); reflexivity|].
      split; [reflexivity|]. intros []; simpl; congruence.
  - intros Hv. unfold to_u64. symmetry. apply (Z.mod_unique _ _ (-1)); lia.
Qed.

(** X6.  On an adapter probed with the output-only flag the clock-readback
    callback is missing, yet the scl control is created like the others
    whenever the debug directory is.  Writing it works as on any adapter;
    reading it calls through the missing callback, with the adapter's bus
    lock taken and never released: the read does not return. *)
Theorem scl_read_on_output_only_adapter :
  forall (env : probe_env) (priv : i2c_gpio_private_data) (val : Z) (w : world),
    pr_priv (i2c_citrus_probe env) = Some priv ->
    pd_scl_is_output_only (pdata priv) = true ->
    lock_held AdapBusLock w = false ->
    bd_getscl (bit_data priv) = None /\
    (debug_dir_created env = true ->
     In {| df_name := "scl"; df_mode := 384; df_fops := fops_scl |}
        (pr_files (i2c_citrus_probe env))) /\
    (exists w', fops_scl_set priv val w = Ok 0 w' /\ lock_held AdapBusLock w' = false) /\
    (exists w', fops_scl_get priv w = Halt Oops w' /\
                lock_held AdapBusLock w' = true /\
                w_log w' = w_log w ++ [EvLock AdapBusLock]).
Proof.
  intros env priv val w Hp Hro Hfree.
  destruct (probe_installed env priv Hp) as (_ & Hscl & _).
  assert (Hg : bd_getscl (bit_data priv) = None).
  { destruct (probe_either env false priv (or_introl Hp)) as (np & [[_ E]|[_ E]]);
      rewrite E, Hro; reflexivity. }
  simpl in Hfree.
  split; [exact Hg|]. split; [|split].
  - intros Hd. rewrite (probe_files env priv Hp).
    unfold debug_dir_created in Hd. unfold i2c_gpio_fault_injector_init.
    rewrite Hg.
    destruct CONFIG_I2C_GPIO_FAULT_INJECTOR, (pe_debug_dir env),
      (pe_create_root env), (pe_create_dir env); try discriminate; simpl; auto.
  - unfold fops_scl_set, setscl. rewrite Hscl. simpl call_setter.
    unfold i2c_gpio_setscl_val, citrus_core_set_i2c_scl, gpiod_set_value_cansleep,
      i2c_lock_bus, i2c_unlock_bus, mutex_lock, mutex_unlock,
      bind, read, update, emit, ret.
    simpl. rewrite Hfree. simpl. eexists. split; reflexivity.
  - unfold fops_scl_get, getscl. rewrite Hg. simpl call_getter.
    unfold i2c_lock_bus, mutex_lock, halt_with, bind, read, update, emit.
    simpl. rewrite Hfree. simpl. eexists. repeat split.
Qed.

End WireControls.

Lemma wire_set_takes_low_word_witness :
  (exists w',
     returns (@fops_sda_set priv_default (2 ^ 32)) idle_world 0
       [EvLock AdapBusLock; EvSetValue MOSI false; EvUnlock AdapBusLock] w' /\
     line_of MOSI w' = with_level false (line_of MOSI idle_world) /\
     line_of SCK w' = line_of SCK idle_world /\
     line_of SCK2 w' = line_of SCK2 idle_world /\
     (forall l, lock_held l w' = lock_held l idle_world)) /\
  (exists w',
     returns (@fops_scl_set priv_default (2 ^ 32)) idle_world 0
       [EvLock AdapBusLock; EvSetValue SCK false; EvUnlock AdapBusLock] w' /\
     line_of SCK w' = with_level false (line_of SCK idle_world) /\
     line_of MOSI w' = line_of MOSI idle_world /\
     line_of SCK2 w' = line_of SCK2 idle_world /\
     (forall l, lock_held l w' = lock_held l idle_world)).
Proof.
  apply (@wire_set_takes_low_word linux env_default priv_default (2 ^ 32) idle_world);
    [reflexivity | reflexivity | lia].
Defined.

Lemma wire_get_hands_back_answer_witness :
  exists w',
    returns (@fops_sda_get priv_default) (world_with true true false [-5]) (0, 2 ^ 64 - 5)
      [EvLock AdapBusLock; EvGetValue MOSI (-5); EvUnlock AdapBusLock] w' /\
    w_citrus w' = w_citrus (world_with true true false [-5]) /\
    w_ext w' = [] /\
    (forall l, lock_held l w' = lock_held l (world_with true true false [-5])).
Proof.
  destruct (@wire_get_hands_back_answer linux env_default priv_default
              (world_with true true false [-5]) eq_refl eq_refl) as (H & _).
  exact H.
Defined.

Lemma scl_read_on_output_only_adapter_witness :
  bd_getscl (bit_data priv_output_only) = None /\
  (exists w', @fops_scl_set priv_output_only 1 idle_world = Ok 0 w' /\
              lock_held AdapBusLock w' = false) /\
  (exists w', @fops_scl_get priv_output_only idle_world = Halt Oops w' /\
              lock_held AdapBusLock w' = true /\
              w_log w' = w_log idle_world ++ [EvLock AdapBusLock]).
Proof.
  destruct (@scl_read_on_output_only_adapter linux env_output_only priv_output_only 1
              idle_world eq_refl eq_refl eq_refl) as (H1 & _ & H2 & H3).
  exact (conj H1 (conj H2 H3)).
Defined.

(** ** Which lines an engine can reach *)

Section Confinement.
Variables untouched fixed : line -> bool.

Lemma confined_refl w : confined untouched fixed w w [].
Proof. split; intros l _; split; reflexivity. Qed.

Lemma confined_trans w w1 w2 tr1 tr2 :
  confined untouched fixed w w1 tr1 -> confined untouched fixed w1 w2 tr2 ->
  confined untouched fixed w w2 (tr1 ++ tr2).
Proof.
  intros [U1 F1] [U2 F2]. split; intros l Hl.
  - destruct (U1 l Hl) as [A1 B1]. destruct (U2 l Hl) as [A2 B2]. split.
    + now rewrite A2.
    + now rewrite forallb_app, B1, B2.
  - destruct (F1 l Hl) as [A1 B1]. destruct (F2 l Hl) as [A2 B2]. split.
    + now rewrite A2.
    + now rewrite forallb_app, B1, B2.
Qed.

Lemma confined_ret {A} (a : A) : runs_keeping (confined untouched fixed) (ret a).
Proof. intros w. exists a, w, []. split; [apply returns_ret | apply confined_refl]. Qed.

Lemma confined_bind {A B} (m : M A) (k : A -> M B) :
  runs_keeping (confined untouched fixed) m ->
  (forall a, runs_keeping (confined untouched fixed) (k a)) ->
  runs_keeping (confined untouched fixed) (bind m k).
Proof.
  intros Hm Hk w.
  destruct (Hm w) as (a & w1 & tr1 & R1 & Q1).
  destruct (Hk a w1) as (b & w2 & tr2 & R2 & Q2).
  exists b, w2, (tr1 ++ tr2). split.
  - eapply returns_bind; eassumption.
  - eapply confined_trans; eassumption.
Qed.

Lemma line_eqb_refl l : line_eqb l l = true.
Proof. destruct l; reflexivity. Qed.

Lemma confined_set_value l value :
  untouched l = false ->
  runs_keeping (confined untouched fixed) (gpiod_set_value_cansleep l value).
Proof.
  intros Hu w. do 3 eexists. split; [split; reflexivity|].
  split; intros l' Hl'; split.
  - destruct l, l'; try reflexivity; congruence.
  - simpl. destruct l, l'; try reflexivity; congruence.
  - destruct l, l'; reflexivity.
  - reflexivity.
Qed.

Lemma confined_get_value l :
  untouched l = false ->
  runs_keeping (confined untouched fixed) (gpiod_get_value_cansleep l).
Proof.
  intros Hu w.
  unfold gpiod_get_value_cansleep, returns, bind, emit, ret. rewrite ask_eq.
  do 3 eexists. split; [split; reflexivity|].
  split; intros l' Hl'; split; try reflexivity.
  simpl. destruct l, l'; try reflexivity; congruence.
Qed.

Lemma confined_delay n : runs_keeping (confined untouched fixed) (udelay n).
Proof.
  intros w. do 3 eexists. split; [split; reflexivity|].
  split; intros l' Hl'; split; reflexivity.
Qed.

Lemma confined_sample v : runs_keeping (confined untouched fixed) (emit (EvSample v)).
Proof.
  intros w. do 3 eexists. split; [split; reflexivity|].
  split; intros l' Hl'; split; reflexivity.
Qed.

Lemma confined_direction_input l :
  untouched l = false -> fixed l = false ->
  runs_keeping (confined untouched fixed) (gpiod_direction_input l).
Proof.
  intros Hu Hf w.
  unfold gpiod_direction_input, returns, bind, update, emit, ret. rewrite ask_eq.
  destruct (truthy (hd 0 (w_ext w))); simpl;
    (do 3 eexists; split; [split; reflexivity|]);
    (split; intros l' Hl'; split; simpl;
     destruct l, l'; try reflexivity; congruence).
Qed.

Lemma confined_direction_output l value :
  untouched l = false -> fixed l = false ->
  runs_keeping (confined untouched fixed) (gpiod_direction_output l value).
Proof.
  intros Hu Hf w.
  unfold gpiod_direction_output, returns, bind, update, emit, ret. rewrite ask_eq.
  destruct (truthy (hd 0 (w_ext w))); simpl;
    (do 3 eexists; split; [split; reflexivity|]);
    (split; intros l' Hl'; split; simpl;
     destruct l, l'; try reflexivity; congruence).
Qed.

Lemma confined_setter f val :
  untouched (setter_line f) = false ->
  runs_keeping (confined untouched fixed) (call_setter (Some f) val).
Proof. destruct f; apply confined_set_value. Qed.

Lemma confined_getter f :
  untouched (getter_line f) = false ->
  runs_keeping (confined untouched fixed) (call_getter (Some f)).
Proof. destruct f; apply confined_get_value. Qed.

Lemma confined_bit_calls bd body :
  callbacks_avoid untouched bd ->
  runs_keeping (confined untouched fixed) (run_bit_calls bd body).
Proof.
  intros ((fa & Ha & Ua) & (fb & Hb & Ub) & (fc & Hc & Uc) & Hd).
  induction body as [|c body IH]; [apply confined_ret|].
  simpl. apply confined_bind; [|intros _; exact IH].
  destruct c; simpl; unfold setsda, setscl, getsda, getscl.
  - rewrite Ha. now apply confined_setter.
  - rewrite Hb. now apply confined_setter.
  - rewrite Hc. apply confined_bind;
      [now apply confined_getter | intros; apply confined_ret].
  - destruct (bd_getscl bd) as [f|] eqn:E; [|apply confined_ret].
    apply confined_bind;
      [apply confined_getter; now apply Hd | intros; apply confined_ret].
  - apply confined_delay.
Qed.

End Confinement.

Section Isolation.
Context {K : Kernel} {T : BitbangTxrx}.

(** X7.  The two adapters of the two-clock variant share the data line and
    keep to their own clock.  Whatever sequence of calls the two-wire
    algorithm makes through the callbacks of an adapter, the clock line of
    the other adapter is left alone: it is as it was, and no event of the
    log reads, writes or switches it.  The adapter of the one-clock probe
    leaves the second clock line alone likewise.  No callback ever switches
    the direction of a line. *)
Theorem adapters_keep_to_their_clock :
  forall (env : probe_env) (scl2 : bool) (priv : i2c_gpio_private_data)
         (body : list bit_call) (w : world),
    (pr_priv (i2c_citrus_probe_scl2 env scl2) = Some priv \/
     scl2 = false /\ pr_priv (i2c_citrus_probe env) = Some priv) ->
    let other := if scl2 then SCK else SCK2 in
    exists w' tr,
      returns (run_bit_calls (bit_data priv) body) w tt tr w' /\
      leaves_alone other w w' tr /\
      (forall l, keeps_direction l w w' tr).
Proof.
  intros env scl2 priv body w H other.
  assert (Hc : callbacks_avoid (line_eqb other) (bit_data priv)).
  { destruct H as [H | [-> H]].
    - unfold i2c_citrus_probe_scl2 in H.
      destruct (if scl2 then pe_node2 env else pe_node env); [|discriminate].
      destruct (negb (pe_kzalloc env)); [discriminate|].
      destruct (truthy (pe_add_bus env)); [discriminate|].
      destruct (truthy (pe_add_action env)); [discriminate|].
      injection H as <-. subst other. unfold callbacks_avoid. simpl.
      destruct scl2; (repeat split; [eexists; split; reflexivity ..|]);
        destruct (negb _); intros f [= <-]; reflexivity.
    - unfold i2c_citrus_probe in H.
      destruct (pe_node env); [|discriminate].
      destruct (negb (pe_kzalloc env)); [discriminate|].
      destruct (truthy (pe_add_bus env)); [discriminate|].
      injection H as <-. subst other. unfold callbacks_avoid. simpl.
      repeat split; [eexists; split; reflexivity ..|].
      destruct (negb _); intros f [= <-]; reflexivity. }
  destruct (confined_bit_calls (line_eqb other) (fun _ => true) (bit_data priv) body Hc w)
    as ([] & w' & tr & R & U & F).
  exists w', tr. split; [exact R|]. split.
  - apply U. apply line_eqb_refl.
  - intros l. now apply F.
Qed.

End Isolation.

Section FourWireConfinement.
Context {K : Kernel} {T : BitbangTxrx}.
Variables untouched fixed : line -> bool.
Hypothesis Hsck : untouched SCK = false.
Hypothesis Hmosi : untouched MOSI = false.

Lemma confined_txrx spi p : runs_keeping (confined untouched fixed) (run_txrx spi p).
Proof.
  induction p as [word|is_on k IH|is_on k IH|k IH|nsecs k IH]; simpl.
  - apply confined_ret.
  - apply confined_bind; [now apply confined_set_value | intros _; exact IH].
  - apply confined_bind; [now apply confined_set_value | intros _; exact IH].
  - change (runs_keeping (confined untouched fixed)
              (emit (EvSample 0) ;; run_txrx spi (k 0))).
    apply confined_bind; [apply confined_sample | intros _; apply IH].
  - apply confined_bind; [apply confined_delay | intros _; exact IH].
Qed.

Lemma confined_chipselect spi is_active :
  runs_keeping (confined untouched fixed) (spi_citrus_chipselect spi is_active).
Proof.
  unfold spi_citrus_chipselect.
  destruct (truthy is_active); [now apply confined_set_value | apply confined_ret].
Qed.

Lemma confined_turnaround spi :
  runs_keeping (confined untouched fixed) (set_direction_turnaround spi).
Proof.
  unfold set_direction_turnaround.
  apply confined_bind; [|intros; apply confined_ret].
  destruct (truthy _); [|apply confined_ret].
  apply confined_bind; [now apply confined_set_value|].
  intros; now apply confined_set_value.
Qed.

Lemma confined_set_direction spi output :
  fixed MOSI = false ->
  runs_keeping (confined untouched fixed) (spi_citrus_set_direction spi output).
Proof.
  intros Hf. unfold spi_citrus_set_direction.
  destruct output; [now apply confined_direction_output|].
  destruct (truthy (Z.land _ _)); [|apply confined_turnaround].
  apply confined_bind; [now apply confined_direction_input|].
  intros r. destruct (truthy r); [apply confined_ret | apply confined_turnaround].
Qed.

Lemma confined_bitbang_calls spi body :
  fixed MOSI = false \/ existsb is_direction_call body = false ->
  runs_keeping (confined untouched fixed) (run_bitbang_calls spi body).
Proof.
  induction body as [|c body IH]; intros Hf; [apply confined_ret|].
  simpl. apply confined_bind.
  - destruct c; simpl.
    + apply confined_chipselect.
    + apply confined_bind; [|intros; apply confined_ret].
      apply confined_set_direction.
      destruct Hf as [Hf|Hf]; [exact Hf | discriminate].
    + apply confined_bind; [apply confined_txrx | intros; apply confined_ret].
  - intros _. apply IH.
    destruct Hf as [Hf|Hf]; [now left | right].
    simpl in Hf. now apply orb_false_iff in Hf.
Qed.

End FourWireConfinement.

Section FourWireReach.
Context {K : Kernel} {T : BitbangTxrx}.

(** X8.  Whatever sequence of calls the four-wire framework makes into the
    driver (chip select, direction requests, words in any mode through any
    word loop), the second clock line of the two-wire side is left alone: it
    is as it was and no event of the log reads, writes or switches it.  The
    clock line is only ever written: its direction is never switched.  The
    direction of the data line is switched by direction requests only: a
    sequence without one leaves it as it was. *)
Theorem four_wire_reaches_two_lines :
  forall (spi : spi_device) (body : list bitbang_call) (w : world),
    exists w' tr,
      returns (run_bitbang_calls spi body) w tt tr w' /\
      leaves_alone SCK2 w w' tr /\
      keeps_direction SCK w w' tr /\
      keeps_direction SCK2 w w' tr /\
      (existsb is_direction_call body = false -> keeps_direction MOSI w w' tr).
Proof.
  intros spi body w.
  destruct (confined_bitbang_calls (line_eqb SCK2) (fun l => negb (line_eqb MOSI l))
              eq_refl eq_refl spi body (or_introl eq_refl) w)
    as ([] & w' & tr & R & U & F).
  exists w', tr. split; [exact R|].
  split; [now apply U|]. split; [now apply F|]. split; [now apply F|].
  intros Hb.
  destruct (confined_bitbang_calls (line_eqb SCK2) (fun _ => true)
              eq_refl eq_refl spi body (or_intror Hb) w)
    as ([] & w2 & tr2 & R2 & _ & F2).
  destruct R as [E L], R2 as [E2 L2].
  rewrite E in E2. injection E2 as <-.
  rewrite L in L2. apply app_inv_head in L2. subst tr2.
  now apply F2.
Qed.

End FourWireReach.

Lemma adapters_keep_to_their_clock_witness :
  exists w' tr,
    returns (run_bit_calls (bit_data priv_scl2)
               [CallSetscl 0; CallSetsda 1; CallGetscl; CallSetscl 1]) idle_world tt tr w' /\
    leaves_alone SCK idle_world w' tr /\
    (forall l, keeps_direction l idle_world w' tr).
Proof.
  apply (@adapters_keep_to_their_clock linux env_two_clocks true priv_scl2
           [CallSetscl 0; CallSetsda 1; CallGetscl; CallSetscl 1] idle_world).
  left. reflexivity.
Defined.

(** ** The four-wire callbacks, continued *)

Section FourWireMore.
Context {K : Kernel} {T : BitbangTxrx}.

Lemma output_request_runs spi w :
  let r := hd 0 (w_ext w) in
  exists w',
    returns (spi_citrus_set_direction spi true) w r [EvDirectionOutput MOSI true r] w' /\
    (r = 0 -> line_of MOSI w' = gpio GPIO_OUT true) /\
    (r <> 0 -> line_of MOSI w' = line_of MOSI w) /\
    line_of SCK w' = line_of SCK w /\
    line_of SCK2 w' = line_of SCK2 w /\
    w_ext w' = tl (w_ext w).
Proof.
  intros r. unfold spi_citrus_set_direction,
    citrus_core_set_spi_mosi_direction_output, gpiod_direction_output,
    returns, bind, update, emit, ret.
  rewrite ask_eq. simpl. fold r.
  destruct (Z.eq_dec r 0) as [E|E].
  - rewrite E. simpl. eexists. split; [split; reflexivity|].
    repeat split. intros; contradiction.
  - rewrite (truthy_nonzero r E). simpl. eexists. split; [split; reflexivity|].
    repeat split. intros; contradiction.
Qed.

(** X9.  A request to switch the data line to output asks once for the data
    line to become an output driven high, in every mode, and returns the
    answer [r]: when the switch is accepted the line is an output at high
    level, when it is refused the lines are as they were.  The clock is never
    written: no turnaround is generated in this direction.  On a 3-wire
    device, an accepted switch to input followed by an accepted switch to
    output leaves the data line an output driven high. *)
Theorem output_request_drives_data_line :
  forall (spi : spi_device) (w : world),
    let r := hd 0 (w_ext w) in
    (exists w',
       returns (spi_citrus_set_direction spi true) w r
         [EvDirectionOutput MOSI true r] w' /\
       (r = 0 -> line_of MOSI w' = gpio GPIO_OUT true) /\
       (r <> 0 -> line_of MOSI w' = line_of MOSI w) /\
       line_of SCK w' = line_of SCK w /\
       line_of SCK2 w' = line_of SCK2 w /\
       w_ext w' = tl (w_ext w)) /\
    (truthy (Z.land (spi_mode spi) SPI_3WIRE) = true ->
     hd 0 (w_ext w) = 0 -> hd 0 (tl (w_ext w)) = 0 ->
     exists w1 w2,
       spi_citrus_set_direction spi false w = Ok 0 w1 /\
       gd_dir (line_of MOSI w1) = GPIO_IN /\
       spi_citrus_set_direction spi true w1 = Ok 0 w2 /\
       line_of MOSI w2 = gpio GPIO_OUT true).
Proof.
  intros spi w r. split.
  - destruct (output_request_runs spi w) as (w' & R & A & B & C & D & E).
    exists w'. repeat split; try assumption; apply R.
  - intros H3 H0 H1.
    unfold spi_citrus_set_direction at 1. rewrite H3.
    unfold citrus_core_set_spi_mosi_direction_input, gpiod_direction_input.
    unfold bind at 1 2 3 4, update, emit, ret at 1.
    rewrite ask_eq. simpl. rewrite H0. simpl.
    match goal with |- context [set_direction_turnaround spi ?w1] =>
      destruct (turnaround_runs spi w1) as (w1' & [E L] & M & _ & _ & _ & X) end.
    destruct (output_request_runs spi w1') as (w2 & [E2 _] & A & _).
    simpl in X. rewrite X, H1 in E2, A.
    exists w1', w2. split; [exact E|]. split; [|split; [exact E2 | now apply A]].
    unfold line_of in *. simpl in M |- *. rewrite M. reflexivity.
Qed.

(** X10.  The word procedure installed for mode [m] runs the loop of the
    phase of [m] with the polarity of [m] as its idle clock level, in the bit
    order the device's mode asks for (least significant bit first exactly
    when SPI_LSB_FIRST is set).  The plain procedures hand the loop the flags
    they were called with; the procedures installed when the master has
    SPI_MASTER_NO_TX hand it the master's flags instead. *)
Theorem word_procedures_follow_the_mode :
  forall (flags_of_master : Z) (m : spi_mode_id) (spi : spi_device)
         (nsecs word bits flags : Z),
    txrx_word flags_of_master m spi nsecs word bits flags
    = word_loop (truthy (Z.land (spi_mode spi) SPI_LSB_FIRST)) (mode_cpha m)
        spi nsecs (mode_cpol m)
        (if truthy (Z.land flags_of_master SPI_MASTER_NO_TX)
         then master_flags spi else flags)
        word bits.
Proof.
  intros f m spi nsecs word bits flags. unfold txrx_word.
  destruct (truthy (Z.land f SPI_MASTER_NO_TX)), m;
    unfold spi_citrus_txrx_word_mode0, spi_citrus_txrx_word_mode1,
      spi_citrus_txrx_word_mode2, spi_citrus_txrx_word_mode3,
      spi_citrus_spec_txrx_word_mode0, spi_citrus_spec_txrx_word_mode1,
      spi_citrus_spec_txrx_word_mode2, spi_citrus_spec_txrx_word_mode3;
    destruct (truthy (Z.land (spi_mode spi) SPI_LSB_FIRST)); reflexivity.
Qed.

(** X11.  Between [prepare_transfer_hardware] and
    [unprepare_transfer_hardware] the four-wire side owns the arbiter and its
    busy flag is up.  From a world in which the arbiter's mutex and the
    bitbang lock are free, preparing returns 0 with the mutex held, the
    bitbang lock free again and [busy = 1]; a second prepare then waits on
    the mutex; unpreparing returns 0 with both locks free and [busy = 0].
    The bitbang lock is only ever taken while the arbiter's mutex is held,
    and neither call touches a line. *)
Theorem busy_while_arbiter_held :
  forall (w : world),
    lock_held BusMutex w = false -> lock_held BitbangLock w = false ->
    exists w1 w2,
      returns spi_citrus_prepare_hardware w 0
        [EvLock BusMutex; EvLock BitbangLock; EvUnlock BitbangLock] w1 /\
      lock_held BusMutex w1 = true /\ lock_held BitbangLock w1 = false /\
      w_bb_busy w1 = 1 /\
      spi_citrus_prepare_hardware w1 = Halt (Blocked BusMutex) w1 /\
      returns spi_citrus_unprepare_hardware w1 0
        [EvLock BitbangLock; EvUnlock BitbangLock; EvUnlock BusMutex] w2 /\
      lock_held BusMutex w2 = false /\ lock_held BitbangLock w2 = false /\
      w_bb_busy w2 = 0 /\
      (forall l, line_of l w1 = line_of l w /\ line_of l w2 = line_of l w) /\
      lock_held AdapBusLock w2 = lock_held AdapBusLock w.
Proof.
  intros w Hbus Hbb. simpl in Hbus, Hbb.
  unfold spi_citrus_prepare_hardware, spi_citrus_unprepare_hardware,
    citrus_core_lock_spi, citrus_core_unlock_spi, mutex_lock, mutex_unlock,
    returns, bind, read, update, emit, ret, halt_with.
  simpl. rewrite Hbus. simpl. rewrite Hbb. simpl.
  do 2 eexists.
  split; [split; [reflexivity | simpl; repeat rewrite <- app_assoc; reflexivity]|].
  simpl. do 4 (split; [reflexivity|]).
  split; [split; [reflexivity | simpl; repeat rewrite <- app_assoc; reflexivity]|].
  simpl. do 3 (split; [reflexivity|]).
  split; [intros []; split; reflexivity | reflexivity].
Qed.

End FourWireMore.

Lemma busy_while_arbiter_held_witness :
  exists w1 w2,
    returns (@spi_citrus_prepare_hardware) idle_world 0
      [EvLock BusMutex; EvLock BitbangLock; EvUnlock BitbangLock] w1 /\
    lock_held BusMutex w1 = true /\ lock_held BitbangLock w1 = false /\
    w_bb_busy w1 = 1 /\
    spi_citrus_prepare_hardware w1 = Halt (Blocked BusMutex) w1 /\
    returns spi_citrus_unprepare_hardware w1 0
      [EvLock BitbangLock; EvUnlock BitbangLock; EvUnlock BusMutex] w2 /\
    lock_held BusMutex w2 = false /\ lock_held BitbangLock w2 = false /\
    w_bb_busy w2 = 0 /\
    (forall l, line_of l w1 = line_of l idle_world /\ line_of l w2 = line_of l idle_world) /\
    lock_held AdapBusLock w2 = lock_held AdapBusLock idle_world.
Proof.
  apply (busy_while_arbiter_held idle_world); reflexivity.
Defined.

(** ** Probing *)

Section ProbeErrors.
Context {K : Kernel} {KS : KernelSpi}.

Lemma truthy_neg_pos x : 0 < x -> truthy (- x) = true.
Proof. intros H. apply truthy_nonzero. lia. Qed.

(** X12.  The probe of a two-wire adapter, in both variants, returns the
    error of the first step that fails, in the order: device tree node
    (-ENODEV), allocation (-ENOMEM), [i2c_bit_add_numbered_bus] (its own
    error) and, in the two-clock variant, [devm_add_action_or_reset] (its
    own error).  It returns 0 exactly when it yields an adapter; when it
    fails it yields none and creates no debugfs file. *)
Theorem adapter_probe_fails_clean :
  forall (env : probe_env) (scl2 : bool),
    0 < ENODEV -> 0 < ENOMEM ->
    let r1 := i2c_citrus_probe env in
    let r2 := i2c_citrus_probe_scl2 env scl2 in
    (pr_ret r1 = first_error
       [match pe_node env with Some _ => 0 | None => - ENODEV end;
        if pe_kzalloc env then 0 else - ENOMEM;
        pe_add_bus env] /\
     (pr_ret r1 = 0 <-> exists priv, pr_priv r1 = Some priv) /\
     (pr_ret r1 <> 0 -> pr_priv r1 = None /\ pr_files r1 = [])) /\
    (pr_ret r2 = first_error
       [match (if scl2 then pe_node2 env else pe_node env) with
        | Some _ => 0 | None => - ENODEV end;
        if pe_kzalloc env then 0 else - ENOMEM;
        pe_add_bus env; pe_add_action env] /\
     (pr_ret r2 = 0 <-> exists priv, pr_priv r2 = Some priv) /\
     (pr_ret r2 <> 0 -> pr_priv r2 = None /\ pr_files r2 = [])).
Proof.
  intros env scl2 Hnodev Hnomem r1 r2.
  pose proof (truthy_neg_pos _ Hnodev) as Tn.
  pose proof (truthy_neg_pos _ Hnomem) as Tm.
  split.
  - subst r1. unfold i2c_citrus_probe.
    destruct (pe_node env) as [np|]; simpl.
    + destruct (pe_kzalloc env); simpl.
      * destruct (truthy (pe_add_bus env)) eqn:E; simpl.
        -- split; [reflexivity|]. split; [|auto].
           split; [intros H; rewrite H in E; discriminate | intros [p Hp]; discriminate].
        -- split; [reflexivity|]. split; [split; eauto|]. intros H. contradiction.
      * rewrite Tm. split; [reflexivity|]. split; [|auto].
        split; [lia | intros [p Hp]; discriminate].
    + rewrite Tn. split; [reflexivity|]. split; [|auto].
      split; [lia | intros [p Hp]; discriminate].
  - subst r2. unfold i2c_citrus_probe_scl2.
    destruct (if scl2 then pe_node2 env else pe_node env) as [np|]; simpl.
    + destruct (pe_kzalloc env); simpl.
      * destruct (truthy (pe_add_bus env)) eqn:E; simpl.
        -- split; [reflexivity|]. split; [|auto].
           split; [intros H; rewrite H in E; discriminate | intros [p Hp]; discriminate].
        -- destruct (truthy (pe_add_action env)) eqn:E2; simpl.
           ++ split; [reflexivity|]. split; [|auto].
              split; [intros H; rewrite H in E2; discriminate
                     | intros [p Hp]; discriminate].
           ++ split; [reflexivity|]. split; [split; eauto|]. intros H. contradiction.
      * rewrite Tm. split; [reflexivity|]. split; [|auto].
        split; [lia | intros [p Hp]; discriminate].
    + rewrite Tn. split; [reflexivity|]. split; [|auto].
      split; [lia | intros [p Hp]; discriminate].
Qed.

End ProbeErrors.

Lemma adapter_probe_fails_clean_witness :
  (pr_ret (@i2c_citrus_probe linux env_default) = 0 <->
   exists priv, pr_priv (@i2c_citrus_probe linux env_default) = Some priv) /\
  (pr_ret (@i2c_citrus_probe_scl2 linux env_default true) <> 0 ->
   pr_priv (@i2c_citrus_probe_scl2 linux env_default true) = None /\
   pr_files (@i2c_citrus_probe_scl2 linux env_default true) = []).
Proof.
  destruct (@adapter_probe_fails_clean linux env_default true)
    as ((_ & H1 & _) & (_ & _ & H2)); [reflexivity | reflexivity |].
  exact (conj H1 H2).
Defined.

Section CoreProbeProperties.
Context {K : Kernel} {KS : KernelSpi}.

Lemma first_error_zero_inv s rest :
  first_error (s :: rest) = 0 -> s = 0 /\ first_error rest = 0.
Proof.
  simpl. destruct (truthy s) eqn:E; intros H.
  - subst s. discriminate.
  - apply truthy_zero_iff in E. auto.
Qed.

Lemma adapter_probe_yields env :
  0 < ENODEV -> 0 < ENOMEM ->
  pr_ret (i2c_citrus_probe env) = 0 ->
  exists priv, pr_priv (i2c_citrus_probe env) = Some priv.
Proof.
  intros Hn Hm. unfold i2c_citrus_probe.
  destruct (pe_node env); simpl; [|lia].
  destruct (pe_kzalloc env); simpl; [|lia].
  destruct (truthy (pe_add_bus env)) eqn:E; simpl; [|eauto].
  intros H. rewrite H in E. discriminate.
Qed.

(** X13.  [citrus_core_probe] makes its requests and sub-probes in the order
    data line, clock line, four-wire master, two-wire adapter, and stops at
    the first that fails: it returns that step's error and none of the later
    steps is made.  An allocation failure returns -ENOMEM before any of
    them.  When the probe returns 0 the driver data of the platform device
    is the private data of the two-wire adapter, which is what
    [citrus_core_remove] hands to [i2c_citrus_remove]. *)
Theorem core_probe_stops_at_first_error :
  forall (env : core_env),
    0 < ENODEV -> 0 < ENOMEM ->
    (forall err, ce_mosi env = ErrPtr err \/ ce_sck env = ErrPtr err -> err < 0) ->
    let statuses := [PTR_ERR_OR_ZERO (ce_mosi env); PTR_ERR_OR_ZERO (ce_sck env);
                     sp_ret (spi_citrus_probe (ce_spi env));
                     pr_ret (i2c_citrus_probe (ce_i2c env))] in
    let r := citrus_core_probe env in
    (ce_kzalloc env = false ->
     cr_ret r = - ENOMEM /\ cr_steps r = [] /\ cr_drvdata r = DrvNone) /\
    (ce_kzalloc env = true ->
     cr_ret r = first_error statuses /\
     cr_steps r = firstn (steps_made statuses) [GetMosi; GetSck; ProbeSpi; ProbeI2c false] /\
     (cr_ret r = 0 ->
      exists priv, pr_priv (i2c_citrus_probe (ce_i2c env)) = Some priv /\
                   cr_drvdata r = DrvPriv priv)).
Proof.
  intros env Hn Hm Herr statuses r. subst statuses r.
  unfold citrus_core_probe, citrus_core_device_init, citrus_core_request.
  split; intros Hk; rewrite Hk; simpl; [auto|].
  destruct (ce_mosi env) as [|e1] eqn:E1; simpl.
  - destruct (ce_sck env) as [|e2] eqn:E2; simpl.
    + destruct (truthy (sp_ret _)) eqn:S; simpl.
      * do 2 (split; [reflexivity|]). intros H. rewrite H in S. discriminate.
      * destruct (truthy (pr_ret _)) eqn:P; simpl.
        -- do 2 (split; [reflexivity|]). intros H. rewrite H in P. discriminate.
        -- apply truthy_zero_iff in P. do 2 (split; [reflexivity|]). intros _.
           destruct (adapter_probe_yields (ce_i2c env) Hn Hm P) as [priv Hp].
           exists priv. rewrite Hp. auto.
    + assert (He : truthy e2 = true).
      { apply truthy_nonzero. specialize (Herr e2 (or_intror eq_refl)). lia. }
      rewrite He. simpl. rewrite He. simpl. do 2 (split; [reflexivity|]).
      intros H. rewrite H in He. discriminate.
  - assert (He : truthy e1 = true).
    { apply truthy_nonzero. specialize (Herr e1 (or_introl eq_refl)). lia. }
    rewrite He. simpl. rewrite He. simpl. do 2 (split; [reflexivity|]).
    intros H. rewrite H in He. discriminate.
Qed.

(** X14.  In the variant with a second clock line the steps are data line,
    first clock line, second clock line, four-wire master, first adapter,
    second adapter.  The first five are mandatory: the probe stops at the
    first of them that fails, returns its error and leaves the driver data
    unset.  The second adapter is optional: when its probe returns -ENODEV
    the platform probe still returns 0 and sets the driver data, whether the
    node is missing or it was [i2c_bit_add_numbered_bus] that answered
    -ENODEV; any other error of the second adapter is returned. *)
Theorem second_adapter_is_optional :
  forall (env : core_env),
    0 < ENODEV -> 0 < ENOMEM ->
    (forall err, ce_mosi env = ErrPtr err \/ ce_sck env = ErrPtr err \/
                 ce_sck2 env = ErrPtr err -> err < 0) ->
    ce_kzalloc env = true ->
    let mandatory := [PTR_ERR_OR_ZERO (ce_mosi env); PTR_ERR_OR_ZERO (ce_sck env);
                      PTR_ERR_OR_ZERO (ce_sck2 env);
                      sp_ret (spi_citrus_probe (ce_spi env));
                      pr_ret (i2c_citrus_probe_scl2 (ce_i2c env) false)] in
    let second := pr_ret (i2c_citrus_probe_scl2 (ce_i2c2 env) true) in
    let r := citrus_core_probe_sck2 env in
    (first_error mandatory <> 0 ->
     cr_ret r = first_error mandatory /\
     cr_steps r = firstn (steps_made mandatory)
                    [GetMosi; GetSck; GetSck2; ProbeSpi; ProbeI2c false] /\
     cr_drvdata r = DrvNone) /\
    (first_error mandatory = 0 ->
     cr_steps r = [GetMosi; GetSck; GetSck2; ProbeSpi; ProbeI2c false; ProbeI2c true] /\
     (second = 0 \/ second = - ENODEV -> cr_ret r = 0 /\ cr_drvdata r = DrvCitrus) /\
     (second <> 0 -> second <> - ENODEV ->
      cr_ret r = second /\ cr_drvdata r = DrvNone)) /\
    (pe_node2 (ce_i2c2 env) <> None -> pe_kzalloc (ce_i2c2 env) = true ->
     pe_add_bus (ce_i2c2 env) = - ENODEV -> second = - ENODEV).
Proof.
  intros env Hn Hm Herr Hk mandatory second r. subst mandatory second r.
  split; [|split].
  - unfold citrus_core_probe_sck2, citrus_core_request_sck2. rewrite Hk. simpl.
    destruct (ce_mosi env) as [|e1] eqn:E1; simpl.
    + destruct (ce_sck env) as [|e2] eqn:E2; simpl.
      * destruct (ce_sck2 env) as [|e3] eqn:E3; simpl.
        -- destruct (truthy (sp_ret _)) eqn:S; simpl; [auto|].
           destruct (truthy (pr_ret _)) eqn:P; simpl; [auto|].
           intros H. contradiction.
        -- assert (He : truthy e3 = true).
           { apply truthy_nonzero. assert (e3 < 0) by (apply Herr; auto). lia. }
           rewrite He. simpl. auto.
      * assert (He : truthy e2 = true).
        { apply truthy_nonzero. assert (e2 < 0) by (apply Herr; auto). lia. }
        rewrite He. simpl. auto.
    + assert (He : truthy e1 = true).
      { apply truthy_nonzero. assert (e1 < 0) by (apply Herr; auto). lia. }
      rewrite He. simpl. auto.
  - intros H0.
    apply first_error_zero_inv in H0. destruct H0 as [Z1 H0].
    apply first_error_zero_inv in H0. destruct H0 as [Z2 H0].
    apply first_error_zero_inv in H0. destruct H0 as [Z3 H0].
    apply first_error_zero_inv in H0. destruct H0 as [Z4 H0].
    apply first_error_zero_inv in H0. destruct H0 as [Z5 _].
    unfold citrus_core_probe_sck2, citrus_core_request_sck2. rewrite Hk. simpl.
    destruct (ce_mosi env) as [|e1] eqn:E1;
      [|exfalso; simpl in Z1; assert (e1 < 0) by (apply Herr; auto); lia].
    destruct (ce_sck env) as [|e2] eqn:E2;
      [|exfalso; simpl in Z2; assert (e2 < 0) by (apply Herr; auto); lia].
    destruct (ce_sck2 env) as [|e3] eqn:E3;
      [|exfalso; simpl in Z3; assert (e3 < 0) by (apply Herr; auto); lia].
    simpl. rewrite Z4, Z5. simpl.
    set (second := pr_ret (i2c_citrus_probe_scl2 (ce_i2c2 env) true)).
    destruct (truthy second) eqn:Ts; simpl.
    + destruct (second =? - ENODEV) eqn:Es; simpl.
      * apply Z.eqb_eq in Es. split; [reflexivity|]. split; [auto|].
        intros A B. contradiction.
      * apply Z.eqb_neq in Es. split; [reflexivity|]. split.
        -- intros [A|A]; [rewrite A in Ts; discriminate | contradiction].
        -- auto.
    + apply truthy_zero_iff in Ts. split; [reflexivity|]. split; [auto|].
      intros A. contradiction.
  - intros Hnode Hkz Hbus. unfold i2c_citrus_probe_scl2.
    destruct (pe_node2 (ce_i2c2 env)); [|contradiction].
    rewrite Hkz, Hbus. simpl. rewrite (truthy_neg_pos _ Hn). reflexivity.
Qed.

End CoreProbeProperties.

Lemma core_probe_stops_at_first_error_witness :
  cr_ret (@citrus_core_probe linux linux_spi core_env_no_sck) = -2 /\
  cr_steps (@citrus_core_probe linux linux_spi core_env_no_sck) = [GetMosi; GetSck] /\
  (cr_ret (@citrus_core_probe linux linux_spi core_env_default) = 0 ->
   exists priv,
     pr_priv (@i2c_citrus_probe linux env_two_clocks) = Some priv /\
     cr_drvdata (@citrus_core_probe linux linux_spi core_env_default) = DrvPriv priv).
Proof.
  destruct (@core_probe_stops_at_first_error linux linux_spi core_env_no_sck)
    as (_ & H); [reflexivity | reflexivity | |].
  { intros err [H|H]; [discriminate | injection H as <-; lia]. }
  destruct (H eq_refl) as (H1 & H2 & _).
  destruct (@core_probe_stops_at_first_error linux linux_spi core_env_default)
    as (_ & H'); [reflexivity | reflexivity | |].
  { intros err [H0|H0]; discriminate. }
  destruct (H' eq_refl) as (_ & _ & H3).
  exact (conj H1 (conj H2 H3)).
Defined.

Lemma second_adapter_is_optional_witness :
  pr_ret (@i2c_citrus_probe_scl2 linux (ce_i2c2 core_env_second_bus_enodev) true) = -19 /\
  cr_ret (@citrus_core_probe_sck2 linux linux_spi core_env_second_bus_enodev) = 0 /\
  cr_drvdata (@citrus_core_probe_sck2 linux linux_spi core_env_second_bus_enodev)
    = DrvCitrus.
Proof.
  destruct (@second_adapter_is_optional linux linux_spi core_env_second_bus_enodev)
    as (_ & H & H2); [reflexivity | reflexivity | | reflexivity |].
  { intros err [H|[H|H]]; discriminate. }
  destruct (H eq_refl) as (_ & H3 & _).
  split; [apply H2; [discriminate | reflexivity | reflexivity]|].
  apply H3. right. apply H2; [discriminate | reflexivity | reflexivity].
Defined.

Section SpiProbeProperties.
Context {K : Kernel} {KS : KernelSpi} {T : BitbangTxrx}.

Lemma spi_probe_past_dt env master :
  sp_master (spi_citrus_probe env) = Some master ->
  sm_txrx_word master <> None ->
  sm_flags master = Z.lor 0 SPI_MASTER_GPIO_SS /\
  sm_txrx_word master
    = Some (if truthy (Z.land (Z.lor 0 SPI_MASTER_GPIO_SS) SPI_MASTER_NO_TX)
            then spec_txrx_words else plain_txrx_words) /\
  sm_mode_bits master
    = Z.lor (Z.lor (Z.lor (Z.lor (Z.lor SPI_3WIRE SPI_3WIRE_HIZ) SPI_CPHA)
                          SPI_CPOL) SPI_CS_HIGH) SPI_LSB_FIRST.
Proof.
  unfold spi_citrus_probe, spi_citrus_probe_dt.
  destruct (se_alloc env); simpl; [|discriminate].
  destruct (se_of_node env); simpl; [|intros [= <-] H; now elim H].
  destruct (se_spi_node env) as [[|]|]; simpl;
    destruct (truthy (- ENODEV)), (truthy (se_bitbang_init env));
    intros [= <-] H; simpl in H |- *; try (now elim H); repeat split.
Qed.

(** X15.  The probe of the four-wire master never installs the word
    procedures that substitute the master's flags.  The master comes zeroed
    from its allocation and the probe sets no flag but SPI_MASTER_GPIO_SS
    before it tests SPI_MASTER_NO_TX; the two being different bits, the test
    fails and the plain procedures are installed, which hand the word loop
    the flags of their caller.  The mode bits the master advertises include
    every bit the callbacks test: 3-wire, its turnaround, clock polarity and
    bit order. *)
Theorem probe_installs_plain_words :
  forall (env : spi_probe_env) (master : spi_master),
    Z.land SPI_MASTER_GPIO_SS SPI_MASTER_NO_TX = 0 ->
    sp_master (spi_citrus_probe env) = Some master ->
    sm_txrx_word master <> None ->
    sm_flags master = SPI_MASTER_GPIO_SS /\
    sm_txrx_word master = Some plain_txrx_words /\
    (forall m spi nsecs word bits flags,
       txrx_word (sm_flags master) m spi nsecs word bits flags
       = word_loop (truthy (Z.land (spi_mode spi) SPI_LSB_FIRST)) (mode_cpha m)
           spi nsecs (mode_cpol m) flags word bits) /\
    (forall bit, In bit [SPI_3WIRE; SPI_3WIRE_HIZ; SPI_CPOL; SPI_LSB_FIRST] ->
                 Z.land (sm_mode_bits master) bit = bit).
Proof.
  intros env master Hbits Hm Hw.
  destruct (spi_probe_past_dt env master Hm Hw) as (Hf & Ht & Hb).
  rewrite Z.lor_0_l in Hf, Ht. rewrite Hbits in Ht. simpl in Ht.
  split; [exact Hf|]. split; [exact Ht|]. split.
  - intros m spi nsecs word bits flags. rewrite Hf. unfold txrx_word.
    rewrite Hbits. simpl.
    destruct m;
      unfold spi_citrus_txrx_word_mode0, spi_citrus_txrx_word_mode1,
        spi_citrus_txrx_word_mode2, spi_citrus_txrx_word_mode3;
      destruct (truthy (Z.land (spi_mode spi) SPI_LSB_FIRST)); reflexivity.
  - intros bit Hin. rewrite Hb. apply Z.bits_inj'. intros n Hn.
    rewrite Z.land_spec, !Z.lor_spec.
    simpl in Hin. destruct Hin as [<-|[<-|[<-|[<-|[]]]]];
      repeat match goal with
             | |- context [Z.testbit ?x n] => destruct (Z.testbit x n)
             end; reflexivity.
Qed.

(** X16.  The probe of the four-wire master returns the error of the first
    step that fails, in the order: allocation (-ENOMEM), the platform
    device's own node (-ENODEV), an available spi-citrus node (-ENODEV),
    [spi_bitbang_init] and [devm_spi_register_master] (their own errors).
    The master is registered exactly when the probe returns 0, and a
    registered master carries the driver's two hardware hooks, which take
    and release the arbiter: they are stored after [spi_bitbang_init]
    succeeded and before the registration.  That is: [spi_bitbang_init] is
    called exactly when the first three steps pass, on a master that has
    the chipselect, direction and word procedures but neither hook;
    [devm_spi_register_master] is called exactly when [spi_bitbang_init]
    returned 0, on a master that has both hooks, which is the master the
    probe leaves; and a probe that does not reach the registration leaves
    a master without the hooks. *)
Theorem master_probe_order :
  forall (env : spi_probe_env),
    0 < ENODEV -> 0 < ENOMEM ->
    let r := spi_citrus_probe env in
    sp_ret r = first_error
                 [if se_alloc env then 0 else - ENOMEM;
                  if se_of_node env then 0 else - ENODEV;
                  match se_spi_node env with Some true => 0 | _ => - ENODEV end;
                  se_bitbang_init env; se_register env] /\
    (sp_registered r = true <-> sp_ret r = 0) /\
    (sp_registered r = true ->
     exists master,
       sp_master r = Some master /\
       sm_prepare_transfer_hardware master = Some fn_spi_citrus_prepare_hardware /\
       sm_unprepare_transfer_hardware master = Some fn_spi_citrus_unprepare_hardware /\
       sm_chipselect master = Some fn_spi_citrus_chipselect /\
       sm_set_line_direction master = Some fn_spi_citrus_set_direction /\
       sm_of_node master = true /\ sm_use_gpio_descriptors master = true) /\
    (sp_at_init r <> None <->
     se_alloc env = true /\ se_of_node env = true /\ se_spi_node env = Some true) /\
    (forall master,
       sp_at_init r = Some master ->
       sm_prepare_transfer_hardware master = None /\
       sm_unprepare_transfer_hardware master = None /\
       sm_chipselect master = Some fn_spi_citrus_chipselect /\
       sm_set_line_direction master = Some fn_spi_citrus_set_direction /\
       sm_txrx_word master <> None /\
       sm_setup_transfer master = Some fn_spi_bitbang_setup_transfer) /\
    (sp_at_register r <> None <-> sp_at_init r <> None /\ se_bitbang_init env = 0) /\
    (forall master,
       sp_at_register r = Some master ->
       sm_prepare_transfer_hardware master = Some fn_spi_citrus_prepare_hardware /\
       sm_unprepare_transfer_hardware master = Some fn_spi_citrus_unprepare_hardware /\
       sp_master r = Some master) /\
    (sp_at_register r = None ->
     forall master,
       sp_master r = Some master ->
       sm_prepare_transfer_hardware master = None /\
       sm_unprepare_transfer_hardware master = None).
Proof.
  intros env Hn Hm r. subst r.
  pose proof (truthy_neg_pos _ Hn) as Tn.
  pose proof (truthy_neg_pos _ Hm) as Tm.
  assert (early : forall (P : Prop), (None <> @None spi_master <-> P) <-> ~ P).
  { intros P. split; [intros [_ H] HP; now apply H | intros H; split; [congruence | tauto]]. }
  unfold spi_citrus_probe, spi_citrus_probe_dt.
  destruct (se_alloc env); simpl.
  2:{ rewrite Tm. split; [reflexivity|]. split; [split; [discriminate|lia]|].
      split; [discriminate|]. split; [apply early; intros (? & _); discriminate|].
      split; [discriminate|]. split; [apply early; intros (? & _); congruence|].
      split; [discriminate|]. discriminate. }
  destruct (se_of_node env); simpl.
  2:{ rewrite Tn. split; [reflexivity|]. split; [split; [discriminate|lia]|].
      split; [discriminate|]. split; [apply early; intros (_ & ? & _); discriminate|].
      split; [discriminate|]. split; [apply early; intros (? & _); congruence|].
      split; [discriminate|]. intros _ master [= <-]. split; reflexivity. }
  destruct (se_spi_node env) as [[|]|]; simpl.
  2,3: rewrite Tn; simpl; split; [reflexivity|];
       (split; [split; [discriminate|lia]|]);
       (split; [discriminate|]);
       (split; [apply early; intros (_ & _ & ?); discriminate|]);
       (split; [discriminate|]);
       (split; [apply early; intros (? & _); congruence|]);
       (split; [discriminate|]); intros _ master [= <-]; split; reflexivity.
  destruct (truthy (se_bitbang_init env)) eqn:B; simpl.
  - split; [reflexivity|].
    split; [split; [discriminate|intros H; rewrite H in B; discriminate]|].
    split; [discriminate|].
    split; [split; [auto | discriminate]|].
    split; [intros master [= <-]; simpl; repeat split; discriminate|].
    split; [apply early; intros (_ & H); rewrite H in B; discriminate|].
    split; [discriminate|]. intros _ master [= <-]. split; reflexivity.
  - apply truthy_zero_iff in B.
    destruct (truthy (se_register env)) eqn:R; simpl.
    + split; [reflexivity|].
      split; [split; [discriminate|intros H; rewrite H in R; discriminate]|].
      split; [discriminate|].
      split; [split; [auto | discriminate]|].
      split; [intros master [= <-]; simpl; repeat split; discriminate|].
      split; [split; [intros _; split; [discriminate | exact B] | discriminate]|].
      split; [intros master [= <-]; simpl; repeat split|]. discriminate.
    + apply truthy_zero_iff in R. split; [exact R|].
      split; [split; auto|].
      split; [intros _; eexists; repeat split|].
      split; [split; [auto | discriminate]|].
      split; [intros master [= <-]; simpl; repeat split; discriminate|].
      split; [split; [intros _; split; [discriminate | exact B] | discriminate]|].
      split; [intros master [= <-]; simpl; repeat split|]. discriminate.
Qed.

End SpiProbeProperties.

Lemma probe_installs_plain_words_witness :
  exists master,
    sp_master (@spi_citrus_probe linux linux_spi spi_env_default) = Some master /\
    sm_flags master = 0x20 /\
    sm_txrx_word master = Some plain_txrx_words.
Proof.
  eexists. split; [reflexivity|].
  destruct (@probe_installs_plain_words linux linux_spi sample_loops spi_env_default _
              eq_refl eq_refl) as (H1 & H2 & _); [discriminate|].
  exact (conj H1 H2).
Defined.

Lemma master_probe_order_witness :
  sp_ret (@spi_citrus_probe linux linux_spi spi_env_default) = 0 /\
  (sp_registered (@spi_citrus_probe linux linux_spi spi_env_default) = true <->
   sp_ret (@spi_citrus_probe linux linux_spi spi_env_default) = 0) /\
  (forall master,
     sp_at_init (@spi_citrus_probe linux linux_spi spi_env_default) = Some master ->
     sm_prepare_transfer_hardware master = None) /\
  (forall master,
     sp_at_register (@spi_citrus_probe linux linux_spi spi_env_default) = Some master ->
     sm_prepare_transfer_hardware master = Some fn_spi_citrus_prepare_hardware).
Proof.
  destruct (@master_probe_order linux linux_spi spi_env_default)
    as (H1 & H2 & _ & _ & H5 & _ & H7 & _); [reflexivity | reflexivity |].
  split; [exact H1|]. split; [exact H2|]. split.
  - intros master Hm. exact (proj1 (H5 master Hm)).
  - intros master Hm. exact (proj1 (H7 master Hm)).
Defined.

(** ** The device tree properties and the debugfs files *)

Section Properties.
Context {K : Kernel}.

(** X17.  The two open-drain flags of the device tree node are read into
    the platform data and used nowhere else: whatever their values, the
    probe returns the same status, installs the same callbacks and timing,
    and creates the same debugfs files. *)
Theorem open_drain_flags_are_unused :
  forall (env : probe_env) (np : device_node) (sda scl : bool),
    let r := i2c_citrus_probe (with_node np env) in
    let r' := i2c_citrus_probe (with_node (with_open_drain sda scl np) env) in
    pr_ret r' = pr_ret r /\
    option_map bit_data (pr_priv r') = option_map bit_data (pr_priv r) /\
    pr_files r' = pr_files r /\
    (forall priv', pr_priv r' = Some priv' ->
       pd_sda_is_open_drain (pdata priv') = sda /\
       pd_scl_is_open_drain (pdata priv') = scl).
Proof.
  intros env np sda scl. unfold i2c_citrus_probe. simpl.
  destruct (pe_kzalloc env); simpl; [|repeat split; discriminate].
  destruct (truthy (pe_add_bus env)); simpl; [repeat split; discriminate|].
  repeat split; injection H as <-; reflexivity.
Qed.

(** X18.  A delay or timeout property that is present with value 0 has the
    effect of an absent one: the probe yields the same adapter, with the
    default half-bit delay and the default timeout, provided 0 milliseconds
    are 0 jiffies. *)
Theorem zero_property_is_absent :
  forall (env : probe_env) (np : device_node),
    msecs_to_jiffies 0 = 0 ->
    i2c_citrus_probe (with_node np env)
    = i2c_citrus_probe (with_node (without_zero_props np) env).
Proof.
  intros env np Hj. unfold i2c_citrus_probe, with_node, without_zero_props,
    of_i2c_gpio_get_props. simpl.
  destruct (prop_delay_us np) as [[|d|d]|], (prop_timeout_ms np) as [[|t|t]|];
    simpl; rewrite ?Hj; reflexivity.
Qed.

(** X19.  The debugfs files of the fault injector: no two share a name, the
    owner may write every one of them, may read exactly those whose
    attribute has a getter (scl and sda; the four actions are write-only),
    and nobody else may do anything.  There are none, four or six of them. *)
Theorem injector_file_modes :
  forall (env : probe_env) (priv : i2c_gpio_private_data),
    let files := i2c_gpio_fault_injector_init env priv in
    NoDup (map df_name files) /\
    (forall f, In f files ->
       Z.testbit (df_mode f) 7 = true /\
       Z.testbit (df_mode f) 8 = fops_has_get (df_fops f) /\
       Z.land (df_mode f) 63 = 0 /\ 0 <= df_mode f < 512) /\
    (List.length files = 0 \/ List.length files = 4 \/ List.length files = 6)%nat.
Proof.
  intros env priv. unfold i2c_gpio_fault_injector_init.
  destruct (negb CONFIG_I2C_GPIO_FAULT_INJECTOR);
    [split; [constructor|]; split; [intros f []|auto]|].
  destruct (negb (pe_debug_dir env) && negb (pe_create_root env));
    [split; [constructor|]; split; [intros f []|auto]|].
  destruct (negb (pe_create_dir env));
    [split; [constructor|]; split; [intros f []|auto]|].
  destruct (bd_getscl (bit_data priv)); simpl.
  - split; [|split; [|auto]].
    + repeat (constructor; [simpl; intuition discriminate|]). constructor.
    + intros f Hf. simpl in Hf.
      repeat (destruct Hf as [<-|Hf]; [simpl; repeat split; lia|]). contradiction.
  - split; [|split; [|auto]].
    + repeat (constructor; [simpl; intuition discriminate|]). constructor.
    + intros f Hf. simpl in Hf.
      repeat (destruct Hf as [<-|Hf]; [simpl; repeat split; lia|]). contradiction.
Qed.

End Properties.

Lemma zero_property_is_absent_witness :
  @i2c_citrus_probe linux
    (with_node {| prop_delay_us := Some 0; prop_timeout_ms := Some 0;
                  prop_sda_open_drain := false; prop_scl_open_drain := false;
                  prop_scl_output_only := false |} env_default)
  = @i2c_citrus_probe linux (with_node node_default env_default).
Proof.
  apply (@zero_property_is_absent linux env_default
           {| prop_delay_us := Some 0; prop_timeout_ms := Some 0;
              prop_sda_open_drain := false; prop_scl_open_drain := false;
              prop_scl_output_only := false |}).
  reflexivity.
Defined.

(** ** The interrupt-synchronized actions, continued *)

Ltac run_action :=
  unfold returns, i2c_gpio_fi_act_on_scl_irq, gpiod_to_irq, i2c_lock_bus,
    i2c_unlock_bus, mutex_lock, mutex_unlock, gpiod_direction_input,
    gpiod_direction_output, reinit_completion, request_irq, free_irq,
    wait_for_completion_interruptible, run_irq_handler,
    inject_panic_irq, panic, halt_with, udelay,
    bind, read, update, emit, ret.

Section ActionsMore.
Context {K : Kernel}.

(** The lose-arbitration handler, with what it leaves of the lines. *)
Lemma lose_arbitration_irq_lines priv w :
  bd_setsda (bit_data priv) = Some fn_i2c_gpio_setsda_val ->
  exists w',
    lose_arbitration_irq priv w = Ok tt w' /\
    w_log w' = w_log w ++ [EvSetValue MOSI false; EvDelay (w_scl_irq_data w);
                           EvSetValue MOSI true] /\
    w_ext w' = w_ext w /\
    line_of SCK w' = line_of SCK w /\
    line_of MOSI w' = with_level true (line_of MOSI w) /\
    w_adap_bus_lock w' = w_adap_bus_lock w /\
    w_scl_irq_data w' = w_scl_irq_data w /\
    w_scl_irq_completion w' = w_scl_irq_completion w + 1.
Proof.
  intros Hsda. unfold lose_arbitration_irq, setsda. rewrite Hsda. simpl call_setter.
  unfold i2c_gpio_setsda_val, citrus_core_set_i2c_sda, gpiod_set_value_cansleep,
    complete, udelay, bind, read, update, emit. simpl.
  eexists. split; [reflexivity|]. simpl. repeat rewrite <- app_assoc.
  repeat split.
Qed.

(** X20.  A duration of up to 100000 microseconds, the bound included, is
    accepted by the lose-arbitration control and stored in [scl_irq_data].
    When the environment cooperates (interrupt found, clock line switched to
    input, interrupt registered, falling clock edge seen, clock line switched
    back) the call returns 0 and the data line was held low for exactly that
    duration, inside the handler, between the registration of the interrupt
    and its release; afterwards the data line is released (high), the clock
    line is an output driven high again, the completion count is back at 0
    and the adapter's bus lock is free. *)
Theorem arbitration_loss_lasts_the_duration :
  forall (env : probe_env) (priv : i2c_gpio_private_data) (duration irq : Z)
         (rest : list Z) (w : world),
    pr_priv (i2c_citrus_probe env) = Some priv ->
    lock_held AdapBusLock w = false ->
    0 <= duration <= 100000 ->
    0 <= irq ->
    w_ext w = irq :: 0 :: 0 :: 0 :: 0 :: rest ->
    exists w',
      returns (fops_lose_arbitration_set priv duration) w 0
        [EvLock AdapBusLock; EvDirectionInput SCK 0;
         EvRequestIrq irq lose_arbitration_irq_fn 0;
         EvSetValue MOSI false; EvDelay duration; EvSetValue MOSI true;
         EvWait 0; EvFreeIrq irq;
         EvDirectionOutput SCK true 0; EvUnlock AdapBusLock] w' /\
      w_scl_irq_data w' = duration /\
      clock_restored w' /\
      gd_level (line_of MOSI w') = true /\
      w_scl_irq_completion w' = 0 /\
      lock_held AdapBusLock w' = false /\
      w_ext w' = rest.
Proof.
  intros env priv duration irq rest w Hp Hfree Hd Hirq Hx.
  destruct (probe_installed env priv Hp) as (Hsda & _).
  simpl in Hfree. apply Z.ltb_ge in Hirq.
  assert (Hgt : (duration >? 100 * 1000) = false)
    by (rewrite Z.gtb_ltb; apply Z.ltb_ge; lia).
  unfold fops_lose_arbitration_set. rewrite Hgt.
  run_action. unfold ask. crank.
  match goal with |- context [lose_arbitration_irq priv ?W] =>
    destruct (lose_arbitration_irq_lines priv W Hsda)
      as (w1 & E & L & X & S & M & A & D & C) end.
  simpl in *. crank.
  eexists. split; [split; [reflexivity|]|].
  - crank. repeat rewrite <- app_assoc. reflexivity.
  - crank. unfold clock_restored, line_of in *. simpl in *.
    repeat split; reflexivity.
Qed.

End ActionsMore.

Lemma arbitration_loss_lasts_the_duration_witness :
  exists w',
    returns (@fops_lose_arbitration_set linux priv_default 100000)
      (world_with true true false [17; 0; 0; 0; 0]) 0
      [EvLock AdapBusLock; EvDirectionInput SCK 0;
       EvRequestIrq 17 lose_arbitration_irq_fn 0;
       EvSetValue MOSI false; EvDelay 100000; EvSetValue MOSI true;
       EvWait 0; EvFreeIrq 17;
       EvDirectionOutput SCK true 0; EvUnlock AdapBusLock] w' /\
    w_scl_irq_data w' = 100000 /\
    clock_restored w' /\
    gd_level (line_of MOSI w') = true /\
    w_scl_irq_completion w' = 0 /\
    lock_held AdapBusLock w' = false /\
    w_ext w' = [].
Proof.
  apply (@arbitration_loss_lasts_the_duration linux env_default priv_default 100000 17 []
           (world_with true true false [17; 0; 0; 0; 0]));
    [reflexivity | reflexivity | lia | lia | reflexivity].
Defined.

Ltac answer_by_answer priv Hsda :=
  repeat (simpl;
          match goal with
          | H : ?x = _ |- context [?x] => rewrite H
          | |- context [ask ?W] => rewrite (ask_eq W)
          | |- context [lose_arbitration_irq priv ?W] =>
              let w1 := fresh "w" in
              let E := fresh "E" in
              let L := fresh "L" in
              let X := fresh "X" in
              let A := fresh "A" in
              destruct (lose_arbitration_irq_lines priv W Hsda)
                as (w1 & E & L & X & _ & _ & A & _ & _);
              simpl in *
          | |- context [if ?x <? 0 then _ else _] => destruct (x <? 0) eqn:?
          | |- context [if truthy ?x then _ else _] => destruct (truthy x) eqn:?
          end).

Ltac balanced :=
  simpl;
  first [ exists []; split; [symmetry; apply app_nil_r|]
        | eexists; split; [crank; repeat rewrite <- app_assoc; reflexivity|] ];
  crank; repeat split; crank; reflexivity.

Section Balance.
Context {K : Kernel}.

(** X21.  Whatever the environment answers, an interrupt-synchronized action
    that returns has released what it took: every interrupt it obtained was
    freed, in order, and none was freed that it had not obtained; every
    accepted switch of the clock line to input was followed by a request to
    switch it back to output; and the adapter's bus lock is free.  The action
    fails to return only when the fatal-stop handler ran. *)
Theorem scl_irq_action_is_balanced :
  forall (env : probe_env) (priv : i2c_gpio_private_data) (h : irq_handler) (w : world),
    pr_priv (i2c_citrus_probe env) = Some priv ->
    lock_held AdapBusLock w = false ->
    match i2c_gpio_fi_act_on_scl_irq priv h w with
    | Ok r w' =>
        exists tr,
          w_log w' = w_log w ++ tr /\
          irqs_requested tr = irqs_freed tr /\
          inputs_granted SCK tr = outputs_requested SCK tr /\
          lock_held AdapBusLock w' = false
    | Halt stop w' => stop = Panic /\ h = inject_panic_irq_fn
    end.
Proof.
  intros env priv h w Hp Hfree.
  destruct (probe_installed env priv Hp) as (Hsda & _).
  simpl in Hfree.
  run_action. answer_by_answer priv Hsda; try balanced.
  all: destruct h; simpl; answer_by_answer priv Hsda; try balanced.
  all: split; reflexivity.
Qed.

(** X22.  The two interrupt-synchronized controls store an accepted duration
    in [scl_irq_data] before they ask for the adapter's bus lock, and whether
    or not they ever get it.  When the interrupt lookup fails the call
    returns the error with the duration stored and nothing else changed; when
    the bus lock is held by another party the call waits on it with the
    duration already overwritten. *)
Theorem duration_is_stored_outside_the_lock :
  forall (priv : i2c_gpio_private_data) (duration : Z) (w : world),
    0 <= duration <= 100000 ->
    let irq := hd 0 (w_ext w) in
    (irq < 0 ->
     fops_lose_arbitration_set priv duration w
       = Ok irq (set_ext (tl (w_ext w)) (set_scl_irq_data duration w)) /\
     fops_inject_panic_set priv duration w
       = Ok irq (set_ext (tl (w_ext w)) (set_scl_irq_data duration w))) /\
    (0 <= irq -> lock_held AdapBusLock w = true ->
     fops_lose_arbitration_set priv duration w
       = Halt (Blocked AdapBusLock) (set_ext (tl (w_ext w)) (set_scl_irq_data duration w)) /\
     fops_inject_panic_set priv duration w
       = Halt (Blocked AdapBusLock) (set_ext (tl (w_ext w)) (set_scl_irq_data duration w))).
Proof.
  intros priv duration w Hd irq.
  assert (Hgt : (duration >? 100 * 1000) = false)
    by (rewrite Z.gtb_ltb; apply Z.ltb_ge; lia).
  unfold fops_lose_arbitration_set, fops_inject_panic_set. rewrite Hgt.
  split.
  - intros Hirq. apply Z.ltb_lt in Hirq.
    unfold i2c_gpio_fi_act_on_scl_irq, gpiod_to_irq, bind, update, ret.
    rewrite ask_eq. simpl. fold irq. rewrite Hirq. split; reflexivity.
  - intros Hirq Hheld. apply Z.ltb_ge in Hirq. simpl in Hheld.
    unfold i2c_gpio_fi_act_on_scl_irq, gpiod_to_irq, i2c_lock_bus, mutex_lock,
      halt_with, bind, update, read.
    rewrite ask_eq. simpl. fold irq. rewrite Hirq. simpl. rewrite Hheld.
    split; reflexivity.
Qed.

End Balance.

Lemma scl_irq_action_is_balanced_witness :
  match i2c_gpio_fi_act_on_scl_irq priv_default lose_arbitration_irq_fn
          (world_with true true false [17; 0; 0; -512; -5]) with
  | Ok r w' =>
      exists tr,
        w_log w' = w_log (world_with true true false [17; 0; 0; -512; -5]) ++ tr /\
        irqs_requested tr = irqs_freed tr /\
        inputs_granted SCK tr = outputs_requested SCK tr /\
        lock_held AdapBusLock w' = false
  | Halt stop w' => stop = Panic /\ lose_arbitration_irq_fn = inject_panic_irq_fn
  end.
Proof.
  apply (@scl_irq_action_is_balanced linux env_default priv_default lose_arbitration_irq_fn
           (world_with true true false [17; 0; 0; -512; -5])); reflexivity.
Defined.

Lemma duration_is_stored_outside_the_lock_witness :
  @fops_lose_arbitration_set linux priv_default 250 (world_with true true false [-6])
  = Ok (-6) (set_ext [] (set_scl_irq_data 250 (world_with true true false [-6]))) /\
  @fops_inject_panic_set linux priv_default 250 (world_with true true false [-6])
  = Ok (-6) (set_ext [] (set_scl_irq_data 250 (world_with true true false [-6]))).
Proof.
  destruct (@duration_is_stored_outside_the_lock linux priv_default 250
              (world_with true true false [-6])) as (H & _); [lia|].
  apply H. simpl. lia.
Defined.

Section FatalStop.
Context {K : Kernel}.

(** X23.  The fatal-stop control, given a duration of up to 100000
    microseconds and a cooperating environment (interrupt found, clock line
    switched to input, interrupt registered, falling clock edge seen): the
    handler waits for exactly the duration and panics.  At that point the
    adapter's bus lock is held, the interrupt is still registered and the
    clock line is still an input: nothing is undone before the panic. *)
Theorem fatal_stop_after_the_duration :
  forall (env : probe_env) (priv : i2c_gpio_private_data) (duration irq : Z)
         (rest : list Z) (w : world),
    pr_priv (i2c_citrus_probe env) = Some priv ->
    lock_held AdapBusLock w = false ->
    0 <= duration <= 100000 ->
    0 <= irq ->
    w_ext w = irq :: 0 :: 0 :: 0 :: rest ->
    exists w',
      fops_inject_panic_set priv duration w = Halt Panic w' /\
      w_log w' = w_log w ++ [EvLock AdapBusLock; EvDirectionInput SCK 0;
                             EvRequestIrq irq inject_panic_irq_fn 0;
                             EvDelay duration] /\
      lock_held AdapBusLock w' = true /\
      gd_dir (line_of SCK w') = GPIO_IN /\
      w_scl_irq_data w' = duration.
Proof.
  intros env priv duration irq rest w Hp Hfree Hd Hirq Hx.
  simpl in Hfree. apply Z.ltb_ge in Hirq.
  assert (Hgt : (duration >? 100 * 1000) = false)
    by (rewrite Z.gtb_ltb; apply Z.ltb_ge; lia).
  unfold fops_inject_panic_set. rewrite Hgt.
  run_action. unfold ask. crank.
  eexists. split; [reflexivity|]. crank.
  repeat rewrite <- app_assoc. repeat split.
Qed.

End FatalStop.

Lemma fatal_stop_after_the_duration_witness :
  exists w',
    @fops_inject_panic_set linux priv_default 40 (world_with true true false [17; 0; 0; 0])
      = Halt Panic w' /\
    w_log w' = w_log (world_with true true false [17; 0; 0; 0])
               ++ [EvLock AdapBusLock; EvDirectionInput SCK 0;
                   EvRequestIrq 17 inject_panic_irq_fn 0; EvDelay 40] /\
    lock_held AdapBusLock w' = true /\
    gd_dir (line_of SCK w') = GPIO_IN /\
    w_scl_irq_data w' = 40.
Proof.
  apply (@fatal_stop_after_the_duration linux env_default priv_default 40 17 []
           (world_with true true false [17; 0; 0; 0]));
    [reflexivity | reflexivity | lia | lia | reflexivity].
Defined.

Section TimingInvariant.
Context {K : Kernel}.

(** X24.  No adapter leaves a probe with a zero half-bit delay, and none
    with a zero clock-stretch timeout when a second has at least ten
    jiffies: a configured zero is replaced by the default, and the defaults
    are not zero.  Every adapter allows atomic transfers. *)
Theorem adapter_timing_is_never_zero :
  forall (env : probe_env) (scl2 : bool) (priv : i2c_gpio_private_data),
    (pr_priv (i2c_citrus_probe env) = Some priv \/
     pr_priv (i2c_citrus_probe_scl2 env scl2) = Some priv) ->
    10 <= HZ ->
    bd_udelay (bit_data priv) <> 0 /\
    bd_timeout (bit_data priv) <> 0 /\
    bd_can_do_atomic (bit_data priv) = true.
Proof.
  intros env scl2 priv H Hz.
  destruct (probe_timing env scl2 priv H) as (np & _ & Eu & Et).
  split; [|split].
  - rewrite Eu. destruct (truthy (pd_udelay (pdata priv))) eqn:E.
    + intros Z0. rewrite Z0 in E. discriminate.
    + destruct (pd_scl_is_output_only (pdata priv)); discriminate.
  - rewrite Et. destruct (truthy (pd_timeout (pdata priv))) eqn:E.
    + intros Z0. rewrite Z0 in E. discriminate.
    + rewrite Z.quot_div_nonneg by lia.
      assert (1 <= HZ / 10) by (apply Z.div_le_lower_bound; lia). lia.
  - destruct H as [H|H].
    + unfold i2c_citrus_probe in H.
      destruct (pe_node env); [|discriminate].
      destruct (negb (pe_kzalloc env)); [discriminate|].
      destruct (truthy (pe_add_bus env)); [discriminate|].
      now injection H as <-.
    + unfold i2c_citrus_probe_scl2 in H.
      destruct (if scl2 then pe_node2 env else pe_node env); [|discriminate].
      destruct (negb (pe_kzalloc env)); [discriminate|].
      destruct (truthy (pe_add_bus env)); [discriminate|].
      destruct (truthy (pe_add_action env)); [discriminate|].
      now injection H as <-.
Qed.

End TimingInvariant.

Lemma adapter_timing_is_never_zero_witness :
  bd_udelay (bit_data priv_output_only) <> 0 /\
  bd_timeout (bit_data priv_output_only) <> 0 /\
  bd_can_do_atomic (bit_data priv_output_only) = true.
Proof.
  apply (@adapter_timing_is_never_zero linux env_output_only false priv_output_only);
    [left; reflexivity | simpl; lia].
Defined.
